(** * gswx: the METAR decoder of [gswx_classes.py]

    A shallow embedding of [PointMETAR] (its constructor, [parse], [parse_cav],
    [parse_ceil], [parse_vis] and [parse_wx]) together with the three code
    tables, and the properties of the decoder proved over it.

    Conventions.
    - A Python [str] is a [string] of ASCII characters; a list of [str] is a
      [list string].
    - A raised exception is [Err e] with [e] the exception's class; a method
      that mutates [self] takes [self] and returns the updated object.  An
      exception raised inside [__init__] leaves the caller with no object.
    - [datetime.date.today()] is the one ambient input of [parse]: it is an
      explicit argument, [today].
    - Python's [float] and its two operations used by [parse_vis] are an
      interface ([PyFloat]); every theorem about [parse] holds for each of its
      implementations. *)

From Stdlib Require Import Bool Arith ZArith Lia List Ascii String.
From Stdlib Require Import Numbers.DecimalString Floats.SpecFloat.
From Stdlib Require Import Sorting.Permutation Sorting.Sorted.
Import ListNotations.

Open Scope string_scope.
Open Scope list_scope.

(* ================================================================== *)
(** ** Exceptions and the result monad *)

Inductive exn : Type :=
  | IndexError
  | ValueError
  | AttributeError
  | KeyError
  | ZeroDivisionError.

Inductive result (A : Type) : Type :=
  | Ok (a : A)
  | Err (e : exn).

Arguments Ok {A} a.
Arguments Err {A} e.

Definition bind {A B : Type} (r : result A) (k : A -> result B) : result B :=
  match r with
  | Ok a => k a
  | Err e => Err e
  end.

Notation "x <- c ;; k" := (bind c (fun x => k))
  (at level 61, c at next level, right associativity).

Definition fmap {A B : Type} (f : A -> B) (r : result A) : result B :=
  match r with
  | Ok a => Ok (f a)
  | Err e => Err e
  end.

(** [try: ... except ValueError: ...] *)
Definition except_ValueError {A : Type} (r : result A) (handler : result A)
  : result A :=
  match r with
  | Err ValueError => handler
  | other => other
  end.

(* ================================================================== *)
(** ** Python string operations *)

Module Str.

(** [s[:n]] for [0 <= n]. *)
Fixpoint take (n : nat) (s : string) : string :=
  match n, s with
  | S n', String c s' => String c (take n' s')
  | _, _ => ""
  end.

(** [s[n:]] for [0 <= n]. *)
Fixpoint drop (n : nat) (s : string) : string :=
  match n, s with
  | S n', String _ s' => drop n' s'
  | _, _ => s
  end.

(** [s[a:b]] for [0 <= a <= b]. *)
Definition slice (a b : nat) (s : string) : string := take (b - a) (drop a s).

(** [s[:-n]] for [0 < n]: all but the last [n] characters, the empty
    string when [s] is shorter. *)
Definition drop_last (n : nat) (s : string) : string :=
  take (String.length s - n) s.

(** [s.startswith(p)] *)
Fixpoint startswith (s p : string) : bool :=
  match p, s with
  | "", _ => true
  | String a p', String b s' => Ascii.eqb a b && startswith s' p'
  | String _ _, "" => false
  end.

(** [s.endswith(suf)] *)
Definition endswith (s suf : string) : bool :=
  Nat.leb (String.length suf) (String.length s)
  && String.eqb (drop (String.length s - String.length suf) s) suf.

(** [sub in s] *)
Fixpoint contains (sub s : string) : bool :=
  startswith s sub
  || match s with
     | "" => false
     | String _ s' => contains sub s'
     end.

(** [s.split(sep)] for a one-character separator: no collapsing of
    repeated separators, and [[""]] for the empty string. *)
Fixpoint split (sep : ascii) (s : string) : list string :=
  match s with
  | "" => [""]
  | String c s' =>
      if Ascii.eqb c sep then "" :: split sep s'
      else match split sep s' with
           | w :: ws => String c w :: ws
           | [] => [String c ""]
           end
  end.

(** [sep.join(l)] *)
Fixpoint join (sep : string) (l : list string) : string :=
  match l with
  | [] => ""
  | [w] => w
  | w :: ws => w ++ sep ++ join sep ws
  end.

(** [x in l] for a list of strings. *)
Definition mem (x : string) (l : list string) : bool :=
  existsb (String.eqb x) l.

End Str.

(* ================================================================== *)
(** ** Python's [int(str)] and [str(int)] *)

Module Py.

Definition is_digit (c : ascii) : bool :=
  let n := nat_of_ascii c in Nat.leb 48 n && Nat.leb n 57.

(** The ASCII characters [int] and [float] skip around a literal: tab to
    carriage return, and the space. *)
Definition is_space (c : ascii) : bool :=
  let n := nat_of_ascii c in
  (Nat.leb 9 n && Nat.leb n 13) || Nat.eqb n 32.

Definition digit_val (c : ascii) : Z := Z.of_nat (nat_of_ascii c - 48).

Fixpoint lstrip (s : string) : string :=
  match s with
  | String c s' => if is_space c then lstrip s' else s
  | "" => ""
  end.

Fixpoint rstrip (s : string) : string :=
  match s with
  | "" => ""
  | String c s' =>
      match rstrip s' with
      | "" => if is_space c then "" else String c ""
      | t => String c t
      end
  end.

Definition strip (s : string) : string := rstrip (lstrip s).

(** The digits of an integer literal after its first digit: single
    underscores may separate digits, and the literal ends on a digit. *)
Fixpoint int_digits (acc : Z) (after_underscore : bool) (s : string)
  : result Z :=
  match s with
  | "" => if after_underscore then Err ValueError else Ok acc
  | String c s' =>
      if Ascii.eqb c "_" then
        if after_underscore then Err ValueError else int_digits acc true s'
      else if is_digit c then
        int_digits (10 * acc + digit_val c) false s'
      else Err ValueError
  end.

Definition int_unsigned (s : string) : result Z :=
  match s with
  | String c s' =>
      if is_digit c then int_digits (digit_val c) false s'
      else Err ValueError
  | "" => Err ValueError
  end.

(** [int(s)] in base 10: surrounding white space, an optional sign, then
    decimal digits; [ValueError] otherwise. *)
Definition int (s : string) : result Z :=
  match strip s with
  | String "-" s' => fmap Z.opp (int_unsigned s')
  | String "+" s' => int_unsigned s'
  | s' => int_unsigned s'
  end.

(** [str(n)] *)
Definition str (n : Z) : string := NilZero.string_of_int (Z.to_int n).

End Py.

(* ================================================================== *)
(** ** The code tables *)

(** A dict literal, in insertion order (the order its keys iterate in). *)
Definition dict (V : Type) : Type := list (string * V).

Definition keys {V : Type} (d : dict V) : list string := map fst d.

(** [d[k]], raising [KeyError] *)
Fixpoint getitem {V : Type} (d : dict V) (k : string) : result V :=
  match d with
  | [] => Err KeyError
  | (k', v) :: d' => if String.eqb k k' then Ok v else getitem d' k
  end.

(** "metar code": (name, is_severe) *)
Definition METAR_WXCODES : dict (string * bool) :=
  [ ("BR", ("mist", false));
    ("DS", ("dust storm", true));
    ("DU", ("widespread dust", false));
    ("DZ", ("drizzle", false));
    ("FG", ("fog", false));
    ("FC", ("tornado", true));
    ("FU", ("smoke", false));
    ("GR", ("hail", true));
    ("GS", ("small hail", false));
    ("HZ", ("haze", false));
    ("IC", ("ice crystals", false));
    ("PL", ("ice pellets", false));
    ("PO", ("dust devils", true));
    ("RA", ("rain", false));
    ("SA", ("sand", false));
    ("SG", ("snow grains", false));
    ("SH", ("shower", false));
    ("SN", ("snow", false));
    ("SQ", ("squall", true));
    ("SS", ("sandstorm", true));
    ("TS", ("thunderstorm", true));
    ("VA", ("volcanic ash", true));
    ("UP", ("unidentified precip", false)) ].

(** "metar code": ("name", order) *)
Definition METAR_WXMODS : dict (string * Z) :=
  [ ("+", ("heavy", 100%Z));
    ("-", ("slight", 100%Z));
    ("BC", ("patches", (-5)%Z));
    ("BL", ("blowing", 5%Z));
    ("DR", ("low drifting", 4%Z));
    ("FZ", ("freezing", 6%Z));
    ("MI", ("shallow", 3%Z));
    ("VC", ("in vicinity", (-6)%Z));
    ("RE", ("recent", 2%Z)) ].

(** "type": ("name", octas).  The decoder never reads the octas; they are
    kept here in halves of an octa (1.5 is 3, 3.5 is 7, -1 is -2). *)
Definition CLOUDS : dict (string * Z) :=
  [ ("SKC", ("clear", 0%Z));
    ("NSC", ("no significant clouds", 0%Z));
    ("FEW", ("few", 3%Z));
    ("SCT", ("scattered", 7%Z));
    ("BKN", ("broken", 12%Z));
    ("OVC", ("overcase", 16%Z));
    ("CB", ("cumulonimbus", (-2)%Z));
    ("TCU", ("thunderstorm", (-2)%Z)) ].

(* ================================================================== *)
(** ** Regular expressions, as a backtracking matcher

    A matcher lists, in the order a backtracking engine tries them, the
    ways to match a prefix of its input: the text matched and the rest. *)

Module Re.

Definition matcher : Type := string -> list (string * string).

Definition m_chr (p : ascii -> bool) : matcher :=
  fun s =>
    match s with
    | String c s' => if p c then [(String c "", s')] else []
    | "" => []
    end.

Definition m_eps : matcher := fun s => [("", s)].

Definition m_seq (a b : matcher) : matcher :=
  fun s =>
    flat_map (fun xr : string * string =>
                map (fun yr : string * string =>
                       ((fst xr ++ fst yr)%string, snd yr))
                    (b (snd xr)))
             (a s).

Definition m_alt (a b : matcher) : matcher := fun s => a s ++ b s.

(** [a?], greedy *)
Definition m_opt (a : matcher) : matcher := m_alt a m_eps.

(** [a{0,n}], greedy *)
Fixpoint m_upto (n : nat) (a : matcher) : matcher :=
  match n with
  | O => m_eps
  | S n' => m_opt (m_seq a (m_upto n' a))
  end.

Definition between (lo hi : ascii) (c : ascii) : bool :=
  Nat.leb (nat_of_ascii lo) (nat_of_ascii c)
  && Nat.leb (nat_of_ascii c) (nat_of_ascii hi).

Definition lit (x : ascii) (c : ascii) : bool := Ascii.eqb x c.

(** [\d], [[0-9]] *)
Definition d_ : matcher := m_chr (between "0" "9").

(** [re.match]: whether some prefix of [s] matches. *)
Definition re_match (r : matcher) (s : string) : bool :=
  match r s with
  | [] => false
  | _ :: _ => true
  end.

Module Notations.
Infix ">>" := m_seq (at level 40, left associativity).
Infix "|||" := m_alt (at level 50, left associativity).
End Notations.

End Re.

(* ================================================================== *)
(** ** [datetime]: the two library calls of [parse]

    [d.strftime("%Y%m")] and [datetime.strptime(s, "%Y%m%d%H%M%z")].  The
    second is the library's regular expression for that format, matched with
    its backtracking order, followed by the library's conversion of the
    groups. *)

Module Datetime.

Record date : Type := mkdate { year : Z; month : Z; day : Z }.

Record datetime : Type := mkdatetime {
  dt_year : Z;
  dt_month : Z;
  dt_day : Z;
  dt_hour : Z;
  dt_minute : Z;
  dt_utcoffset : Z * Z   (* seconds, microseconds *)
}.

(** [s.zfill(n)] for a string without a sign. *)
Definition zfill (n : nat) (s : string) : string :=
  string_of_list_ascii (repeat "0"%char (n - String.length s)) ++ s.

(** [d.strftime("%Y%m")]: four digits of year, two of month. *)
Definition strftime_Ym (d : date) : string :=
  zfill 4 (Py.str (year d)) ++ zfill 2 (Py.str (month d)).

Import Re Re.Notations.

(** [\d\d\d\d] *)
Definition re_Y : matcher := d_ >> d_ >> d_ >> d_.

(** [1[0-2]|0[1-9]|[1-9]] *)
Definition re_m : matcher :=
  (m_chr (lit "1") >> m_chr (between "0" "2"))
  ||| (m_chr (lit "0") >> m_chr (between "1" "9"))
  ||| m_chr (between "1" "9").

(** [3[0-1]|[1-2]\d|0[1-9]|[1-9]| [1-9]] *)
Definition re_d : matcher :=
  (m_chr (lit "3") >> m_chr (between "0" "1"))
  ||| (m_chr (between "1" "2") >> d_)
  ||| (m_chr (lit "0") >> m_chr (between "1" "9"))
  ||| m_chr (between "1" "9")
  ||| (m_chr (lit " ") >> m_chr (between "1" "9")).

(** [2[0-3]|[0-1]\d|\d] *)
Definition re_H : matcher :=
  (m_chr (lit "2") >> m_chr (between "0" "3"))
  ||| (m_chr (between "0" "1") >> d_)
  ||| d_.

(** [[0-5]\d|\d] *)
Definition re_M : matcher :=
  (m_chr (between "0" "5") >> d_) ||| d_.

(** [[+-]\d\d:?[0-5]\d(:?[0-5]\d(\.\d{1,6})?)?|Z] *)
Definition re_z : matcher :=
  (m_chr (fun c => lit "+" c || lit "-" c) >> d_ >> d_
   >> m_opt (m_chr (lit ":")) >> m_chr (between "0" "5") >> d_
   >> m_opt (m_opt (m_chr (lit ":")) >> m_chr (between "0" "5") >> d_
             >> m_opt (m_chr (lit ".") >> d_ >> m_upto 5 d_)))
  ||| m_chr (lit "Z").

(** The groups of a match of the whole format, and the text left over. *)
Record groups : Type := mkgroups {
  g_Y : string; g_m : string; g_d : string;
  g_H : string; g_M : string; g_z : string;
  g_rest : string
}.

Definition matches (s : string) : list groups :=
  flat_map (fun Y =>
  flat_map (fun m =>
  flat_map (fun d =>
  flat_map (fun H =>
  flat_map (fun M =>
  map (fun z => mkgroups (fst Y) (fst m) (fst d) (fst H) (fst M) (fst z) (snd z))
      (re_z (snd M)))
    (re_M (snd H)))
    (re_H (snd d)))
    (re_d (snd m)))
    (re_m (snd Y)))
    (re_Y s).

(** *** The conversion of the groups *)

(** The [%z] group as an offset: seconds and microseconds. *)
Definition tz_of_z (z0 : string) : result (Z * Z) :=
  if String.eqb z0 "Z" then Ok (0, 0)%Z
  else
    z <- (if String.eqb (Str.slice 3 4 z0) ":" then
            let z := (Str.take 3 z0 ++ Str.drop 4 z0)%string in
            if Nat.ltb 5 (String.length z) then
              if String.eqb (Str.slice 5 6 z) ":"
              then Ok (Str.take 5 z ++ Str.drop 6 z)%string
              else Err ValueError
            else Ok z
          else Ok z0) ;;
    hours <- Py.int (Str.slice 1 3 z) ;;
    minutes <- Py.int (Str.slice 3 5 z) ;;
    seconds <- (if String.eqb (Str.slice 5 7 z) "" then Ok 0%Z
                else Py.int (Str.slice 5 7 z)) ;;
    let gmtoff := (hours * 60 * 60 + minutes * 60 + seconds)%Z in
    let remainder := Str.drop 8 z in
    let padding :=
      string_of_list_ascii (repeat "0"%char (6 - String.length remainder)) in
    fraction <- Py.int (remainder ++ padding) ;;
    if Str.startswith z "-" then Ok (- gmtoff, - fraction)%Z
    else Ok (gmtoff, fraction).

Definition is_leap (y : Z) : bool :=
  ((y mod 4 =? 0) && (negb (y mod 100 =? 0) || (y mod 400 =? 0)))%Z.

Definition days_in_month (y m : Z) : Z :=
  if (m =? 2)%Z then (if is_leap y then 29 else 28)%Z
  else if ((m =? 4) || (m =? 6) || (m =? 9) || (m =? 11))%Z then 30%Z
  else 31%Z.

(** The checks of [datetime.date(y, m, d)]. *)
Definition valid_date (y m d : Z) : bool :=
  ((1 <=? y) && (y <=? 9999) && (1 <=? m) && (m <=? 12)
   && (1 <=? d) && (d <=? days_in_month y m))%Z.

(** The check of [datetime.timezone(offset)]: strictly within a day. *)
Definition valid_offset (off : Z * Z) : bool :=
  (Z.abs (fst off * 1000000 + snd off) <? 24 * 60 * 60 * 1000000)%Z.

(** [datetime.datetime.strptime(s, "%Y%m%d%H%M%z")] *)
Definition strptime (s : string) : result datetime :=
  match matches s with
  | [] => Err ValueError            (* does not match the format *)
  | g :: _ =>
      if negb (String.eqb (g_rest g) "") then
        Err ValueError              (* unconverted data remains *)
      else
        y <- Py.int (g_Y g) ;;
        m <- Py.int (g_m g) ;;
        d <- Py.int (g_d g) ;;
        H <- Py.int (g_H g) ;;
        M <- Py.int (g_M g) ;;
        off <- tz_of_z (g_z g) ;;
        if valid_date y m d && valid_offset off
        then Ok (mkdatetime y m d H M off)
        else Err ValueError
  end.

End Datetime.

(* ================================================================== *)
(** ** Python's [float]

    [parse_vis] uses two operations of [float]: the conversion of a string
    and the division.  They are kept as an interface. *)

Class PyFloat : Type := {
  float : Type;
  (** [float(s)] *)
  float_of_str : string -> result float;
  (** [a / b] *)
  float_truediv : float -> float -> result float
}.

(** The exceptions the two operations raise: [ValueError] for a string that
    is no number, [ZeroDivisionError] for a zero divisor. *)
Class PyFloatRaises (F : PyFloat) : Prop := {
  float_of_str_raises :
    forall s e, float_of_str s = Err e -> e = ValueError;
  float_truediv_raises :
    forall x y e, float_truediv x y = Err e -> e = ZeroDivisionError
}.

(* ================================================================== *)
(** ** Lists and loops *)

(** [l[0]] *)
Definition item0 {A : Type} (l : list A) : result A :=
  match l with
  | x :: _ => Ok x
  | [] => Err IndexError
  end.

(** [l.index(x)], raising [ValueError] *)
Fixpoint index (x : string) (l : list string) : result nat :=
  match l with
  | [] => Err ValueError
  | y :: l' => if String.eqb y x then Ok O else fmap S (index x l')
  end.

(** A loop that builds a list and stops at the first exception. *)
Fixpoint mapM {A B : Type} (f : A -> result B) (l : list A) : result (list B) :=
  match l with
  | [] => Ok []
  | x :: l' => y <- f x ;; ys <- mapM f l' ;; Ok (y :: ys)
  end.

(** [list.sort(key=...)]: the keys are computed first, then the list is
    sorted by key, ascending, elements of equal key keeping their order. *)
Fixpoint insert_by_key {A : Type} (x : Z * A) (l : list (Z * A)) : list (Z * A) :=
  match l with
  | [] => [x]
  | y :: l' => if (fst x <=? fst y)%Z then x :: l else y :: insert_by_key x l'
  end.

Definition stable_sort {A : Type} (l : list (Z * A)) : list (Z * A) :=
  fold_right insert_by_key [] l.

Definition sort_by_key {A : Type} (key : A -> result Z) (l : list A)
  : result (list A) :=
  ks <- mapM key l ;;
  Ok (map snd (stable_sort (combine ks l))).

(* ================================================================== *)
(** ** [PointMETAR] *)

Section PointMETAR.

Context {F : PyFloat}.

(** [winddir] holds an [int] or a [str]; [vis] an [int] or a [float]. *)
Inductive int_or_str : Type :=
  | IsInt (n : Z)
  | IsStr (s : string).

Inductive number : Type :=
  | Int (n : Z)
  | Float (x : float).

(** The attributes [parse] assigns, a [None] as [None].  ([press] and
    [location] are set by [__init__] and never assigned again.) *)
Record PointMETAR : Type := mkPointMETAR {
  metar_string : string;
  temp : option Z;
  dewpt : option Z;
  windspd : option Z;
  winddir : option int_or_str;
  windgust : option Z;
  clouds : list string;
  vis : option number;
  auto : option bool;
  loc_code : option string;
  timestamp : option Datetime.datetime;
  weather : option string;
  remarks : option (list string)
}.

Definition set_temp (v : option Z) (o : PointMETAR) : PointMETAR :=
  mkPointMETAR (metar_string o) v (dewpt o) (windspd o) (winddir o) (windgust o) (clouds o) (vis o) (auto o) (loc_code o) (timestamp o) (weather o) (remarks o).

Definition set_dewpt (v : option Z) (o : PointMETAR) : PointMETAR :=
  mkPointMETAR (metar_string o) (temp o) v (windspd o) (winddir o) (windgust o) (clouds o) (vis o) (auto o) (loc_code o) (timestamp o) (weather o) (remarks o).

Definition set_windspd (v : option Z) (o : PointMETAR) : PointMETAR :=
  mkPointMETAR (metar_string o) (temp o) (dewpt o) v (winddir o) (windgust o) (clouds o) (vis o) (auto o) (loc_code o) (timestamp o) (weather o) (remarks o).

Definition set_winddir (v : option int_or_str) (o : PointMETAR) : PointMETAR :=
  mkPointMETAR (metar_string o) (temp o) (dewpt o) (windspd o) v (windgust o) (clouds o) (vis o) (auto o) (loc_code o) (timestamp o) (weather o) (remarks o).

Definition set_windgust (v : option Z) (o : PointMETAR) : PointMETAR :=
  mkPointMETAR (metar_string o) (temp o) (dewpt o) (windspd o) (winddir o) v (clouds o) (vis o) (auto o) (loc_code o) (timestamp o) (weather o) (remarks o).

Definition set_clouds (v : list string) (o : PointMETAR) : PointMETAR :=
  mkPointMETAR (metar_string o) (temp o) (dewpt o) (windspd o) (winddir o) (windgust o) v (vis o) (auto o) (loc_code o) (timestamp o) (weather o) (remarks o).

Definition set_vis (v : option number) (o : PointMETAR) : PointMETAR :=
  mkPointMETAR (metar_string o) (temp o) (dewpt o) (windspd o) (winddir o) (windgust o) (clouds o) v (auto o) (loc_code o) (timestamp o) (weather o) (remarks o).

Definition set_auto (v : option bool) (o : PointMETAR) : PointMETAR :=
  mkPointMETAR (metar_string o) (temp o) (dewpt o) (windspd o) (winddir o) (windgust o) (clouds o) (vis o) v (loc_code o) (timestamp o) (weather o) (remarks o).

Definition set_loc_code (v : option string) (o : PointMETAR) : PointMETAR :=
  mkPointMETAR (metar_string o) (temp o) (dewpt o) (windspd o) (winddir o) (windgust o) (clouds o) (vis o) (auto o) v (timestamp o) (weather o) (remarks o).

Definition set_timestamp (v : option Datetime.datetime) (o : PointMETAR) : PointMETAR :=
  mkPointMETAR (metar_string o) (temp o) (dewpt o) (windspd o) (winddir o) (windgust o) (clouds o) (vis o) (auto o) (loc_code o) v (weather o) (remarks o).

Definition set_weather (v : option string) (o : PointMETAR) : PointMETAR :=
  mkPointMETAR (metar_string o) (temp o) (dewpt o) (windspd o) (winddir o) (windgust o) (clouds o) (vis o) (auto o) (loc_code o) (timestamp o) v (remarks o).

Definition set_remarks (v : option (list string)) (o : PointMETAR) : PointMETAR :=
  mkPointMETAR (metar_string o) (temp o) (dewpt o) (windspd o) (winddir o) (windgust o) (clouds o) (vis o) (auto o) (loc_code o) (timestamp o) (weather o) v.

(** The object as [__init__] sets it up before it calls [parse]. *)
Definition PointMETAR_new (metar_string : string) : PointMETAR :=
  mkPointMETAR metar_string None None None None None [] None None None
               None None None.

(** *** [parse_ceil] *)

(** [for cldtype in CLOUDS.keys(): if cldtype in part: ... break] *)
Definition has_cloud_key (part : string) : bool :=
  existsb (fun cldtype => Str.contains cldtype part) (keys CLOUDS).

(** One turn of the loop over [clayers]: the layer's text. *)
Definition cloud_layer (layer : string) : result string :=
  let cloud := Str.take 3 layer in
  let alt := Str.drop 3 layer in
  entry <- getitem CLOUDS cloud ;;
  let part1 := fst entry in
  n <- Py.int alt ;;
  let alt := Py.str (n * 100) in
  Ok (part1 ++ " at " ++ alt)%string.

Definition parse_ceil (parts : list string) (self : PointMETAR)
  : result PointMETAR :=
  if Str.mem "NSC" parts || Str.mem "SKC" parts then
    Ok (set_clouds [] self)
  else
    let clayers := filter has_cloud_key parts in
    layers <- mapM cloud_layer clayers ;;
    Ok (set_clouds layers self).

(** *** [parse_vis] *)

Definition parse_vis (parts : list string) (self : PointMETAR)
  : result PointMETAR :=
  visf <- item0 (filter (fun p => Str.endswith p "SM") parts) ;;
  let numpt := Str.drop_last 2 visf in
  v <- except_ValueError
         (fmap Int (Py.int numpt))
         (match Str.split "/" numpt with
          | [a; b] =>
              x <- float_of_str a ;;
              y <- float_of_str b ;;
              fmap Float (float_truediv x y)
          | _ => Err ValueError
          end) ;;
  Ok (set_vis (Some v) self).

(** *** [parse_wx] *)

Definition has_wxcode (part : string) : bool :=
  existsb (fun wxc => Str.contains wxc part) (keys METAR_WXCODES).

(** The truth value of an optional string: [None] and [""] are false. *)
Definition truthy (s : option string) : bool :=
  match s with
  | None | Some "" => false
  | Some _ => true
  end.

(** The loop that looks for the weather field. *)
Fixpoint find_wx_field (parts : list string) (wx_field : option string)
  : option string :=
  match parts with
  | [] => wx_field
  | part :: rest =>
      let wx_field := if has_wxcode part then Some part else wx_field in
      if truthy wx_field then wx_field else find_wx_field rest wx_field
  end.

(** The loop over the characters of the weather field. *)
Fixpoint gobble (wx_field : string) (codes : list string)
  (modifiers : list (option string)) (gobbling : string)
  : list string * list (option string) :=
  match wx_field with
  | "" => (codes, modifiers)
  | String c rest =>
      let gobbling := (gobbling ++ String c "")%string in
      if Str.mem gobbling (keys METAR_WXCODES) then
        gobble rest (codes ++ [gobbling]) modifiers ""
      else if Str.mem gobbling (keys METAR_WXMODS) then
        gobble rest codes (modifiers ++ [Some gobbling]) ""
      else gobble rest codes modifiers gobbling
  end.

(** [k = lambda m: -METAR_WXMODS[m][1] if m else 0] *)
Definition k (m : option string) : result Z :=
  match m with
  | Some s =>
      if truthy m then fmap (fun e => (- snd e)%Z) (getitem METAR_WXMODS s)
      else Ok 0%Z
  | None => Ok 0%Z
  end.

(** [try: modifiers[i] = METAR_WXMODS[modifiers[i]][0]
     except KeyError: continue]: the entry is left as it is when it is no
    key of the table, as [None] is. *)
Definition wxmod_name (s : string) : string :=
  match getitem METAR_WXMODS s with
  | Ok e => fst e
  | Err _ => s
  end.

Definition modifier_name (m : option string) : option string :=
  match m with
  | Some s => Some (wxmod_name s)
  | None => None
  end.

(** The loop that builds [output]. *)
Definition inject (modifiers : list (option string)) (codes : list string)
  : list string :=
  flat_map (fun md => match md with
                      | Some m => [m]
                      | None => codes
                      end) modifiers.

Definition parse_wx (parts : list string) (self : PointMETAR)
  : result PointMETAR :=
  match find_wx_field parts None with
  | None => Ok (set_weather (Some "nothing!") self)
  | Some wx_field =>
      let '(codes, modifiers) := gobble wx_field [] [None] "" in
      codes <- mapM (fun c => fmap fst (getitem METAR_WXCODES c)) codes ;;
      modifiers <- sort_by_key k modifiers ;;
      let modifiers := map modifier_name modifiers in
      let output := inject modifiers codes in
      Ok (set_weather (Some (Str.join " " output)) self)
  end.

(** *** [parse_cav] *)

Definition parse_cav (parts : list string) (self : PointMETAR)
  : result PointMETAR :=
  if Str.mem "CAVOK" parts then
    let self := set_clouds [] self in
    let self := set_vis (Some (Int 10)) self in
    let self := set_weather (Some "") self in
    Ok self
  else
    self <- parse_ceil parts self ;;
    self <- parse_vis parts self ;;
    parse_wx parts self.

(** *** [parse] *)

Import Re Re.Notations.

(** [re.compile("M?[0-9]{2}/M?[0-9]{2}")] *)
Definition tempre : matcher :=
  m_opt (m_chr (lit "M")) >> d_ >> d_ >> m_chr (lit "/")
  >> m_opt (m_chr (lit "M")) >> d_ >> d_.

(** [-int(t[1:])] if ['M' in t], else [int(t)] *)
Definition signed (t : string) : result Z :=
  if Str.contains "M" t then fmap Z.opp (Py.int (Str.drop 1 t))
  else Py.int t.

Definition parse (today : Datetime.date) (self : PointMETAR)
  : result PointMETAR :=
  let parts := Str.split " " (metar_string self) in
  (* the easy parts *)
  loc <- item0 parts ;;
  let self := set_loc_code (Some loc) self in
  let self := set_auto (Some (Str.mem "AUTO" parts)) self in
  rmk <- except_ValueError
           (i <- index "RMK" parts ;; Ok (skipn i parts))
           (Ok []) ;;
  let self := set_remarks (Some rmk) self in
  (* the timestamp *)
  timestamp <- item0 (filter (fun p => Str.endswith p "Z") parts) ;;
  let timestamp := (Str.drop_last 1 timestamp ++ "+0000")%string in
  let prefix := Datetime.strftime_Ym today in
  let timestamp := (prefix ++ timestamp)%string in
  dt <- Datetime.strptime timestamp ;;
  let self := set_timestamp (Some dt) self in
  (* wind *)
  kt <- item0 (filter (fun p => Str.contains "KT" p) parts) ;;
  let wind_segment := Str.drop_last 2 kt in
  let self := set_windgust (Some 0%Z) self in
  gw <- (if Str.contains "G" wind_segment then
           match Str.split "G" wind_segment with
           | w :: g :: _ =>
               gust <- Py.int g ;;
               Ok (set_windgust (Some gust) self, w)
           | _ => Err IndexError
           end
         else Ok (self, wind_segment)) ;;
  let self := fst gw in
  let wind_segment := snd gw in
  let self := set_winddir (Some (IsStr (Str.take 3 wind_segment))) self in
  let self :=
    match Py.int (Str.take 3 wind_segment) with
    | Ok n => set_winddir (Some (IsInt n)) self
    | Err _ => self
    end in
  spd <- Py.int (Str.drop 3 wind_segment) ;;
  let self := set_windspd (Some spd) self in
  (* temperature *)
  match find (re_match tempre) parts with
  | None => Err AttributeError
  | Some tempgroup =>
      match Str.split "/" tempgroup with
      | [left_; right_] =>
          t <- signed left_ ;;
          let self := set_temp (Some t) self in
          d <- signed right_ ;;
          let self := set_dewpt (Some d) self in
          parse_cav parts self
      | _ => Err ValueError
      end
  end.

End PointMETAR.

(** [PointMETAR(metar_string)]: the object, or the exception [parse] raised. *)
Definition PointMETAR_init {F : PyFloat} (today : Datetime.date)
  (metar_string : string) : result PointMETAR :=
  parse today (PointMETAR_new metar_string).

(* ================================================================== *)
(** ** An implementation of [PyFloat]: IEEE 754 binary64

    The conversion reads the literals [float] accepts and rounds them to
    the nearest binary64 value, ties to even; the division is the IEEE
    division, with [ZeroDivisionError] for a zero divisor. *)

Module Binary64.

Definition prec : Z := 53.
Definition emax : Z := 1024.

(** A decimal [m * 10^e] with [0 < m], rounded. *)
Definition of_decimal (neg : bool) (m : Z) (e : Z) : spec_float :=
  match m with
  | Zpos p =>
      match e with
      | Zneg _ =>
          let '(q, e', l) :=
            SFdiv_core_binary prec emax m 0 (10 ^ (- e)) 0 in
          binary_round_aux prec emax neg q e' l
      | _ =>
          match (m * 10 ^ e)%Z with
          | Zpos n => binary_round prec emax neg n 0
          | _ => S754_nan
          end
      end
  | _ => S754_zero neg
  end.

(** The check of the underscores of a numeric literal, which may stand
    only between two digits, and their removal. *)
Fixpoint drop_underscores (prev : ascii) (s : string) : result string :=
  match s with
  | "" => if Ascii.eqb prev "_" then Err ValueError else Ok ""
  | String c s' =>
      if Ascii.eqb c "_" then
        if Py.is_digit prev then drop_underscores c s' else Err ValueError
      else if Ascii.eqb prev "_" && negb (Py.is_digit c) then Err ValueError
      else fmap (String c) (drop_underscores c s')
  end.

Fixpoint span_digits (s : string) : string * string :=
  match s with
  | String c s' =>
      if Py.is_digit c then
        let '(d, r) := span_digits s' in (String c d, r)
      else ("", s)
  | "" => ("", "")
  end.

Definition digits_val (s : string) : Z :=
  fold_left (fun acc c => (10 * acc + Py.digit_val c)%Z) (list_ascii_of_string s) 0%Z.

Definition split_sign (s : string) : bool * string :=
  match s with
  | String "-" s' => (true, s')
  | String "+" s' => (false, s')
  | _ => (false, s)
  end.

Definition lower (c : ascii) : ascii :=
  let n := nat_of_ascii c in
  if Nat.leb 65 n && Nat.leb n 90 then ascii_of_nat (n + 32) else c.

Definition lowercase (s : string) : string :=
  string_of_list_ascii (map lower (list_ascii_of_string s)).

(** The exponent part of a literal: empty, or [e], a sign and digits. *)
Definition exponent (s : string) : result Z :=
  match s with
  | "" => Ok 0%Z
  | String c s' =>
      if Ascii.eqb (lower c) "e" then
        let '(neg, s'') := split_sign s' in
        let '(d, r) := span_digits s'' in
        if String.eqb d "" || negb (String.eqb r "") then Err ValueError
        else Ok (if neg then - digits_val d else digits_val d)%Z
      else Err ValueError
  end.

Definition of_str (s0 : string) : result spec_float :=
  s1 <- drop_underscores "000" s0 ;;
  let '(neg, s) := split_sign (Py.strip s1) in
  let l := lowercase s in
  if String.eqb l "inf" || String.eqb l "infinity" then Ok (S754_infinity neg)
  else if String.eqb l "nan" then Ok S754_nan
  else
    let '(ip, r1) := span_digits s in
    let '(fp, r2) :=
      match r1 with
      | String "." r => span_digits r
      | _ => ("", r1)
      end in
    if String.eqb ip "" && String.eqb fp "" then Err ValueError
    else
      e <- exponent r2 ;;
      Ok (of_decimal neg (digits_val (ip ++ fp))
                     (e - Z.of_nat (String.length fp))).

Definition truediv (a b : spec_float) : result spec_float :=
  match b with
  | S754_zero _ => Err ZeroDivisionError
  | _ => Ok (SFdiv prec emax a b)
  end.

End Binary64.

#[export] Instance binary64 : PyFloat := {
  float := spec_float;
  float_of_str := Binary64.of_str;
  float_truediv := Binary64.truediv
}.

(* ================================================================== *)
(** ** The decoder as a function of the token list

    [parse] and its sub-parsers only write attributes: what they write is a
    function of the tokens (and of [today]), and the object they are given
    is passed along.  The definitions below name the value each stage
    writes; [parse_eq] relates them to [parse]. *)

Section View.

Context {F : PyFloat}.

Definition remarks_of (parts : list string) : list string :=
  match index "RMK" parts with
  | Ok i => skipn i parts
  | Err _ => []
  end.

Definition timestamp_of (today : Datetime.date) (parts : list string)
  : result Datetime.datetime :=
  z <- item0 (filter (fun p => Str.endswith p "Z") parts) ;;
  Datetime.strptime
    (Datetime.strftime_Ym today ++ (Str.drop_last 1 z ++ "+0000"))%string.

(** The wind segment without its gust, and the gust. *)
Definition gust_of (wind_segment : string) : result (string * Z) :=
  if Str.contains "G" wind_segment then
    match Str.split "G" wind_segment with
    | w :: g :: _ => gust <- Py.int g ;; Ok (w, gust)
    | _ => Err IndexError
    end
  else Ok (wind_segment, 0%Z).

Definition dir_of (w : string) : int_or_str :=
  match Py.int (Str.take 3 w) with
  | Ok n => IsInt n
  | Err _ => IsStr (Str.take 3 w)
  end.

(** Direction, speed and gust. *)
Definition wind_of (parts : list string) : result (int_or_str * Z * Z) :=
  kt <- item0 (filter (fun p => Str.contains "KT" p) parts) ;;
  wg <- gust_of (Str.drop_last 2 kt) ;;
  spd <- Py.int (Str.drop 3 (fst wg)) ;;
  Ok (dir_of (fst wg), spd, snd wg).

(** Temperature and dew point. *)
Definition temp_of (parts : list string) : result (Z * Z) :=
  match find (Re.re_match tempre) parts with
  | None => Err AttributeError
  | Some tempgroup =>
      match Str.split "/" tempgroup with
      | [left_; right_] =>
          t <- signed left_ ;; d <- signed right_ ;; Ok (t, d)
      | _ => Err ValueError
      end
  end.

Definition ceil_of (parts : list string) : result (list string) :=
  if Str.mem "NSC" parts || Str.mem "SKC" parts then Ok []
  else mapM cloud_layer (filter has_cloud_key parts).

Definition vis_of (parts : list string) : result number :=
  visf <- item0 (filter (fun p => Str.endswith p "SM") parts) ;;
  let numpt := Str.drop_last 2 visf in
  except_ValueError
    (fmap Int (Py.int numpt))
    (match Str.split "/" numpt with
     | [a; b] =>
         x <- float_of_str a ;;
         y <- float_of_str b ;;
         fmap Float (float_truediv x y)
     | _ => Err ValueError
     end).

(** The text rendered for a located weather field. *)
Definition render_wx (wx_field : string) : result string :=
  let '(codes, modifiers) := gobble wx_field [] [None] "" in
  codes <- mapM (fun c => fmap fst (getitem METAR_WXCODES c)) codes ;;
  modifiers <- sort_by_key k modifiers ;;
  Ok (Str.join " " (inject (map modifier_name modifiers) codes)).

Definition wx_of (parts : list string) : result string :=
  match find_wx_field parts None with
  | None => Ok "nothing!"
  | Some wx_field => render_wx wx_field
  end.

(** Clouds, visibility and weather. *)
Definition cav_of (parts : list string)
  : result (list string * number * string) :=
  if Str.mem "CAVOK" parts then Ok ([], Int 10, "")
  else
    c <- ceil_of parts ;; v <- vis_of parts ;; w <- wx_of parts ;;
    Ok (c, v, w).

(** Every attribute [parse] assigns, from the tokens. *)
Definition decode (today : Datetime.date) (s : string) (parts : list string)
  : result PointMETAR :=
  loc <- item0 parts ;;
  ts <- timestamp_of today parts ;;
  w <- wind_of parts ;;
  t <- temp_of parts ;;
  c <- cav_of parts ;;
  Ok (mkPointMETAR s (Some (fst t)) (Some (snd t))
        (Some (snd (fst w))) (Some (fst (fst w))) (Some (snd w))
        (fst (fst c)) (Some (snd (fst c)))
        (Some (Str.mem "AUTO" parts)) (Some loc) (Some ts)
        (Some (snd c)) (Some (remarks_of parts))).

(** The attributes decoded from the groups of the report: all but the raw
    string and the remarks. *)
Definition decoded (o : PointMETAR) :=
  (loc_code o, auto o, timestamp o, winddir o, windspd o, windgust o,
   temp o, dewpt o, clouds o, vis o, weather o).

End View.

(* ================================================================== *)
(** ** Names used to state further properties *)

(** The sign marker of the temperature pattern: [M] or nothing. *)
Definition minus (m : bool) : string := if m then "M" else "".

(** The order of a weather modifier, [METAR_WXMODS[m][1]]; 0 for a string
    that is no key. *)
Definition wxmod_order (m : string) : Z :=
  match getitem METAR_WXMODS m with
  | Ok e => snd e
  | Err _ => 0%Z
  end.

(** The sort key of an entry of [modifiers]: what [k] returns for the
    placeholder and for the keys of [METAR_WXMODS]. *)
Definition k_value (m : option string) : Z :=
  match m with
  | Some s => (- wxmod_order s)%Z
  | None => 0%Z
  end.

(** The number two decimal digits read as. *)
Definition two_digits (a b : ascii) : Z :=
  (10 * Py.digit_val a + Py.digit_val b)%Z.

(** A matcher every match of which takes one character or two. *)
Definition takes_one_or_two (r : Re.matcher) : Prop :=
  forall t x rest,
    In (x, rest) (r t) ->
    (exists a, t = String a rest /\ x = String a "")
    \/ (exists a b, t = String a (String b rest)
                    /\ x = String a (String b "")).

(** A matcher every match of which is made of characters of [P]. *)
Definition takes_only (P : ascii -> bool) (r : Re.matcher) : Prop :=
  forall t x rest c,
    In (x, rest) (r t) -> In c (list_ascii_of_string x) -> P c = true.

(** The characters the day and the hour of the format are made of. *)
Definition digit_or_space (c : ascii) : bool :=
  Py.is_digit c || Ascii.eqb c " ".

(** [''.join(l)] *)
Definition concat_str (l : list string) : string :=
  fold_right String.append "" l.

(** Whether a key of [METAR_WXCODES] or of [METAR_WXMODS] begins with the
    character. *)
Definition starts_key (c : ascii) : bool :=
  existsb (fun key => match key with
                      | String c' _ => Ascii.eqb c' c
                      | "" => false
                      end)
          (keys METAR_WXCODES ++ keys METAR_WXMODS).

(* ================================================================== *)
(** ** Sample inputs *)

Definition jan_15 : Datetime.date := Datetime.mkdate 2024 1 15.
Definition jan_20 : Datetime.date := Datetime.mkdate 2024 1 20.
Definition feb_15 : Datetime.date := Datetime.mkdate 2024 2 15.

(** The first example of the comment in [parse], without its second line. *)
Definition kgfk : string :=
  "KGFK 262353Z 24011KT 10SM BKN100 BKN120 BKN140 20/03 A2945 RMK AO2".

(** A report with the weather group [-RA] whose station identifier holds
    the phenomenon code [BR]. *)
Definition kbrd : string :=
  "KBRD 262353Z 24011KT 10SM -RA BKN100 20/03 A2945".

(* ================================================================== *)
(** ** The library models on examples *)

Example split_ex :
  Str.split " " "KGFK  262353Z" = ["KGFK"; ""; "262353Z"].
Proof. reflexivity. Qed.

Example int_ex1 : Py.int "011" = Ok 11%Z.
Proof. reflexivity. Qed.

Example int_ex2 : Py.int "VRB" = Err ValueError.
Proof. reflexivity. Qed.

Example int_ex3 : Py.int "" = Err ValueError.
Proof. reflexivity. Qed.

Example int_ex4 : Py.int " -1_0 " = Ok (-10)%Z.
Proof. reflexivity. Qed.

Example str_ex : Py.str 10000 = "10000" /\ Py.str 0 = "0" /\ Py.str (-500) = "-500".
Proof. repeat split; reflexivity. Qed.

Example strptime_ex1 :
  Datetime.strptime "202401262353+0000"
  = Ok (Datetime.mkdatetime 2024 1 26 23 53 (0, 0)%Z).
Proof. reflexivity. Qed.

(** The groups are matched the way the library's expression backtracks: a
    four-digit body is day 26, hour 2, minute 3. *)
Example strptime_ex2 :
  Datetime.strptime "2024012623+0000"
  = Ok (Datetime.mkdatetime 2024 1 26 2 3 (0, 0)%Z).
Proof. reflexivity. Qed.

Example strptime_ex3 : Datetime.strptime "202402302353+0000" = Err ValueError.
Proof. reflexivity. Qed.

Example float_ex :
  bind (Binary64.of_str "1") (fun x =>
  bind (Binary64.of_str "2") (fun y => Binary64.truediv x y))
  = Ok (S754_finite false 4503599627370496 (-53)).
Proof. reflexivity. Qed.

(* ================================================================== *)
(** ** [parse] computes [decode] *)

Section ViewFacts.

Context {F : PyFloat}.

Lemma parse_ceil_eq (parts : list string) (self : PointMETAR) :
  parse_ceil parts self = fmap (fun c => set_clouds c self) (ceil_of parts).
Proof.
  unfold parse_ceil, ceil_of.
  destruct (Str.mem "NSC" parts || Str.mem "SKC" parts); [reflexivity|].
  destruct (mapM cloud_layer (filter has_cloud_key parts)); reflexivity.
Qed.

Lemma parse_vis_eq (parts : list string) (self : PointMETAR) :
  parse_vis parts self = fmap (fun v => set_vis (Some v) self) (vis_of parts).
Proof.
  unfold parse_vis, vis_of.
  destruct (item0 (filter (fun p => Str.endswith p "SM") parts)) as [visf|e];
    [simpl|reflexivity].
  match goal with
  | |- bind ?x _ = _ => destruct x; reflexivity
  end.
Qed.

Lemma parse_wx_eq (parts : list string) (self : PointMETAR) :
  parse_wx parts self =
  fmap (fun w => set_weather (Some w) self) (wx_of parts).
Proof.
  unfold parse_wx, wx_of, render_wx.
  destruct (find_wx_field parts None) as [wx_field|]; [|reflexivity].
  destruct (gobble wx_field [] [None] "") as [codes modifiers].
  destruct (mapM (fun c => fmap fst (getitem METAR_WXCODES c)) codes);
    [simpl|reflexivity].
  destruct (sort_by_key k modifiers); reflexivity.
Qed.

Lemma parse_cav_eq (parts : list string) (self : PointMETAR) :
  parse_cav parts self =
  fmap (fun c => set_weather (Some (snd c))
                   (set_vis (Some (snd (fst c)))
                      (set_clouds (fst (fst c)) self)))
       (cav_of parts).
Proof.
  unfold parse_cav, cav_of.
  destruct (Str.mem "CAVOK" parts); [reflexivity|].
  rewrite parse_ceil_eq.
  destruct (ceil_of parts) as [c|e]; [simpl|reflexivity].
  rewrite parse_vis_eq.
  destruct (vis_of parts) as [v|e]; [simpl|reflexivity].
  rewrite parse_wx_eq.
  destruct (wx_of parts) as [w|e]; reflexivity.
Qed.

Lemma remarks_eq (parts : list string) :
  except_ValueError (i <- index "RMK" parts ;; Ok (skipn i parts)) (Ok [])
  = Ok (remarks_of parts).
Proof.
  unfold remarks_of.
  assert (H : forall e, index "RMK" parts = Err e -> e = ValueError).
  { induction parts as [|p parts IH]; simpl; intros e.
    - congruence.
    - destruct (String.eqb p "RMK"); [discriminate|].
      destruct (index "RMK" parts); simpl; [discriminate|].
      intros [= <-]. now apply IH. }
  destruct (index "RMK" parts) as [i|e]; [reflexivity|].
  rewrite (H e eq_refl). reflexivity.
Qed.

Theorem parse_eq (today : Datetime.date) (self : PointMETAR) :
  parse today self =
  decode today (metar_string self) (Str.split " " (metar_string self)).
Proof.
  unfold parse, decode.
  set (parts := Str.split " " (metar_string self)).
  destruct (item0 parts) as [loc|e]; [cbn [bind]|reflexivity].
  rewrite remarks_eq; cbn [bind].
  unfold timestamp_of.
  destruct (item0 (filter (fun p => Str.endswith p "Z") parts)) as [z|e];
    [cbn [bind]|reflexivity].
  destruct (Datetime.strptime _) as [ts|e]; [cbn [bind]|reflexivity].
  unfold wind_of.
  destruct (item0 (filter (fun p => Str.contains "KT" p) parts)) as [kt|e];
    [cbn [bind]|reflexivity].
  set (seg := Str.drop_last 2 kt).
  match goal with
  | |- bind _ ?K = _ =>
      assert (HK : forall (self0 : PointMETAR) (w : string) (g : Z),
        metar_string self0 = metar_string self ->
        loc_code self0 = Some loc ->
        auto self0 = Some (Str.mem "AUTO" parts) ->
        remarks self0 = Some (remarks_of parts) ->
        timestamp self0 = Some ts ->
        windgust self0 = Some g ->
        K (self0, w) =
        (spd <- Py.int (Str.drop 3 w) ;;
         t <- temp_of parts ;;
         c <- cav_of parts ;;
         Ok (mkPointMETAR (metar_string self) (Some (fst t)) (Some (snd t))
               (Some spd) (Some (dir_of w)) (Some g)
               (fst (fst c)) (Some (snd (fst c)))
               (Some (Str.mem "AUTO" parts)) (Some loc) (Some ts)
               (Some (snd c)) (Some (remarks_of parts)))))
  end.
  { intros self0 w g Hs Hl Ha Hr Ht Hg. cbv beta zeta. unfold dir_of.
    cbn [fst snd].
    generalize (Py.int (Str.take 3 w)) as dir.
    generalize (Str.take 3 w) as w3. intros w3 dir.
    destruct (Py.int (Str.drop 3 w)) as [spd|e]; [cbn [bind]|reflexivity].
    unfold temp_of.
    destruct (find (Re.re_match tempre) parts) as [tg|]; [|reflexivity].
    destruct (Str.split "/" tg) as [|l [|r [|x xs]]]; try reflexivity.
    destruct (signed l) as [t|e]; [cbn [bind]|reflexivity].
    destruct (signed r) as [d|e]; [cbn [bind]|reflexivity].
    rewrite parse_cav_eq.
    destruct (cav_of parts) as [[[c v] wx]|e]; [|reflexivity].
    destruct self0; simpl in *; subst.
    destruct dir; reflexivity. }
  unfold gust_of.
  destruct (Str.contains "G" seg).
  - destruct (Str.split "G" seg) as [|w [|g rest]]; try reflexivity.
    destruct (Py.int g) as [gust|e]; [|reflexivity].
    etransitivity; [refine (HK _ w gust _ _ _ _ _ _); reflexivity|].
    cbn [bind fst snd]. destruct (Py.int (Str.drop 3 w)); reflexivity.
  - etransitivity; [refine (HK _ seg 0%Z _ _ _ _ _ _); reflexivity|].
    cbn [bind fst snd]. destruct (Py.int (Str.drop 3 seg)); reflexivity.
Qed.

End ViewFacts.

(* ================================================================== *)
(** ** Facts about the string and list operations *)

Lemma bind_ok {A B : Type} (r : result A) (f : A -> result B) (y : B) :
  bind r f = Ok y -> exists x, r = Ok x /\ f x = Ok y.
Proof.
  destruct r as [x|e]; simpl; [|discriminate].
  intros H. now exists x.
Qed.

Lemma fmap_ok {A B : Type} (f : A -> B) (r : result A) (y : B) :
  fmap f r = Ok y -> exists x, r = Ok x /\ y = f x.
Proof.
  destruct r as [x|e]; simpl; [|discriminate].
  intros [= <-]. now exists x.
Qed.

Lemma split_not_nil (sep : ascii) (s : string) : Str.split sep s <> [].
Proof.
  destruct s as [|c s]; simpl; [discriminate|].
  destruct (Ascii.eqb c sep); [discriminate|].
  destruct (Str.split sep s); discriminate.
Qed.

(** [(a + sep + b).split(sep) == a.split(sep) + b.split(sep)] *)
Lemma split_app (sep : ascii) (a b : string) :
  Str.split sep (a ++ String sep b) = Str.split sep a ++ Str.split sep b.
Proof.
  induction a as [|c a IH]; simpl.
  - now rewrite Ascii.eqb_refl.
  - rewrite IH. destruct (Ascii.eqb c sep); [reflexivity|].
    pose proof (split_not_nil sep a) as Hne.
    destruct (Str.split sep a); [contradiction|reflexivity].
Qed.

Lemma mem_In (x : string) (l : list string) :
  Str.mem x l = true <-> In x l.
Proof.
  unfold Str.mem. rewrite existsb_exists. split.
  - intros [y [Hy Heq]]. apply String.eqb_eq in Heq. now subst.
  - intros H. exists x. split; [assumption|apply String.eqb_refl].
Qed.

Lemma mem_not_In (x : string) (l : list string) :
  Str.mem x l = false <-> ~ In x l.
Proof.
  rewrite <- mem_In. destruct (Str.mem x l); split; congruence.
Qed.

Lemma mem_app (x : string) (l1 l2 : list string) :
  Str.mem x (l1 ++ l2) = Str.mem x l1 || Str.mem x l2.
Proof. apply existsb_app. Qed.

Lemma item0_app {A : Type} (l l' : list A) (x : A) :
  item0 l = Ok x -> item0 (l ++ l') = Ok x.
Proof. destruct l; simpl; [discriminate|trivial]. Qed.

Lemma filter_none {A : Type} (f : A -> bool) (l : list A) :
  (forall x, In x l -> f x = false) -> filter f l = [].
Proof.
  induction l as [|x l IH]; simpl; intros H; [reflexivity|].
  rewrite (H x (or_introl eq_refl)). apply IH. intros y Hy. apply H. now right.
Qed.

Lemma find_app_some {A : Type} (f : A -> bool) (l l' : list A) (x : A) :
  find f l = Some x -> find f (l ++ l') = Some x.
Proof.
  induction l as [|y l IH]; simpl; [discriminate|].
  destruct (f y); auto.
Qed.

Lemma find_app_none {A : Type} (f : A -> bool) (l l' : list A) :
  (forall x, In x l -> f x = false) -> find f (l ++ l') = find f l'.
Proof.
  induction l as [|y l IH]; simpl; intros H; [reflexivity|].
  rewrite (H y (or_introl eq_refl)). apply IH. intros x Hx. apply H. now right.
Qed.

Lemma find_none_iff {A : Type} (f : A -> bool) (l : list A) :
  find f l = None <-> (forall x, In x l -> f x = false).
Proof.
  split.
  - apply find_none.
  - intros H. rewrite <- (app_nil_r l), find_app_none by assumption.
    reflexivity.
Qed.

Lemma index_app_first (x : string) (pre post : list string) :
  ~ In x pre -> index x (pre ++ x :: post) = Ok (List.length pre).
Proof.
  induction pre as [|p pre IH]; simpl; intros H.
  - now rewrite String.eqb_refl.
  - destruct (String.eqb p x) eqn:E.
    + apply String.eqb_eq in E. exfalso. apply H. now left.
    + rewrite IH; [reflexivity|]. intros Hin. apply H. now right.
Qed.

Lemma index_absent (x : string) (l : list string) :
  ~ In x l -> index x l = Err ValueError.
Proof.
  induction l as [|p l IH]; simpl; intros H; [reflexivity|].
  destruct (String.eqb p x) eqn:E.
  - apply String.eqb_eq in E. exfalso. apply H. now left.
  - rewrite IH; [reflexivity|]. intros Hin. apply H. now right.
Qed.

Lemma skipn_length_app {A : Type} (l l' : list A) :
  skipn (List.length l) (l ++ l') = l'.
Proof. induction l; simpl; auto. Qed.

Lemma mapM_In {A B : Type} (f : A -> result B) (l : list A) (ys : list B)
  (x : A) (y : B) :
  mapM f l = Ok ys -> In x l -> f x = Ok y -> In y ys.
Proof.
  revert ys. induction l as [|a l IH]; simpl; intros ys Hm Hin Hf.
  - contradiction.
  - apply bind_ok in Hm. destruct Hm as [b [Hb Hm]].
    apply bind_ok in Hm. destruct Hm as [bs [Hbs Hm]].
    injection Hm as <-. destruct Hin as [->|Hin].
    + left. congruence.
    + right. now apply IH.
Qed.

Lemma mapM_length {A B : Type} (f : A -> result B) (l : list A) (ys : list B) :
  mapM f l = Ok ys -> List.length ys = List.length l.
Proof.
  revert ys. induction l as [|a l IH]; simpl; intros ys Hm.
  - injection Hm as <-. reflexivity.
  - apply bind_ok in Hm. destruct Hm as [b [Hb Hm]].
    apply bind_ok in Hm. destruct Hm as [bs [Hbs Hm]].
    injection Hm as <-. simpl. f_equal. now apply IH.
Qed.

(** The remarks are the tokens from the first [RMK] on. *)
Lemma remarks_of_split (pre post : list string) :
  ~ In "RMK" pre -> remarks_of (pre ++ "RMK" :: post) = "RMK" :: post.
Proof.
  intros H. unfold remarks_of. rewrite index_app_first by assumption.
  apply skipn_length_app.
Qed.

Lemma remarks_of_absent (parts : list string) :
  ~ In "RMK" parts -> remarks_of parts = [].
Proof.
  intros H. unfold remarks_of. now rewrite index_absent.
Qed.

(* ================================================================== *)
(** ** Which exceptions the library calls raise *)

Lemma bind_err {A B : Type} (r : result A) (f : A -> result B) (e : exn) :
  bind r f = Err e -> r = Err e \/ exists x, r = Ok x /\ f x = Err e.
Proof.
  destruct r as [x|e']; simpl; intros H.
  - right. now exists x.
  - left. congruence.
Qed.

Lemma int_digits_raises (s : string) :
  forall acc u e, Py.int_digits acc u s = Err e -> e = ValueError.
Proof.
  induction s as [|c s IH]; intros acc u e; simpl.
  - destruct u; congruence.
  - destruct (Ascii.eqb c "_").
    + destruct u; [congruence|apply IH].
    + destruct (Py.is_digit c); [apply IH|congruence].
Qed.

Lemma int_unsigned_raises (s : string) (e : exn) :
  Py.int_unsigned s = Err e -> e = ValueError.
Proof.
  destruct s as [|c s]; simpl; [congruence|].
  destruct (Py.is_digit c); [apply int_digits_raises|congruence].
Qed.

(** [int] raises nothing but [ValueError]. *)
Lemma int_raises (s : string) (e : exn) : Py.int s = Err e -> e = ValueError.
Proof.
  unfold Py.int. intros H.
  assert (Hm : forall t, fmap Z.opp (Py.int_unsigned t) = Err e ->
                         e = ValueError).
  { intros t Ht. destruct (Py.int_unsigned t) eqn:E; [discriminate|].
    injection Ht as <-. now apply int_unsigned_raises in E. }
  destruct (Py.strip s) as [|c t]; [now apply int_unsigned_raises in H|].
  destruct c as [[] [] [] [] [] [] [] []];
    first [now apply Hm in H | now apply int_unsigned_raises in H].
Qed.

Lemma tz_of_z_raises (z : string) (e : exn) :
  Datetime.tz_of_z z = Err e -> e = ValueError.
Proof.
  unfold Datetime.tz_of_z. intros H.
  destruct (String.eqb z "Z"); [discriminate|].
  repeat match type of H with
         | bind _ _ = Err _ =>
             apply bind_err in H; destruct H as [H|[? [_ H]]]
         | Py.int _ = Err _ => now apply int_raises in H
         | (if ?b then _ else _) = Err _ => destruct b
         | Err _ = Err _ => congruence
         | Ok _ = Err _ => discriminate H
         end.
Qed.

(** [strptime] raises nothing but [ValueError]. *)
Lemma strptime_raises (s : string) (e : exn) :
  Datetime.strptime s = Err e -> e = ValueError.
Proof.
  unfold Datetime.strptime. intros H.
  destruct (Datetime.matches s) as [|g gs]; [congruence|].
  destruct (negb (String.eqb (Datetime.g_rest g) "")); [congruence|].
  repeat match type of H with
         | bind _ _ = Err _ =>
             apply bind_err in H; destruct H as [H|[? [_ H]]]
         | Py.int _ = Err _ => now apply int_raises in H
         | Datetime.tz_of_z _ = Err _ => now apply tz_of_z_raises in H
         | (if ?b then _ else _) = Err _ => destruct b
         | Err _ = Err _ => congruence
         | Ok _ = Err _ => discriminate H
         end.
Qed.

(** A string that holds the separator splits in two parts or more. *)
Lemma split_contains (sep : ascii) (s : string) :
  Str.contains (String sep "") s = true ->
  exists w g rest, Str.split sep s = w :: g :: rest.
Proof.
  induction s as [|c s IH]; simpl; [discriminate|].
  rewrite (Ascii.eqb_sym sep c).
  destruct (Ascii.eqb c sep); simpl.
  - intros _. pose proof (split_not_nil sep s) as Hne.
    destruct (Str.split sep s) as [|g rest]; [contradiction|].
    now exists "", g, rest.
  - intros H. destruct (IH H) as (w & g & rest & ->).
    now exists (String c w), g, rest.
Qed.

Lemma mapM_err {A B : Type} (f : A -> result B) (l : list A) (e : exn) :
  mapM f l = Err e -> exists x, In x l /\ f x = Err e.
Proof.
  induction l as [|a l IH]; simpl; [discriminate|]. intros H.
  apply bind_err in H. destruct H as [H|[b [_ H]]].
  - exists a. split; [now left|assumption].
  - apply bind_err in H. destruct H as [H|[bs [_ H]]]; [|discriminate].
    destruct (IH H) as [x [Hx Hf]]. exists x. split; [now right|assumption].
Qed.

Lemma binary64_of_str_raises (s : string) (e : exn) :
  Binary64.of_str s = Err e -> e = ValueError.
Proof.
  assert (Hu : forall t prev e', Binary64.drop_underscores prev t = Err e' ->
                                 e' = ValueError).
  { induction t as [|c t IH]; intros prev e'; simpl.
    - destruct (Ascii.eqb prev "_"); congruence.
    - destruct (Ascii.eqb c "_").
      + destruct (Py.is_digit prev); [apply IH|congruence].
      + destruct (Ascii.eqb prev "_" && negb (Py.is_digit c)); [congruence|].
        destruct (Binary64.drop_underscores c t) eqn:E; simpl; [discriminate|].
        intros [= <-]. now apply IH in E. }
  assert (He : forall t e', Binary64.exponent t = Err e' -> e' = ValueError).
  { intros t e'. unfold Binary64.exponent.
    destruct t as [|c t]; [discriminate|].
    destruct (Ascii.eqb (Binary64.lower c) "e"); [|congruence].
    destruct (Binary64.split_sign t) as [neg t'].
    destruct (Binary64.span_digits t') as [d r].
    destruct (String.eqb d "" || negb (String.eqb r "")); congruence. }
  unfold Binary64.of_str. intros H.
  apply bind_err in H. destruct H as [H|[s1 [_ H]]]; [now apply Hu in H|].
  destruct (Binary64.split_sign (Py.strip s1)) as [neg t].
  destruct (String.eqb (Binary64.lowercase t) "inf"
            || String.eqb (Binary64.lowercase t) "infinity"); [discriminate|].
  destruct (String.eqb (Binary64.lowercase t) "nan"); [discriminate|].
  destruct (Binary64.span_digits t) as [ip r1].
  destruct (match r1 with
            | String "." r => Binary64.span_digits r
            | _ => ("", r1)
            end) as [fp r2].
  destruct (String.eqb ip "" && String.eqb fp ""); [congruence|].
  apply bind_err in H. destruct H as [H|[x [_ H]]]; [now apply He in H|].
  discriminate.
Qed.

(** The [binary64] implementation raises what [float] raises. *)
#[export] Instance binary64_raises : PyFloatRaises binary64.
Proof.
  split.
  - exact binary64_of_str_raises.
  - intros x y e. simpl. unfold Binary64.truediv.
    destruct y; congruence.
Qed.

(* ================================================================== *)
(** ** Properties of the decoder *)

Section Properties.

Context {F : PyFloat}.

Implicit Types (today : Datetime.date) (s : string) (o : PointMETAR)
  (parts : list string).

(** What a successful [parse] has computed. *)
Lemma init_ok_inv today s o :
  PointMETAR_init today s = Ok o ->
  let parts := Str.split " " s in
  exists loc ts w t c,
    item0 parts = Ok loc /\
    timestamp_of today parts = Ok ts /\
    wind_of parts = Ok w /\
    temp_of parts = Ok t /\
    cav_of parts = Ok c /\
    o = mkPointMETAR s (Some (fst t)) (Some (snd t))
          (Some (snd (fst w))) (Some (fst (fst w))) (Some (snd w))
          (fst (fst c)) (Some (snd (fst c)))
          (Some (Str.mem "AUTO" parts)) (Some loc) (Some ts)
          (Some (snd c)) (Some (remarks_of parts)).
Proof.
  intros H parts. unfold PointMETAR_init in H. rewrite parse_eq in H.
  simpl metar_string in H. unfold decode in H. fold parts in H.
  apply bind_ok in H. destruct H as [loc [Hloc H]].
  apply bind_ok in H. destruct H as [ts [Hts H]].
  apply bind_ok in H. destruct H as [w [Hw H]].
  apply bind_ok in H. destruct H as [t [Ht H]].
  apply bind_ok in H. destruct H as [c [Hc H]].
  injection H as <-.
  exists loc, ts, w, t, c. repeat split; assumption.
Qed.

Lemma init_ok_intro today s loc ts w t c :
  let parts := Str.split " " s in
  item0 parts = Ok loc ->
  timestamp_of today parts = Ok ts ->
  wind_of parts = Ok w ->
  temp_of parts = Ok t ->
  cav_of parts = Ok c ->
  PointMETAR_init today s =
  Ok (mkPointMETAR s (Some (fst t)) (Some (snd t))
        (Some (snd (fst w))) (Some (fst (fst w))) (Some (snd w))
        (fst (fst c)) (Some (snd (fst c)))
        (Some (Str.mem "AUTO" parts)) (Some loc) (Some ts)
        (Some (snd c)) (Some (remarks_of parts))).
Proof.
  intros parts Hloc Hts Hw Ht Hc.
  unfold PointMETAR_init. rewrite parse_eq. simpl metar_string.
  unfold decode. fold parts.
  rewrite Hloc, Hts, Hw, Ht, Hc. reflexivity.
Qed.

(** *** The timestamp is required *)

(** C7.  A report none of whose tokens ends in [Z] makes [parse] raise:
    the constructor returns no object, and the exception is the
    [IndexError] of the empty selection [[p for p in parts if
    p.endswith('Z')][0]], the error of a required group that is not there. *)
Theorem missing_timestamp_raises today s :
  (forall p, In p (Str.split " " s) -> Str.endswith p "Z" = false) ->
  PointMETAR_init today s = Err IndexError.
Proof.
  intros H. unfold PointMETAR_init. rewrite parse_eq. simpl metar_string.
  unfold decode.
  destruct (Str.split " " s) as [|loc rest] eqn:E.
  - now apply split_not_nil in E.
  - cbn [item0 bind]. unfold timestamp_of.
    rewrite filter_none by assumption. reflexivity.
Qed.

(** *** CAVOK *)

(** C3.  When [CAVOK] is one of the tokens, [parse_cav] decodes nothing:
    it always returns, with no cloud layer, the visibility 10 and the empty
    weather string; so does every [parse] that returns, whatever other
    cloud, visibility or weather tokens the report has. *)
Theorem cavok_overrides today s :
  In "CAVOK" (Str.split " " s) ->
  (forall self,
     parse_cav (Str.split " " s) self =
     Ok (set_weather (Some "") (set_vis (Some (Int 10)) (set_clouds [] self))))
  /\ (forall o,
        PointMETAR_init today s = Ok o ->
        vis o = Some (Int 10) /\ clouds o = [] /\ weather o = Some "").
Proof.
  intros Hin. apply mem_In in Hin. split.
  - intros self. unfold parse_cav. now rewrite Hin.
  - intros o Ho. apply init_ok_inv in Ho.
    destruct Ho as (loc & ts & w & t & c & _ & _ & _ & _ & Hc & ->).
    unfold cav_of in Hc. rewrite Hin in Hc. injection Hc as <-.
    repeat split.
Qed.

(** *** Remarks *)

(** C5 (as the code has it).  The remarks are the tokens from the first
    [RMK] on, the [RMK] token included, and the empty list when no token
    is [RMK]. *)
Theorem remarks_from_marker today s o :
  PointMETAR_init today s = Ok o ->
  (forall pre post,
     Str.split " " s = pre ++ "RMK" :: post -> ~ In "RMK" pre ->
     remarks o = Some ("RMK" :: post))
  /\ (~ In "RMK" (Str.split " " s) -> remarks o = Some []).
Proof.
  intros Ho. apply init_ok_inv in Ho.
  destruct Ho as (loc & ts & w & t & c & _ & _ & _ & _ & _ & ->).
  cbn [remarks]. split.
  - intros pre post -> Hpre. now rewrite remarks_of_split.
  - intros Hno. now rewrite remarks_of_absent.
Qed.

(** *** Cloud layers *)

(** C8.  With no [CAVOK], [NSC] or [SKC] token, a token [BKN100] gives the
    layer "broken at 10000": the first three characters are looked up in
    [CLOUDS] and the integer after them is multiplied by 100. *)
Theorem bkn100_layer today s o :
  In "BKN100" (Str.split " " s) ->
  ~ In "CAVOK" (Str.split " " s) ->
  ~ In "NSC" (Str.split " " s) ->
  ~ In "SKC" (Str.split " " s) ->
  PointMETAR_init today s = Ok o ->
  cloud_layer "BKN100" = Ok ("broken" ++ " at " ++ Py.str (100 * 100))%string
  /\ In "broken at 10000" (clouds o).
Proof.
  intros Hin Hcav Hnsc Hskc Ho. split; [reflexivity|].
  apply init_ok_inv in Ho.
  destruct Ho as (loc & ts & w & t & c & _ & _ & _ & _ & Hc & ->).
  cbn [clouds]. unfold cav_of in Hc.
  apply mem_not_In in Hcav, Hnsc, Hskc. rewrite Hcav in Hc.
  apply bind_ok in Hc. destruct Hc as [cl [Hcl Hc]].
  apply bind_ok in Hc. destruct Hc as [v [_ Hc]].
  apply bind_ok in Hc. destruct Hc as [wx [_ Hc]].
  injection Hc as <-. cbn [fst].
  unfold ceil_of in Hcl. rewrite Hnsc, Hskc in Hcl. cbn [orb] in Hcl.
  apply (mapM_In cloud_layer _ _ "BKN100" _ Hcl).
  - apply filter_In. split; [assumption|reflexivity].
  - reflexivity.
Qed.

(** *** Weather *)

Lemma find_wx_field_find parts :
  find_wx_field parts None = find has_wxcode parts.
Proof.
  induction parts as [|part rest IH]; simpl; [reflexivity|].
  destruct (has_wxcode part) eqn:E.
  - destruct part as [|c part]; [discriminate E|reflexivity].
  - exact IH.
Qed.

Lemma getitem_mem {V : Type} (d : dict V) (x : string) :
  Str.mem x (keys d) = true -> exists v, getitem d x = Ok v.
Proof.
  induction d as [|[k' v] d IH]; simpl; [discriminate|].
  destruct (String.eqb x k'); [now exists v|exact IH].
Qed.

(** What the loop over the characters appends: keys of the two tables. *)
Lemma gobble_appends wx_field :
  forall codes modifiers gobbling,
  exists cs ms,
    gobble wx_field codes modifiers gobbling
    = (codes ++ cs, modifiers ++ map Some ms)
    /\ Forall (fun c => Str.mem c (keys METAR_WXCODES) = true) cs
    /\ Forall (fun m => Str.mem m (keys METAR_WXMODS) = true) ms.
Proof.
  induction wx_field as [|c rest IH]; intros codes modifiers gobbling.
  - exists [], []. simpl. rewrite !app_nil_r. repeat split; constructor.
  - cbn [gobble].
    destruct (Str.mem (gobbling ++ String c "") (keys METAR_WXCODES)) eqn:Ec.
    + destruct (IH (codes ++ [(gobbling ++ String c "")%string]) modifiers "")
        as (cs & ms & -> & Hcs & Hms).
      exists ((gobbling ++ String c "")%string :: cs), ms.
      rewrite <- app_assoc. repeat split; auto.
    + destruct (Str.mem (gobbling ++ String c "") (keys METAR_WXMODS)) eqn:Em.
      * destruct (IH codes (modifiers ++ [Some (gobbling ++ String c "")%string]) "")
          as (cs & ms & -> & Hcs & Hms).
        exists cs, ((gobbling ++ String c "")%string :: ms).
        rewrite <- app_assoc. repeat split; auto.
      * apply IH.
Qed.

Lemma code_names_ok cs :
  Forall (fun c => Str.mem c (keys METAR_WXCODES) = true) cs ->
  exists names, mapM (fun c => fmap fst (getitem METAR_WXCODES c)) cs = Ok names.
Proof.
  induction 1 as [|c cs Hc _ [names IH]]; cbn [mapM].
  - now exists [].
  - destruct (getitem_mem _ _ Hc) as [v Hv]. rewrite Hv, IH.
    now exists (fst v :: names).
Qed.

Lemma keys_ok ms :
  Forall (fun m => Str.mem m (keys METAR_WXMODS) = true) ms ->
  exists ks, mapM k (map Some ms) = Ok ks.
Proof.
  induction 1 as [|m ms Hm _ [ks IH]]; cbn [mapM map].
  - now exists [].
  - destruct m as [|c m]; [discriminate Hm|].
    destruct (getitem_mem _ _ Hm) as [v Hv].
    unfold k at 1. cbn [truthy]. rewrite Hv, IH. now eexists.
Qed.

Lemma insert_by_key_perm {A : Type} (x : Z * A) (l : list (Z * A)) :
  Permutation (insert_by_key x l) (x :: l).
Proof.
  induction l as [|y l IH]; simpl; [reflexivity|].
  destruct (fst x <=? fst y)%Z; [reflexivity|].
  rewrite IH. apply perm_swap.
Qed.

Lemma stable_sort_perm {A : Type} (l : list (Z * A)) :
  Permutation (stable_sort l) l.
Proof.
  induction l as [|x l IH]; simpl; [reflexivity|].
  rewrite insert_by_key_perm. now constructor.
Qed.

(** The sort is a sort: its result is in ascending order of key, and the
    elements of one key keep the order they had. *)
Lemma insert_by_key_sorted {A : Type} (x : Z * A) (l : list (Z * A)) :
  Sorted (fun a b => (fst a <= fst b)%Z) l ->
  Sorted (fun a b => (fst a <= fst b)%Z) (insert_by_key x l).
Proof.
  induction 1 as [|y l Hs IH Hhd]; simpl.
  - repeat constructor.
  - destruct (fst x <=? fst y)%Z eqn:E.
    + apply Z.leb_le in E. repeat constructor; assumption.
    + apply Z.leb_gt in E. constructor; [exact IH|].
      destruct l as [|z l]; simpl.
      * constructor. lia.
      * inversion Hhd; subst.
        destruct (fst x <=? fst z)%Z; constructor; [lia|assumption].
Qed.

Lemma stable_sort_sorted {A : Type} (l : list (Z * A)) :
  Sorted (fun a b => (fst a <= fst b)%Z) (stable_sort l).
Proof.
  induction l as [|x l IH]; simpl; [constructor|].
  now apply insert_by_key_sorted.
Qed.

Lemma insert_by_key_stable {A : Type} (z : Z) (x : Z * A) (l : list (Z * A)) :
  filter (fun a => (fst a =? z)%Z) (insert_by_key x l)
  = filter (fun a => (fst a =? z)%Z) (x :: l).
Proof.
  induction l as [|y l IH]; [reflexivity|].
  cbn [insert_by_key].
  destruct (fst x <=? fst y)%Z eqn:E; [reflexivity|].
  apply Z.leb_gt in E. cbn [filter] in *. rewrite IH.
  destruct (fst x =? z)%Z eqn:Ex; [|reflexivity].
  apply Z.eqb_eq in Ex.
  assert (Ey : (fst y =? z)%Z = false) by (apply Z.eqb_neq; lia).
  now rewrite Ey.
Qed.

Lemma stable_sort_stable {A : Type} (z : Z) (l : list (Z * A)) :
  filter (fun a => (fst a =? z)%Z) (stable_sort l)
  = filter (fun a => (fst a =? z)%Z) l.
Proof.
  induction l as [|x l IH]; [reflexivity|].
  cbn [stable_sort fold_right]. fold (stable_sort l).
  rewrite insert_by_key_stable. cbn [filter]. now rewrite IH.
Qed.

Lemma sort_by_key_perm {A : Type} (key : A -> result Z) (l l' : list A) :
  sort_by_key key l = Ok l' -> Permutation l' l.
Proof.
  unfold sort_by_key. intros H.
  apply bind_ok in H. destruct H as [ks [Hks H]]. injection H as <-.
  rewrite stable_sort_perm.
  apply mapM_length in Hks.
  assert (Hsnd : forall (xs : list Z) (ys : list A),
             List.length xs = List.length ys -> map snd (combine xs ys) = ys).
  { induction xs as [|x xs IHx]; intros [|y ys]; simpl; try discriminate;
      [reflexivity|]. intros [= Hl]. f_equal. now apply IHx. }
  now rewrite Hsnd.
Qed.

Lemma inject_split (hi lo : list string) (names : list string) :
  inject (map modifier_name (map Some hi ++ None :: map Some lo)) names
  = map wxmod_name hi ++ names ++ map wxmod_name lo.
Proof.
  unfold inject. rewrite map_app, flat_map_app. cbn [map flat_map].
  assert (H : forall l, flat_map
                (fun md : option string =>
                   match md with Some m => [m] | None => names end)
                (map modifier_name (map Some l)) = map wxmod_name l).
  { induction l as [|m l IH]; simpl; [reflexivity|]. now rewrite IH. }
  now rewrite !H.
Qed.

Lemma wx_field_located parts pre post wx_field :
  parts = pre ++ wx_field :: post ->
  (forall p, In p pre -> has_wxcode p = false) ->
  has_wxcode wx_field = true ->
  find_wx_field parts None = Some wx_field.
Proof.
  intros -> Hpre Hwx. rewrite find_wx_field_find, find_app_none by assumption.
  simpl. now rewrite Hwx.
Qed.

(** C6 (as the code has it).  The weather field is the first token that
    holds a phenomenon code.  When that token is [-RA], that is, when [-RA]
    is a token and no token before it holds a code, the weather is rendered
    as "slight rain": the name of the intensity modifier, then the name of
    the phenomenon.  [parse_wx] renders it on every such token list, and so
    does every [parse] that returns for such a report without [CAVOK]. *)
Theorem slight_rain today s pre post :
  Str.split " " s = pre ++ "-RA" :: post ->
  (forall p, In p pre -> has_wxcode p = false) ->
  (forall self,
     parse_wx (Str.split " " s) self
     = Ok (set_weather (Some "slight rain") self))
  /\ (forall o,
        ~ In "CAVOK" (Str.split " " s) ->
        PointMETAR_init today s = Ok o ->
        weather o = Some "slight rain").
Proof.
  intros Hs Hpre.
  assert (Hwx : wx_of (Str.split " " s) = Ok "slight rain").
  { unfold wx_of.
    rewrite (wx_field_located _ pre post "-RA" Hs Hpre eq_refl).
    reflexivity. }
  split.
  - intros self. rewrite parse_wx_eq, Hwx. reflexivity.
  - intros o Hcav Ho. apply init_ok_inv in Ho.
    destruct Ho as (loc & ts & w & t & c & _ & _ & _ & _ & Hc & ->).
    cbn [weather]. unfold cav_of in Hc.
    apply mem_not_In in Hcav. rewrite Hcav in Hc.
    apply bind_ok in Hc. destruct Hc as [cl [_ Hc]].
    apply bind_ok in Hc. destruct Hc as [v [_ Hc]].
    apply bind_ok in Hc. destruct Hc as [wx [Hw Hc]].
    injection Hc as <-. cbn [snd]. congruence.
Qed.

(** The weather decoder never raises. *)
Lemma parse_wx_total parts self :
  exists w, parse_wx parts self = Ok (set_weather (Some w) self).
Proof.
  rewrite parse_wx_eq. unfold wx_of, render_wx.
  destruct (find_wx_field parts None) as [wx_field|]; [|now eexists].
  destruct (gobble_appends wx_field [] [None] "")
    as (codes & ms & Hg & Hcs & Hms).
  cbn [app] in Hg. rewrite Hg.
  destruct (code_names_ok codes Hcs) as [names Hn].
  destruct (keys_ok ms Hms) as [ks Hks].
  rewrite Hn. cbn [bind]. unfold sort_by_key. cbn [mapM k bind].
  rewrite Hks. cbn [bind fmap]. now eexists.
Qed.

(** C10.  When the weather decoder has located its field, the loop over
    the characters leaves exactly one placeholder in [modifiers] (its first
    entry), the sort keeps exactly one, and the rendered text is the names of
    the modifiers sorted before the placeholder, then the names of all the
    decoded codes, once each and in the order they were decoded, then the
    names of the modifiers sorted after it. *)
Theorem wx_names_injected_as_block parts self wx_field :
  find_wx_field parts None = Some wx_field ->
  exists (codes ms names hi lo : list string),
    gobble wx_field [] [None] "" = (codes, None :: map Some ms)
    /\ mapM (fun c => fmap fst (getitem METAR_WXCODES c)) codes = Ok names
    /\ sort_by_key k (None :: map Some ms)
       = Ok (map Some hi ++ None :: map Some lo)
    /\ Permutation (hi ++ lo) ms
    /\ parse_wx parts self
       = Ok (set_weather
               (Some (Str.join " "
                        (map wxmod_name hi ++ names ++ map wxmod_name lo)))
               self).
Proof.
  intros Hfind.
  destruct (gobble_appends wx_field [] [None] "") as (codes & ms & Hg & Hcs & Hms).
  cbn [app] in Hg.
  destruct (code_names_ok codes Hcs) as [names Hn].
  destruct (keys_ok ms Hms) as [ks Hks].
  assert (Hsort : exists sorted,
             sort_by_key k (None :: map Some ms) = Ok sorted).
  { unfold sort_by_key. cbn [mapM k bind]. rewrite Hks. cbn [bind].
    now eexists. }
  destruct Hsort as [sorted Hsort].
  pose proof (sort_by_key_perm _ _ _ Hsort) as Hperm.
  assert (Hin : In None sorted).
  { apply (Permutation_in None (Permutation_sym Hperm)). now left. }
  apply in_split in Hin. destruct Hin as (l1 & l2 & ->).
  apply Permutation_sym, Permutation_cons_app_inv in Hperm.
  apply Permutation_sym, Permutation_map_inv in Hperm.
  destruct Hperm as (l3 & Hl3 & Hperm).
  symmetry in Hl3. apply map_eq_app in Hl3.
  destruct Hl3 as (hi & lo & -> & <- & <-).
  exists codes, ms, names, hi, lo. repeat split; try assumption.
  - now apply Permutation_sym.
  - rewrite parse_wx_eq. unfold wx_of, render_wx.
    rewrite Hfind, Hg, Hn. cbn [bind]. rewrite Hsort. cbn [bind fmap].
    now rewrite inject_split.
Qed.

(** *** Wind *)

Lemma take_app_length (x y : string) :
  Str.take (String.length x) (x ++ y) = x.
Proof. induction x as [|c x IH]; simpl; [now destruct y|now rewrite IH]. Qed.

Lemma drop_last_app (x y : string) :
  Str.drop_last (String.length y) (x ++ y) = x.
Proof.
  unfold Str.drop_last.
  assert (H : String.length (x ++ y) = String.length x + String.length y).
  { induction x as [|c x IH]; simpl; [reflexivity|now rewrite IH]. }
  rewrite H, Nat.add_sub. apply take_app_length.
Qed.

(** C4 (as the code has it).  For a wind token [VRB], digits, [KT] (no
    gust), the direction is left as the three characters "VRB", a string and
    not a number, and the speed is the integer that follows them. *)
Theorem vrb_direction_kept today s o kt d :
  PointMETAR_init today s = Ok o ->
  item0 (filter (fun p => Str.contains "KT" p) (Str.split " " s)) = Ok kt ->
  kt = ("VRB" ++ d ++ "KT")%string ->
  Str.contains "G" d = false ->
  exists spd,
    Py.int d = Ok spd
    /\ winddir o = Some (IsStr "VRB")
    /\ windspd o = Some spd
    /\ windgust o = Some 0%Z.
Proof.
  intros Ho Hkt -> HG. apply init_ok_inv in Ho.
  destruct Ho as (loc & ts & w & t & c & _ & _ & Hw & _ & _ & ->).
  cbn [winddir windspd windgust].
  unfold wind_of in Hw. rewrite Hkt in Hw. cbn [bind] in Hw.
  assert (Hseg : Str.drop_last 2 ("VRB" ++ d ++ "KT") = ("VRB" ++ d)%string)
    by exact (drop_last_app ("VRB" ++ d) "KT").
  rewrite Hseg in Hw.
  unfold gust_of in Hw.
  assert (HG' : Str.contains "G" ("VRB" ++ d) = false) by (simpl; exact HG).
  rewrite HG' in Hw. cbn [bind fst snd] in Hw.
  change (Str.drop 3 ("VRB" ++ d)) with d in Hw.
  apply bind_ok in Hw. destruct Hw as [spd [Hspd Hw]].
  injection Hw as <-. exists spd. repeat split. exact Hspd.
Qed.

(** *** The current date *)

Lemma timestamp_of_Ym today1 today2 parts :
  Datetime.year today1 = Datetime.year today2 ->
  Datetime.month today1 = Datetime.month today2 ->
  timestamp_of today1 parts = timestamp_of today2 parts.
Proof.
  intros Hy Hm. unfold timestamp_of, Datetime.strftime_Ym.
  now rewrite Hy, Hm.
Qed.

(** C2 (as the code has it).  [parse] reads the current date: its result
    is a function of the report and of the year and month of [today].  Two
    runs in the same month of the same year give the same result, an
    exception or an object equal in every attribute; two runs that both
    return, whatever their dates, agree on every attribute but the
    timestamp. *)
Theorem parse_reads_today_for_timestamp today1 today2 s :
  (Datetime.year today1 = Datetime.year today2 ->
   Datetime.month today1 = Datetime.month today2 ->
   PointMETAR_init today1 s = PointMETAR_init today2 s)
  /\ (forall o1 o2,
        PointMETAR_init today1 s = Ok o1 ->
        PointMETAR_init today2 s = Ok o2 ->
        o2 = set_timestamp (timestamp o2) o1).
Proof.
  split.
  - intros Hy Hm. unfold PointMETAR_init. rewrite !parse_eq.
    unfold decode. now rewrite (timestamp_of_Ym today1 today2).
  - intros o1 o2 H1 H2.
    apply init_ok_inv in H1, H2.
    destruct H1 as (loc1 & ts1 & w1 & t1 & c1 & Hl1 & _ & Hw1 & Ht1 & Hc1 & ->).
    destruct H2 as (loc2 & ts2 & w2 & t2 & c2 & Hl2 & _ & Hw2 & Ht2 & Hc2 & ->).
    rewrite Hl1 in Hl2. rewrite Hw1 in Hw2. rewrite Ht1 in Ht2.
    rewrite Hc1 in Hc2.
    injection Hl2 as <-. injection Hw2 as <-. injection Ht2 as <-.
    injection Hc2 as <-. reflexivity.
Qed.

(** *** Tokens that no group finder selects *)

(** Two token lists on which the finders select the same groups decode
    alike: whatever the first decodes, the second does. *)
Lemma decode_mono today s1 s2 parts1 parts2 o :
  (forall x, item0 parts1 = Ok x -> item0 parts2 = Ok x) ->
  Str.mem "AUTO" parts1 = Str.mem "AUTO" parts2 ->
  (forall x, item0 (filter (fun p => Str.endswith p "Z") parts1) = Ok x ->
             item0 (filter (fun p => Str.endswith p "Z") parts2) = Ok x) ->
  (forall x, item0 (filter (fun p => Str.contains "KT" p) parts1) = Ok x ->
             item0 (filter (fun p => Str.contains "KT" p) parts2) = Ok x) ->
  (forall x, find (Re.re_match tempre) parts1 = Some x ->
             find (Re.re_match tempre) parts2 = Some x) ->
  Str.mem "CAVOK" parts1 = Str.mem "CAVOK" parts2 ->
  Str.mem "NSC" parts1 = Str.mem "NSC" parts2 ->
  Str.mem "SKC" parts1 = Str.mem "SKC" parts2 ->
  filter has_cloud_key parts1 = filter has_cloud_key parts2 ->
  (forall x, item0 (filter (fun p => Str.endswith p "SM") parts1) = Ok x ->
             item0 (filter (fun p => Str.endswith p "SM") parts2) = Ok x) ->
  find has_wxcode parts1 = find has_wxcode parts2 ->
  decode today s1 parts1 = Ok o ->
  exists o',
    decode today s2 parts2 = Ok o'
    /\ decoded o' = decoded o
    /\ remarks o' = Some (remarks_of parts2).
Proof.
  intros H0 Hauto HZ HKT Htemp Hcav Hnsc Hskc Hcl HSM Hwx H.
  unfold decode in H.
  apply bind_ok in H. destruct H as [loc [Hloc H]].
  apply bind_ok in H. destruct H as [ts [Hts H]].
  apply bind_ok in H. destruct H as [w [Hw H]].
  apply bind_ok in H. destruct H as [t [Ht H]].
  apply bind_ok in H. destruct H as [c [Hc H]].
  injection H as <-.
  assert (Hts2 : timestamp_of today parts2 = Ok ts).
  { unfold timestamp_of in *.
    apply bind_ok in Hts. destruct Hts as [z [Hz Hts]].
    now rewrite (HZ z Hz). }
  assert (Hw2 : wind_of parts2 = Ok w).
  { unfold wind_of in *.
    apply bind_ok in Hw. destruct Hw as [kt [Hkt Hw]].
    now rewrite (HKT kt Hkt). }
  assert (Ht2 : temp_of parts2 = Ok t).
  { unfold temp_of in *.
    destruct (find (Re.re_match tempre) parts1) as [tg|] eqn:E;
      [|discriminate].
    now rewrite (Htemp tg eq_refl). }
  assert (Hc2 : cav_of parts2 = Ok c).
  { unfold cav_of in *. rewrite <- Hcav.
    destruct (Str.mem "CAVOK" parts1); [assumption|].
    apply bind_ok in Hc. destruct Hc as [cl [Hcl1 Hc]].
    apply bind_ok in Hc. destruct Hc as [v [Hv Hc]].
    apply bind_ok in Hc. destruct Hc as [wx [Hwx' Hc]].
    assert (Hcl2 : ceil_of parts2 = Ok cl).
    { unfold ceil_of in *. now rewrite <- Hnsc, <- Hskc, <- Hcl. }
    assert (Hv2 : vis_of parts2 = Ok v).
    { unfold vis_of in *.
      apply bind_ok in Hv. destruct Hv as [visf [Hf Hv]].
      now rewrite (HSM visf Hf). }
    assert (Hwx2 : wx_of parts2 = Ok wx).
    { unfold wx_of in *. now rewrite find_wx_field_find, <- Hwx,
        <- find_wx_field_find. }
    now rewrite Hcl2, Hv2, Hwx2. }
  unfold decode.
  rewrite (H0 loc Hloc), Hts2, Hw2, Ht2, Hc2. cbn [bind].
  eexists. split; [reflexivity|]. split; [|reflexivity].
  unfold decoded. cbn. now rewrite Hauto.
Qed.

Lemma find_app {A : Type} (f : A -> bool) (l l' : list A) :
  find f (l ++ l') = match find f l with
                     | Some x => Some x
                     | None => find f l'
                     end.
Proof.
  induction l as [|y l IH]; simpl; [reflexivity|].
  now destruct (f y).
Qed.

Lemma remarks_of_app_absent (l l' : list string) :
  ~ In "RMK" l -> remarks_of (l ++ l') = remarks_of l'.
Proof.
  unfold remarks_of. induction l as [|p l IH]; intros H; [reflexivity|].
  cbn [app index].
  destruct (String.eqb p "RMK") eqn:E.
  - apply String.eqb_eq in E. exfalso. apply H. now left.
  - assert (Hl : ~ In "RMK" l) by (intros Hin; apply H; now right).
    specialize (IH Hl).
    destruct (index "RMK" (l ++ l')) as [i|e]; cbn [fmap skipn]; exact IH.
Qed.

(** C9.  A doubled space between two groups, which puts an empty token in
    the token list, does not make [parse] raise when it did not: no finder
    selects the empty token, and every decoded attribute is the same.  (The
    remarks, the raw tokens from [RMK] on, are the same too when the space
    is doubled before the [RMK] token.) *)
Theorem doubled_space_tolerated today a b o :
  PointMETAR_init today (a ++ " " ++ b) = Ok o ->
  exists o',
    PointMETAR_init today (a ++ "  " ++ b) = Ok o'
    /\ decoded o' = decoded o
    /\ (~ In "RMK" (Str.split " " a) -> remarks o' = remarks o).
Proof.
  unfold PointMETAR_init. rewrite !parse_eq. cbn [metar_string PointMETAR_new].
  change (a ++ " " ++ b)%string with (a ++ String " " b)%string.
  change (a ++ "  " ++ b)%string with (a ++ String " " (String " " b))%string.
  rewrite !split_app.
  change (Str.split " " (String " " b)) with ("" :: Str.split " " b).
  set (A := Str.split " " a). set (B := Str.split " " b).
  intros H.
  assert (HA : A <> []) by apply split_not_nil.
  pose proof H as H'.
  apply (decode_mono today (a ++ String " " b)
           (a ++ String " " (String " " b)) (A ++ B) (A ++ "" :: B) o)
    in H' as (o' & Ho' & Hdec & Hrem); cycle 1.
  - destruct A; [contradiction|trivial].
  - now rewrite !mem_app.
  - now rewrite !filter_app.
  - now rewrite !filter_app.
  - now rewrite !find_app.
  - now rewrite !mem_app.
  - now rewrite !mem_app.
  - now rewrite !mem_app.
  - now rewrite !filter_app.
  - now rewrite !filter_app.
  - now rewrite !find_app.
  - exists o'. repeat split; try assumption.
    intros HnA. rewrite Hrem.
    unfold decode in H.
    apply bind_ok in H. destruct H as [loc [_ H]].
    apply bind_ok in H. destruct H as [ts [_ H]].
    apply bind_ok in H. destruct H as [w [_ H]].
    apply bind_ok in H. destruct H as [t [_ H]].
    apply bind_ok in H. destruct H as [c [_ H]].
    injection H as <-. cbn [remarks].
    rewrite !remarks_of_app_absent by assumption.
    unfold remarks_of. cbn [index]. cbn [String.eqb].
    destruct (index "RMK" B); reflexivity.
Qed.

(** C1 (as the code has it).  The finders scan every token, those from
    [RMK] on included.  A report whose part before [RMK] parses, and whose
    tokens after [RMK] are none of [AUTO], [CAVOK], [NSC], [SKC] and hold
    no key of [CLOUDS] and no phenomenon code, parses to the same decoded
    attributes as the part before [RMK] alone; only the remarks differ. *)
Theorem remarks_scanned_by_finders today a t rest o :
  Str.split " " t = "RMK" :: rest ->
  ~ In "RMK" (Str.split " " a) ->
  (forall p, In p rest ->
     Str.mem p ["AUTO"; "CAVOK"; "NSC"; "SKC"] = false
     /\ has_cloud_key p = false /\ has_wxcode p = false) ->
  PointMETAR_init today a = Ok o ->
  exists o',
    PointMETAR_init today (a ++ " " ++ t) = Ok o'
    /\ decoded o' = decoded o
    /\ remarks o = Some []
    /\ remarks o' = Some ("RMK" :: rest).
Proof.
  intros Ht HnA Hquiet.
  unfold PointMETAR_init. rewrite !parse_eq. cbn [metar_string PointMETAR_new].
  change (a ++ " " ++ t)%string with (a ++ String " " t)%string.
  rewrite split_app, Ht.
  set (A := Str.split " " a) in *.
  intros H.
  assert (HA : A <> []) by apply split_not_nil.
  assert (Hmem : forall x, Str.mem x ["AUTO"; "CAVOK"; "NSC"; "SKC"] = true ->
                 Str.mem x (A ++ "RMK" :: rest) = Str.mem x A).
  { intros x Hx. rewrite mem_app.
    destruct (Str.mem x ("RMK" :: rest)) eqn:E; [|apply orb_false_r].
    exfalso. apply mem_In in E. destruct E as [<-|E]; [discriminate Hx|].
    destruct (Hquiet x E) as [Hq _]. congruence. }
  assert (Hcl : filter has_cloud_key ("RMK" :: rest) = []).
  { apply filter_none. intros p [<-|Hp]; [reflexivity|].
    now destruct (Hquiet p Hp) as (_ & Hc & _). }
  assert (Hwx : find has_wxcode ("RMK" :: rest) = None).
  { apply find_none_iff. intros p [<-|Hp]; [reflexivity|].
    now destruct (Hquiet p Hp) as (_ & _ & Hw). }
  pose proof H as H'.
  apply (decode_mono today a (a ++ String " " t) A (A ++ "RMK" :: rest) o)
    in H' as (o' & Ho' & Hdec & Hrem); cycle 1.
  - intros x. apply item0_app.
  - symmetry. now apply Hmem.
  - intros x. rewrite filter_app. apply item0_app.
  - intros x. rewrite filter_app. apply item0_app.
  - intros x. apply find_app_some.
  - symmetry. now apply Hmem.
  - symmetry. now apply Hmem.
  - symmetry. now apply Hmem.
  - now rewrite filter_app, Hcl, app_nil_r.
  - intros x. rewrite filter_app. apply item0_app.
  - rewrite find_app, Hwx. now destruct (find has_wxcode A).
  - exists o'. repeat split; try assumption.
    + unfold decode in H.
      apply bind_ok in H. destruct H as [loc [_ H]].
      apply bind_ok in H. destruct H as [ts [_ H]].
      apply bind_ok in H. destruct H as [w [_ H]].
      apply bind_ok in H. destruct H as [tt [_ H]].
      apply bind_ok in H. destruct H as [c [_ H]].
      injection H as <-. cbn [remarks].
      now rewrite remarks_of_absent.
    + rewrite Hrem. now rewrite remarks_of_split.
Qed.

End Properties.

(* ================================================================== *)
(** ** The exception of a missing group *)

Section MissingGroup.

Context {F : PyFloat} {R : PyFloatRaises F}.

Lemma item0_err {A : Type} (l : list A) (e : exn) :
  item0 l = Err e -> l = [] /\ e = IndexError.
Proof. destruct l; simpl; [intros [= <-]; now split|discriminate]. Qed.

Lemma getitem_raises {V : Type} (d : dict V) (x : string) (e : exn) :
  getitem d x = Err e -> e = KeyError.
Proof.
  induction d as [|[k' v] d IH]; simpl; [congruence|].
  destruct (String.eqb x k'); [discriminate|exact IH].
Qed.

Lemma signed_raises (t : string) (e : exn) :
  signed t = Err e -> e = ValueError.
Proof.
  unfold signed. destruct (Str.contains "M" t).
  - destruct (Py.int (Str.drop 1 t)) eqn:E; simpl; [discriminate|].
    intros [= <-]. now apply int_raises in E.
  - apply int_raises.
Qed.

Lemma wx_of_total (parts : list string) : exists w, wx_of parts = Ok w.
Proof.
  destruct (parse_wx_total parts (PointMETAR_new "")) as [w Hw].
  rewrite parse_wx_eq in Hw. apply fmap_ok in Hw.
  destruct Hw as [w' [Hw' _]]. now exists w'.
Qed.

Lemma timestamp_of_index_error (today : Datetime.date) (parts : list string) :
  timestamp_of today parts = Err IndexError ->
  filter (fun p => Str.endswith p "Z") parts = [].
Proof.
  unfold timestamp_of. intros H. apply bind_err in H.
  destruct H as [H|[z [_ H]]].
  - now apply item0_err in H.
  - apply strptime_raises in H. discriminate.
Qed.

Lemma wind_of_index_error (parts : list string) :
  wind_of parts = Err IndexError ->
  filter (fun p => Str.contains "KT" p) parts = [].
Proof.
  unfold wind_of. intros H. apply bind_err in H.
  destruct H as [H|[kt [_ H]]]; [now apply item0_err in H|].
  exfalso. apply bind_err in H. destruct H as [H|[wg [_ H]]].
  - unfold gust_of in H.
    destruct (Str.contains "G" (Str.drop_last 2 kt)) eqn:EG; [|discriminate].
    destruct (split_contains "G" _ EG) as (w & g & rest & Hs).
    rewrite Hs in H. apply bind_err in H.
    destruct H as [H|[x [_ H]]]; [|discriminate].
    apply int_raises in H. discriminate.
  - apply bind_err in H. destruct H as [H|[x [_ H]]]; [|discriminate].
    apply int_raises in H. discriminate.
Qed.

Lemma temp_of_no_index_error (parts : list string) :
  temp_of parts <> Err IndexError.
Proof.
  unfold temp_of. intros H.
  destruct (find (Re.re_match tempre) parts) as [tg|]; [|discriminate].
  destruct (Str.split "/" tg) as [|l [|r [|x xs]]]; try discriminate.
  apply bind_err in H. destruct H as [H|[t [_ H]]].
  - apply signed_raises in H. discriminate.
  - apply bind_err in H. destruct H as [H|[d [_ H]]]; [|discriminate].
    apply signed_raises in H. discriminate.
Qed.

Lemma ceil_of_no_index_error (parts : list string) :
  ceil_of parts <> Err IndexError.
Proof.
  unfold ceil_of. intros H.
  destruct (Str.mem "NSC" parts || Str.mem "SKC" parts); [discriminate|].
  apply mapM_err in H. destruct H as [layer [_ H]].
  unfold cloud_layer in H. apply bind_err in H.
  destruct H as [H|[entry [_ H]]].
  - apply getitem_raises in H. discriminate.
  - apply bind_err in H. destruct H as [H|[n [_ H]]]; [|discriminate].
    apply int_raises in H. discriminate.
Qed.

Lemma vis_of_index_error (parts : list string) :
  vis_of parts = Err IndexError ->
  filter (fun p => Str.endswith p "SM") parts = [].
Proof.
  unfold vis_of. intros H. apply bind_err in H.
  destruct H as [H|[visf [_ H]]]; [now apply item0_err in H|].
  exfalso. cbv zeta in H.
  destruct (Py.int (Str.drop_last 2 visf)) as [n|e] eqn:E;
    [discriminate|].
  apply int_raises in E. subst e. cbn [fmap except_ValueError] in H.
  destruct (Str.split "/" (Str.drop_last 2 visf)) as [|a [|b [|x xs]]];
    try discriminate.
  apply bind_err in H. destruct H as [H|[x [_ H]]].
  - apply float_of_str_raises in H. discriminate.
  - apply bind_err in H. destruct H as [H|[y [_ H]]].
    + apply float_of_str_raises in H. discriminate.
    + destruct (float_truediv x y) eqn:Ed; [discriminate|].
      apply float_truediv_raises in Ed. simpl in H. congruence.
Qed.

(** [parse] raises [IndexError] for no other reason than a group that is
    not there: the timestamp, the wind, or (without [CAVOK]) the visibility.
    A group that is there and malformed raises [ValueError], [KeyError] or
    [ZeroDivisionError]. *)
Lemma index_error_is_missing_group (today : Datetime.date) (s : string) :
  PointMETAR_init today s = Err IndexError ->
  let parts := Str.split " " s in
  filter (fun p => Str.endswith p "Z") parts = []
  \/ filter (fun p => Str.contains "KT" p) parts = []
  \/ (~ In "CAVOK" parts
      /\ filter (fun p => Str.endswith p "SM") parts = []).
Proof.
  intros H parts. unfold PointMETAR_init in H. rewrite parse_eq in H.
  cbn [metar_string PointMETAR_new] in H. fold parts in H.
  unfold decode in H.
  apply bind_err in H. destruct H as [H|[loc [_ H]]].
  { apply item0_err in H. destruct H as [H _].
    now apply split_not_nil in H. }
  apply bind_err in H. destruct H as [H|[ts [_ H]]].
  { left. now apply timestamp_of_index_error in H. }
  apply bind_err in H. destruct H as [H|[w [_ H]]].
  { right. left. now apply wind_of_index_error. }
  apply bind_err in H. destruct H as [H|[t [_ H]]].
  { now apply temp_of_no_index_error in H. }
  apply bind_err in H. destruct H as [H|[c [_ H]]]; [|discriminate].
  right. right. unfold cav_of in H.
  destruct (Str.mem "CAVOK" parts) eqn:Ec; [discriminate|].
  split; [now apply mem_not_In|].
  apply bind_err in H. destruct H as [H|[cl [_ H]]].
  { now apply ceil_of_no_index_error in H. }
  apply bind_err in H. destruct H as [H|[v [_ H]]].
  { now apply vis_of_index_error. }
  destruct (wx_of_total parts) as [wx Hwx]. rewrite Hwx in H. discriminate.
Qed.

End MissingGroup.

(* ================================================================== *)
(** ** The properties on concrete reports

    Each lemma below evaluates the decoder, with the [binary64]
    implementation of [float], on one report. *)

Ltac in_cases H :=
  simpl in H;
  repeat (destruct H as [H|H]; [try (subst; reflexivity); try discriminate H|]);
  try contradiction.

Ltac not_in :=
  let H := fresh in intros H; in_cases H.

(** [run today s E]: evaluate the constructor on [s], as the equation [E]. *)
Ltac run today s E :=
  let v := eval vm_compute in (PointMETAR_init (F := binary64) today s) in
  assert (E : PointMETAR_init (F := binary64) today s = v)
    by (vm_cast_no_check (@eq_refl (result PointMETAR) v)).

Ltac exists_result E :=
  match type of E with _ = Ok ?o => exists o end.

(** A report with no timestamp group raises [IndexError]. *)
Lemma missing_timestamp_witness :
  PointMETAR_init jan_15 "KGFK 24011KT 10SM BKN100 20/03 A2945"
  = Err IndexError.
Proof.
  apply (missing_timestamp_raises (F := binary64)).
  intros p Hp. in_cases Hp.
Defined.

(** [CAVOK] beside a cloud layer, a visibility and a weather group. *)
Lemma cavok_witness :
  exists o,
    PointMETAR_init jan_15
      "KGFK 262353Z 24011KT CAVOK 1/2SM -RA BKN100 20/03 A2945" = Ok o
    /\ vis o = Some (Int 10) /\ clouds o = [] /\ weather o = Some "".
Proof.
  run jan_15 "KGFK 262353Z 24011KT CAVOK 1/2SM -RA BKN100 20/03 A2945" E.
  exists_result E. split; [exact E|].
  refine (proj2 (cavok_overrides (F := binary64) jan_15 _ _) _ E).
  simpl; tauto.
Defined.

(** The remarks of the sample report start with the [RMK] token: they are
    not the tokens strictly after it. *)
Lemma remarks_include_marker :
  fmap remarks (PointMETAR_init jan_15 kgfk) = Ok (Some ["RMK"; "AO2"])
  /\ fmap remarks (PointMETAR_init jan_15 kgfk) <> Ok (Some ["AO2"]).
Proof. split; vm_compute; [reflexivity|discriminate]. Qed.

Lemma remarks_from_marker_witness :
  (exists o,
     PointMETAR_init jan_15 kgfk = Ok o /\ remarks o = Some ["RMK"; "AO2"])
  /\ (exists o,
        PointMETAR_init jan_15 "KGFK 262353Z 24011KT 10SM 20/03" = Ok o
        /\ remarks o = Some []).
Proof.
  split.
  - run jan_15 kgfk E. exists_result E. split; [exact E|].
    refine (proj1 (remarks_from_marker (F := binary64) jan_15 kgfk _ E)
              ["KGFK"; "262353Z"; "24011KT"; "10SM"; "BKN100"; "BKN120";
               "BKN140"; "20/03"; "A2945"] ["AO2"] _ _).
    + reflexivity.
    + not_in.
  - run jan_15 "KGFK 262353Z 24011KT 10SM 20/03" E.
    exists_result E. split; [exact E|].
    refine (proj2 (remarks_from_marker (F := binary64) jan_15 _ _ E) _).
    not_in.
Defined.

(** The sample report has the layer of its [BKN100] token. *)
Lemma bkn100_layer_witness :
  exists o,
    PointMETAR_init jan_15 kgfk = Ok o
    /\ In "broken at 10000" (clouds o).
Proof.
  run jan_15 kgfk E. exists_result E. split; [exact E|].
  refine (proj2 (bkn100_layer (F := binary64) jan_15 kgfk _ _ _ _ _ E)).
  - simpl; tauto.
  - not_in.
  - not_in.
  - not_in.
Defined.

(** A report whose weather field is [-RA]. *)
Lemma slight_rain_witness :
  exists o,
    PointMETAR_init jan_15 "KGFK 262353Z 24011KT 10SM -RA BKN100 20/03 A2945"
    = Ok o
    /\ weather o = Some "slight rain".
Proof.
  run jan_15 "KGFK 262353Z 24011KT 10SM -RA BKN100 20/03 A2945" E.
  exists_result E. split; [exact E|].
  refine (proj2 (slight_rain (F := binary64) jan_15 _
                   ["KGFK"; "262353Z"; "24011KT"; "10SM"]
                   ["BKN100"; "20/03"; "A2945"] _ _) _ _ E).
  - reflexivity.
  - intros p Hp. in_cases Hp.
  - not_in.
Defined.

(** The weather group [-RA] is not always rendered: in this report the
    station identifier holds [BR] and is taken as the weather field, and
    the weather of the parsed report is the empty text. *)
Lemma slight_rain_not_rendered :
  In "-RA" (Str.split " " kbrd)
  /\ fmap weather (PointMETAR_init jan_15 kbrd) = Ok (Some "")
  /\ fmap weather (PointMETAR_init jan_15 kbrd) <> Ok (Some "slight rain").
Proof.
  split; [simpl; tauto|].
  split; vm_compute; [reflexivity|discriminate].
Qed.

(** A weather field with two codes, an intensity, and a modifier of
    negative order. *)
Lemma wx_names_injected_witness :
  exists (codes ms names hi lo : list string),
    gobble "+TSRAVC" [] [None] "" = (codes, None :: map Some ms)
    /\ mapM (fun c => fmap fst (getitem METAR_WXCODES c)) codes = Ok names
    /\ sort_by_key k (None :: map Some ms)
       = Ok (map Some hi ++ None :: map Some lo)
    /\ Permutation (hi ++ lo) ms
    /\ parse_wx ["KGFK"; "+TSRAVC"; "20/03"] (PointMETAR_new "")
       = Ok (set_weather
               (Some (Str.join " "
                        (map wxmod_name hi ++ names ++ map wxmod_name lo)))
               (PointMETAR_new "")).
Proof.
  apply (wx_names_injected_as_block (F := binary64)).
  vm_compute; reflexivity.
Defined.

(** The text it renders: "heavy", the two names, "in vicinity". *)
Example wx_block_ex :
  fmap weather (parse_wx (F := binary64) ["KGFK"; "+TSRAVC"; "20/03"]
                  (PointMETAR_new ""))
  = Ok (Some "heavy thunderstorm rain in vicinity").
Proof. vm_compute; reflexivity. Qed.

(** The direction of [VRB05KT] is the text "VRB", not "variable". *)
Lemma vrb_is_not_variable :
  fmap winddir
    (PointMETAR_init jan_15 "KGFK 262353Z VRB05KT 10SM BKN100 20/03 A2945")
  = Ok (Some (IsStr "VRB"))
  /\ fmap winddir
       (PointMETAR_init jan_15 "KGFK 262353Z VRB05KT 10SM BKN100 20/03 A2945")
     <> Ok (Some (IsStr "variable")).
Proof. split; vm_compute; [reflexivity|discriminate]. Qed.

Lemma vrb_direction_witness :
  exists o,
    PointMETAR_init jan_15 "KGFK 262353Z VRB05KT 10SM BKN100 20/03 A2945" = Ok o
    /\ winddir o = Some (IsStr "VRB")
    /\ windspd o = Some 5%Z
    /\ windgust o = Some 0%Z.
Proof.
  run jan_15 "KGFK 262353Z VRB05KT 10SM BKN100 20/03 A2945" E.
  exists_result E. split; [exact E|].
  destruct (vrb_direction_kept (F := binary64) jan_15 _ _ "VRB05KT" "05" E)
    as (spd & Hspd & Hd & Hs & Hg).
  - vm_compute; reflexivity.
  - reflexivity.
  - reflexivity.
  - vm_compute in Hspd. injection Hspd as <-. now repeat split.
Defined.

(** The same report parsed in January and in February of 2024. *)
Lemma parse_depends_on_today :
  fmap timestamp (PointMETAR_init jan_15 kgfk)
  <> fmap timestamp (PointMETAR_init feb_15 kgfk).
Proof. vm_compute. discriminate. Qed.

Lemma parse_reads_today_witness :
  PointMETAR_init jan_15 kgfk = PointMETAR_init jan_20 kgfk
  /\ exists o1 o2,
       PointMETAR_init jan_15 kgfk = Ok o1
       /\ PointMETAR_init feb_15 kgfk = Ok o2
       /\ o2 = set_timestamp (timestamp o2) o1.
Proof.
  split.
  - apply (proj1 (parse_reads_today_for_timestamp (F := binary64)
                    jan_15 jan_20 kgfk)); reflexivity.
  - run jan_15 kgfk E1. run feb_15 kgfk E2.
    exists_result E1. exists_result E2.
    split; [exact E1|]. split; [exact E2|].
    exact (proj2 (parse_reads_today_for_timestamp (F := binary64)
                    jan_15 feb_15 kgfk) _ _ E1 E2).
Defined.

(** The sample report with the space before its visibility group doubled. *)
Lemma doubled_space_witness :
  exists o o',
    PointMETAR_init jan_15
      ("KGFK 262353Z 24011KT" ++ " " ++ "10SM BKN100 20/03 A2945 RMK AO2") = Ok o
    /\ PointMETAR_init jan_15
         ("KGFK 262353Z 24011KT" ++ "  " ++ "10SM BKN100 20/03 A2945 RMK AO2")
       = Ok o'
    /\ decoded o' = decoded o
    /\ remarks o' = remarks o.
Proof.
  run jan_15
    ("KGFK 262353Z 24011KT" ++ " " ++ "10SM BKN100 20/03 A2945 RMK AO2")%string
    E.
  destruct (doubled_space_tolerated (F := binary64) jan_15
              "KGFK 262353Z 24011KT" "10SM BKN100 20/03 A2945 RMK AO2" _ E)
    as (o' & Ho' & Hdec & Hrem).
  exists_result E. exists o'. repeat split; try assumption.
  apply Hrem. not_in.
Defined.

(** A cloud group after [RMK] becomes a cloud layer, and a [CB] remark makes
    [parse] raise: the report and its truncation at [RMK] do not decode
    alike. *)
Lemma remarks_are_searched :
  fmap clouds
    (PointMETAR_init jan_15
       "KGFK 262353Z 24011KT 10SM BKN100 20/03 A2945 RMK OVC050")
  = Ok ["broken at 10000"; "overcase at 5000"]
  /\ fmap clouds
       (PointMETAR_init jan_15 "KGFK 262353Z 24011KT 10SM BKN100 20/03 A2945")
     = Ok ["broken at 10000"]
  /\ PointMETAR_init jan_15
       "KGFK 262353Z 24011KT 10SM BKN100 20/03 A2945 RMK CB DSNT W"
     = Err ValueError.
Proof. repeat split; vm_compute; reflexivity. Qed.

(** The sample report and its part before [RMK]. *)
Lemma remarks_scanned_witness :
  exists o o',
    PointMETAR_init jan_15
      "KGFK 262353Z 24011KT 10SM BKN100 BKN120 BKN140 20/03 A2945" = Ok o
    /\ PointMETAR_init jan_15
         ("KGFK 262353Z 24011KT 10SM BKN100 BKN120 BKN140 20/03 A2945"
          ++ " " ++ "RMK AO2 SLP972 T02000033") = Ok o'
    /\ decoded o' = decoded o
    /\ remarks o = Some []
    /\ remarks o' = Some ["RMK"; "AO2"; "SLP972"; "T02000033"].
Proof.
  run jan_15 "KGFK 262353Z 24011KT 10SM BKN100 BKN120 BKN140 20/03 A2945" E.
  pose proof E as E'.
  apply (remarks_scanned_by_finders (F := binary64) jan_15
           "KGFK 262353Z 24011KT 10SM BKN100 BKN120 BKN140 20/03 A2945"
           "RMK AO2 SLP972 T02000033" ["AO2"; "SLP972"; "T02000033"])
    in E' as (o' & Ho' & Hdec & Hr & Hr'); cycle 1.
  - reflexivity.
  - not_in.
  - intros p Hp. simpl in Hp.
    repeat (destruct Hp as [<-|Hp]; [repeat split; vm_compute; reflexivity|]).
    contradiction.
  - exists_result E. exists o'. repeat split; assumption.
Defined.

(* ================================================================== *)
(** ** Further reports, evaluated *)

(** The sample report, end to end. *)
Example kgfk_decoded :
  fmap (fun o => (loc_code o, winddir o, windspd o, windgust o, clouds o,
                  temp o, dewpt o, weather o, remarks o))
       (PointMETAR_init jan_15 kgfk)
  = Ok (Some "KGFK", Some (IsInt 240), Some 11%Z, Some 0%Z,
        ["broken at 10000"; "broken at 12000"; "broken at 14000"],
        Some 20%Z, Some 3%Z, Some "nothing!", Some ["RMK"; "AO2"]).
Proof. vm_compute; reflexivity. Qed.

Example kgfk_visibility :
  fmap vis (PointMETAR_init jan_15 kgfk) = Ok (Some (Int 10)).
Proof.
  vm_cast_no_check (@eq_refl (result (option number)) (Ok (Some (Int 10)))).
Qed.

(** Negative temperature and dew point, a gust, a fractional visibility. *)
Example minus_gust_decoded :
  fmap (fun o => (winddir o, windspd o, windgust o, temp o, dewpt o))
       (PointMETAR_init jan_15
          "KGFK 262353Z 24011G20KT 1/2SM BKN100 M05/M10 A2945")
  = Ok (Some (IsInt 240), Some 11%Z, Some 20%Z, Some (-5)%Z, Some (-10)%Z).
Proof. vm_compute; reflexivity. Qed.

(** One half, as a binary64 number: 2^52 * 2^-53. *)
Example half_mile_visibility :
  fmap vis (PointMETAR_init jan_15
              "KGFK 262353Z 24011G20KT 1/2SM BKN100 M05/M10 A2945")
  = Ok (Some (Float (S754_finite false 4503599627370496 (-53)))).
Proof.
  vm_cast_no_check
    (@eq_refl (result (option number))
       (Ok (Some (Float (S754_finite false 4503599627370496 (-53)))))).
Qed.

(** A missing wind group and a missing temperature group. *)
Example missing_wind :
  PointMETAR_init jan_15 "KGFK 262353Z 10SM BKN100 20/03 A2945"
  = Err IndexError.
Proof. vm_cast_no_check (@eq_refl (result PointMETAR) (Err IndexError)). Qed.

Example missing_temperature :
  PointMETAR_init jan_15 "KGFK 262353Z 24011KT 10SM BKN100 A2945"
  = Err AttributeError.
Proof.
  vm_cast_no_check (@eq_refl (result PointMETAR) (Err AttributeError)).
Qed.

(* ================================================================== *)
(** ** More properties of the decoder: attributes, clouds, weather *)

Section MoreProperties.

Context {F : PyFloat}.

Implicit Types (today : Datetime.date) (s : string) (o : PointMETAR)
  (parts : list string).

(** An object [PointMETAR(...)] returns has every attribute [parse] is to
    assign: none is left at the [None] of [__init__].  The station is the
    first token, and [auto] tells whether [AUTO] is one of the tokens. *)
Theorem parse_assigns_every_attribute today s o :
  PointMETAR_init today s = Ok o ->
  metar_string o = s
  /\ loc_code o = hd_error (Str.split " " s)
  /\ auto o = Some (Str.mem "AUTO" (Str.split " " s))
  /\ timestamp o <> None
  /\ winddir o <> None /\ windspd o <> None /\ windgust o <> None
  /\ temp o <> None /\ dewpt o <> None
  /\ vis o <> None /\ weather o <> None /\ remarks o <> None.
Proof.
  intros Ho. apply init_ok_inv in Ho.
  destruct Ho as (loc & ts & w & t & c & Hloc & _ & _ & _ & _ & ->).
  cbn. repeat split; try discriminate.
  destruct (Str.split " " s); [discriminate Hloc|].
  injection Hloc as ->. reflexivity.
Qed.

(** *** Clouds *)

Lemma take_drop (n : nat) (x : string) :
  (Str.take n x ++ Str.drop n x)%string = x.
Proof.
  revert x. induction n as [|n IH]; intros [|c x]; simpl; try reflexivity.
  now rewrite IH.
Qed.

Lemma drop_short (n : nat) (x : string) :
  String.length (Str.take n x) < n -> Str.drop n x = "".
Proof.
  revert x. induction n as [|n IH]; intros [|c x]; simpl; try reflexivity.
  - intros H. inversion H.
  - intros H. apply IH. now apply Nat.succ_lt_mono.
Qed.

Lemma getitem_In {V : Type} (d : dict V) (x : string) (v : V) :
  getitem d x = Ok v -> In (x, v) d.
Proof.
  induction d as [|[k' v'] d IH]; simpl; [discriminate|].
  destruct (String.eqb x k') eqn:E.
  - apply String.eqb_eq in E. intros [= <-]. left. now subst.
  - intros H. right. now apply IH.
Qed.

(** A token gives a cloud layer only when it is a three-letter key of
    [CLOUDS] followed by an integer literal; the layer reads the name of
    the key, " at ", and the integer times 100.  The two-letter key [CB]
    selects tokens but never gives a layer. *)
Theorem cloud_layer_shape (tok txt : string) :
  cloud_layer tok = Ok txt ->
  exists key alt name octas n,
    tok = (key ++ alt)%string
    /\ String.length key = 3
    /\ getitem CLOUDS key = Ok (name, octas)
    /\ Py.int alt = Ok n
    /\ txt = (name ++ " at " ++ Py.str (n * 100))%string.
Proof.
  unfold cloud_layer. intros H.
  apply bind_ok in H. destruct H as [[name octas] [Hget H]].
  apply bind_ok in H. destruct H as [n [Hint H]].
  injection H as <-.
  exists (Str.take 3 tok), (Str.drop 3 tok), name, octas, n.
  repeat split; try assumption.
  - symmetry. apply take_drop.
  - assert (Hkey : In (Str.take 3 tok) (keys CLOUDS)).
    { apply getitem_In in Hget.
      apply (in_map fst) in Hget. exact Hget. }
    assert (Hshort : String.length (Str.take 3 tok) < 3 -> False).
    { intros Hlt. rewrite (drop_short 3 tok Hlt) in Hint.
      vm_compute in Hint. discriminate Hint. }
    revert Hshort Hkey. generalize (Str.take 3 tok) as key.
    intros key Hshort Hkey. simpl in Hkey.
    (* for the key CB the token is CB itself, and nothing is left to read *)
    repeat (destruct Hkey as [Hk|Hkey];
            [subst key; first [reflexivity|exfalso; apply Hshort; simpl; lia]|]).
    contradiction.
Qed.

Lemma mapM_Forall2 {A B : Type} (f : A -> result B) (l : list A) (ys : list B) :
  mapM f l = Ok ys -> Forall2 (fun x y => f x = Ok y) l ys.
Proof.
  revert ys. induction l as [|a l IH]; simpl; intros ys H.
  - injection H as <-. constructor.
  - apply bind_ok in H. destruct H as [b [Hb H]].
    apply bind_ok in H. destruct H as [bs [Hbs H]].
    injection H as <-. constructor; [assumption|now apply IH].
Qed.

(** Without [CAVOK], [NSC] and [SKC], the layers of a parsed report are, in
    token order, one for each token that holds a key of [CLOUDS]. *)
Theorem clouds_in_token_order today s o :
  ~ In "CAVOK" (Str.split " " s) ->
  ~ In "NSC" (Str.split " " s) ->
  ~ In "SKC" (Str.split " " s) ->
  PointMETAR_init today s = Ok o ->
  Forall2 (fun tok txt => cloud_layer tok = Ok txt)
          (filter has_cloud_key (Str.split " " s)) (clouds o).
Proof.
  intros Hcav Hnsc Hskc Ho. apply init_ok_inv in Ho.
  destruct Ho as (loc & ts & w & t & c & _ & _ & _ & _ & Hc & ->).
  cbn [clouds]. unfold cav_of in Hc.
  apply mem_not_In in Hcav, Hnsc, Hskc. rewrite Hcav in Hc.
  apply bind_ok in Hc. destruct Hc as [cl [Hcl Hc]].
  apply bind_ok in Hc. destruct Hc as [v [_ Hc]].
  apply bind_ok in Hc. destruct Hc as [wx [_ Hc]].
  injection Hc as <-. cbn [fst].
  unfold ceil_of in Hcl. rewrite Hnsc, Hskc in Hcl. cbn [orb] in Hcl.
  now apply mapM_Forall2.
Qed.

(** With [NSC] or [SKC] among the tokens, [parse_ceil] reads no layer: it
    returns with no cloud, whatever cloud groups the report has, and so does
    every [parse] that returns. *)
Theorem nsc_skc_clear_sky today s :
  In "NSC" (Str.split " " s) \/ In "SKC" (Str.split " " s) ->
  (forall self,
     parse_ceil (Str.split " " s) self = Ok (set_clouds [] self))
  /\ (forall o, PointMETAR_init today s = Ok o -> clouds o = []).
Proof.
  intros H.
  assert (Hm : Str.mem "NSC" (Str.split " " s)
               || Str.mem "SKC" (Str.split " " s) = true).
  { apply orb_true_iff. destruct H as [H|H]; [left|right]; now apply mem_In. }
  split.
  - intros self. unfold parse_ceil. now rewrite Hm.
  - intros o Ho. apply init_ok_inv in Ho.
    destruct Ho as (loc & ts & w & t & c & _ & _ & _ & _ & Hc & ->).
    cbn [clouds]. unfold cav_of in Hc.
    destruct (Str.mem "CAVOK" (Str.split " " s)).
    + now injection Hc as <-.
    + apply bind_ok in Hc. destruct Hc as [cl [Hcl Hc]].
      apply bind_ok in Hc. destruct Hc as [v [_ Hc]].
      apply bind_ok in Hc. destruct Hc as [wx [_ Hc]].
      injection Hc as <-. cbn [fst].
      unfold ceil_of in Hcl. rewrite Hm in Hcl. now injection Hcl as <-.
Qed.

(** *** Weather *)

(** When no token holds a phenomenon code, the weather is the text
    "nothing!": [parse_wx] returns it, and so does every [parse] of a
    report without [CAVOK] that returns. *)
Theorem no_weather_sentinel today s :
  (forall p, In p (Str.split " " s) -> has_wxcode p = false) ->
  (forall self,
     parse_wx (Str.split " " s) self
     = Ok (set_weather (Some "nothing!") self))
  /\ (forall o,
        ~ In "CAVOK" (Str.split " " s) ->
        PointMETAR_init today s = Ok o ->
        weather o = Some "nothing!").
Proof.
  intros Hno.
  assert (Hwx : wx_of (Str.split " " s) = Ok "nothing!").
  { unfold wx_of. rewrite find_wx_field_find.
    now rewrite (proj2 (find_none_iff has_wxcode _) Hno). }
  split.
  - intros self. now rewrite parse_wx_eq, Hwx.
  - intros o Hcav Ho. apply init_ok_inv in Ho.
    destruct Ho as (loc & ts & w & t & c & _ & _ & _ & _ & Hc & ->).
    cbn [weather]. unfold cav_of in Hc.
    apply mem_not_In in Hcav. rewrite Hcav in Hc.
    apply bind_ok in Hc. destruct Hc as [cl [_ Hc]].
    apply bind_ok in Hc. destruct Hc as [v [_ Hc]].
    apply bind_ok in Hc. destruct Hc as [wx [Hw Hc]].
    injection Hc as <-. cbn [snd]. congruence.
Qed.

End MoreProperties.

(* ================================================================== *)
(** ** The causes of the other exceptions *)

Section ExceptionCauses.

Context {F : PyFloat} {R : PyFloatRaises F}.

Implicit Types (today : Datetime.date) (s : string) (parts : list string).

Lemma timestamp_of_raises today parts (e : exn) :
  timestamp_of today parts = Err e -> e = IndexError \/ e = ValueError.
Proof.
  unfold timestamp_of. intros H. apply bind_err in H.
  destruct H as [H|[z [_ H]]].
  - left. now apply item0_err in H.
  - right. now apply strptime_raises in H.
Qed.

Lemma wind_of_raises parts (e : exn) :
  wind_of parts = Err e -> e = IndexError \/ e = ValueError.
Proof.
  unfold wind_of. intros H. apply bind_err in H.
  destruct H as [H|[kt [_ H]]]; [left; now apply item0_err in H|].
  right. apply bind_err in H. destruct H as [H|[wg [_ H]]].
  - unfold gust_of in H.
    destruct (Str.contains "G" (Str.drop_last 2 kt)) eqn:EG; [|discriminate].
    destruct (split_contains "G" _ EG) as (w & g & rest & Hs).
    rewrite Hs in H. apply bind_err in H.
    destruct H as [H|[x [_ H]]]; [|discriminate].
    now apply int_raises in H.
  - apply bind_err in H. destruct H as [H|[x [_ H]]]; [|discriminate].
    now apply int_raises in H.
Qed.

Lemma temp_of_raises parts (e : exn) :
  temp_of parts = Err e ->
  (e = AttributeError /\ find (Re.re_match tempre) parts = None)
  \/ e = ValueError.
Proof.
  unfold temp_of. intros H.
  destruct (find (Re.re_match tempre) parts) as [tg|].
  - right.
    destruct (Str.split "/" tg) as [|l [|r [|x xs]]]; try congruence.
    apply bind_err in H. destruct H as [H|[t [_ H]]].
    + now apply signed_raises in H.
    + apply bind_err in H. destruct H as [H|[d [_ H]]]; [|discriminate].
      now apply signed_raises in H.
  - left. split; congruence.
Qed.

Lemma ceil_of_raises parts (e : exn) :
  ceil_of parts = Err e ->
  (e = KeyError
   /\ Str.mem "NSC" parts = false /\ Str.mem "SKC" parts = false
   /\ exists tok, In tok parts /\ has_cloud_key tok = true
                  /\ getitem CLOUDS (Str.take 3 tok) = Err KeyError)
  \/ e = ValueError.
Proof.
  unfold ceil_of. intros H.
  destruct (Str.mem "NSC" parts) eqn:En; [discriminate|].
  destruct (Str.mem "SKC" parts) eqn:Es; [discriminate|].
  cbn [orb] in H. apply mapM_err in H. destruct H as [tok [Hin H]].
  apply filter_In in Hin. destruct Hin as [Hin Hkey].
  unfold cloud_layer in H. apply bind_err in H.
  destruct H as [H|[entry [_ H]]].
  - left. pose proof (getitem_raises _ _ _ H) as ->.
    repeat split. now exists tok.
  - right. apply bind_err in H. destruct H as [H|[n [_ H]]]; [|discriminate].
    now apply int_raises in H.
Qed.

Lemma vis_of_raises parts (e : exn) :
  vis_of parts = Err e ->
  e = IndexError \/ e = ValueError
  \/ (e = ZeroDivisionError
      /\ exists visf a b x y,
           item0 (filter (fun p => Str.endswith p "SM") parts) = Ok visf
           /\ Str.split "/" (Str.drop_last 2 visf) = [a; b]
           /\ float_of_str a = Ok x /\ float_of_str b = Ok y
           /\ float_truediv x y = Err ZeroDivisionError).
Proof.
  unfold vis_of. intros H. apply bind_err in H.
  destruct H as [H|[visf [Hf H]]]; [left; now apply item0_err in H|].
  right. cbv zeta in H.
  destruct (Py.int (Str.drop_last 2 visf)) as [n|e'] eqn:E; [discriminate|].
  apply int_raises in E. subst e'. cbn [fmap except_ValueError] in H.
  destruct (Str.split "/" (Str.drop_last 2 visf)) as [|a [|b [|x xs]]] eqn:Es;
    try (left; congruence).
  apply bind_err in H. destruct H as [H|[x [Hx H]]].
  { left. now apply float_of_str_raises in H. }
  apply bind_err in H. destruct H as [H|[y [Hy H]]].
  { left. now apply float_of_str_raises in H. }
  destruct (float_truediv x y) eqn:Ed; [discriminate|].
  injection H as <-. pose proof (float_truediv_raises _ _ _ Ed) as ->.
  right. split; [reflexivity|]. now exists visf, a, b, x, y.
Qed.

(** What an exception of [parse] is, stage by stage. *)
Lemma init_err_inv today s (e : exn) :
  PointMETAR_init today s = Err e ->
  let parts := Str.split " " s in
  timestamp_of today parts = Err e
  \/ wind_of parts = Err e
  \/ temp_of parts = Err e
  \/ (Str.mem "CAVOK" parts = false
      /\ (ceil_of parts = Err e \/ vis_of parts = Err e)).
Proof.
  intros H parts. unfold PointMETAR_init in H. rewrite parse_eq in H.
  cbn [metar_string PointMETAR_new] in H. fold parts in H.
  unfold decode in H.
  apply bind_err in H. destruct H as [H|[loc [_ H]]].
  { apply item0_err in H. destruct H as [H _].
    now apply split_not_nil in H. }
  apply bind_err in H. destruct H as [H|[ts [_ H]]]; [now left|].
  apply bind_err in H. destruct H as [H|[w [_ H]]]; [now right; left|].
  apply bind_err in H. destruct H as [H|[t [_ H]]];
    [now right; right; left|].
  apply bind_err in H. destruct H as [H|[c [_ H]]]; [|discriminate].
  right. right. right. unfold cav_of in H.
  destruct (Str.mem "CAVOK" parts); [discriminate|]. split; [reflexivity|].
  apply bind_err in H. destruct H as [H|[cl [_ H]]]; [now left|].
  apply bind_err in H. destruct H as [H|[v [_ H]]]; [now right|].
  destruct (wx_of_total parts) as [wx Hwx]. rewrite Hwx in H. discriminate.
Qed.

(** [parse] raises [AttributeError] only when no token matches the
    temperature pattern; and with no such token it never returns an
    object. *)
Theorem attribute_error_is_missing_temperature today s :
  (PointMETAR_init today s = Err AttributeError ->
   forall p, In p (Str.split " " s) -> Re.re_match tempre p = false)
  /\ ((forall p, In p (Str.split " " s) -> Re.re_match tempre p = false) ->
      forall o, PointMETAR_init today s <> Ok o).
Proof.
  split.
  - intros H. apply find_none_iff. apply init_err_inv in H.
    destruct H as [H|[H|[H|[_ [H|H]]]]].
    + apply timestamp_of_raises in H. destruct H; discriminate.
    + apply wind_of_raises in H. destruct H; discriminate.
    + apply temp_of_raises in H. destruct H as [[_ H]|H];
        [assumption|discriminate].
    + apply ceil_of_raises in H. destruct H as [[H _]|H]; discriminate.
    + apply vis_of_raises in H. destruct H as [H|[H|[H _]]]; discriminate.
  - intros Hno o Ho. apply init_ok_inv in Ho.
    destruct Ho as (loc & ts & w & t & c & _ & _ & _ & Ht & _).
    unfold temp_of in Ht.
    rewrite (proj2 (find_none_iff _ _) Hno) in Ht. discriminate.
Qed.

(** [parse] raises [KeyError] for one reason: without [CAVOK], [NSC] and
    [SKC], a token holds a key of [CLOUDS] and its first three characters
    are no key. *)
Theorem key_error_is_unknown_cloud_code today s :
  PointMETAR_init today s = Err KeyError ->
  ~ In "CAVOK" (Str.split " " s)
  /\ ~ In "NSC" (Str.split " " s)
  /\ ~ In "SKC" (Str.split " " s)
  /\ exists tok,
       In tok (Str.split " " s)
       /\ has_cloud_key tok = true
       /\ getitem CLOUDS (Str.take 3 tok) = Err KeyError.
Proof.
  intros H. apply init_err_inv in H.
  destruct H as [H|[H|[H|[Hcav [H|H]]]]].
  - apply timestamp_of_raises in H. destruct H; discriminate.
  - apply wind_of_raises in H. destruct H; discriminate.
  - apply temp_of_raises in H. destruct H as [[H _]|H]; discriminate.
  - apply ceil_of_raises in H.
    destruct H as [(_ & Hn & Hs & Htok)|H]; [|discriminate].
    repeat split; try (now apply mem_not_In). exact Htok.
  - apply vis_of_raises in H. destruct H as [H|[H|[H _]]]; discriminate.
Qed.

(** [parse] raises [ZeroDivisionError] for one reason: without [CAVOK],
    the visibility token is a fraction whose two parts are numbers and whose
    division raises it. *)
Theorem zero_division_is_zero_denominator today s :
  PointMETAR_init today s = Err ZeroDivisionError ->
  ~ In "CAVOK" (Str.split " " s)
  /\ exists visf a b x y,
       item0 (filter (fun p => Str.endswith p "SM") (Str.split " " s))
       = Ok visf
       /\ Str.split "/" (Str.drop_last 2 visf) = [a; b]
       /\ float_of_str a = Ok x /\ float_of_str b = Ok y
       /\ float_truediv x y = Err ZeroDivisionError.
Proof.
  intros H. apply init_err_inv in H.
  destruct H as [H|[H|[H|[Hcav [H|H]]]]].
  - apply timestamp_of_raises in H. destruct H; discriminate.
  - apply wind_of_raises in H. destruct H; discriminate.
  - apply temp_of_raises in H. destruct H as [[H _]|H]; discriminate.
  - apply ceil_of_raises in H. destruct H as [[H _]|H]; discriminate.
  - apply vis_of_raises in H. destruct H as [H|[H|[_ H]]]; try discriminate.
    split; [now apply mem_not_In|exact H].
Qed.

End ExceptionCauses.

(* ================================================================== *)
(** ** The wind group *)

Section Wind.

Context {F : PyFloat}.

Implicit Types (today : Datetime.date) (s : string) (o : PointMETAR).

Lemma length_app (x y : string) :
  String.length (x ++ y) = String.length x + String.length y.
Proof. induction x as [|c x IH]; simpl; [reflexivity|now rewrite IH]. Qed.

Lemma length_take (n : nat) (x : string) :
  String.length (Str.take n x) = Nat.min n (String.length x).
Proof.
  revert x. induction n as [|n IH]; intros [|c x]; simpl; try reflexivity.
  now rewrite IH.
Qed.

Lemma drop_all (n : nat) (x : string) :
  String.length x <= n -> Str.drop n x = "".
Proof.
  revert x. induction n as [|n IH]; intros [|c x]; simpl; try reflexivity.
  - intros H. inversion H.
  - intros H. apply IH. now apply Nat.succ_le_mono.
Qed.

Lemma drop_app_length (x y : string) :
  Str.drop (String.length x) (x ++ y) = y.
Proof. induction x as [|c x IH]; simpl; [now destruct y|exact IH]. Qed.

Lemma split_hd_length (sep : ascii) (x : string) :
  forall w rest, Str.split sep x = w :: rest ->
                 String.length w <= String.length x.
Proof.
  induction x as [|c x IH]; simpl; intros w rest H.
  - injection H as <- _. apply Nat.le_refl.
  - destruct (Ascii.eqb c sep).
    + injection H as <- _. apply Nat.le_0_l.
    + destruct (Str.split sep x) as [|w' ws] eqn:E.
      * injection H as <- _. simpl. apply le_n_S, Nat.le_0_l.
      * injection H as <- _. simpl. apply le_n_S. now apply (IH w' ws).
Qed.

(** A string without the separator is its own single part. *)
Lemma split_no_sep (sep : ascii) (x : string) :
  Str.contains (String sep "") x = false -> Str.split sep x = [x].
Proof.
  induction x as [|c x IH]; simpl; [reflexivity|].
  rewrite (Ascii.eqb_sym sep c).
  destruct (Ascii.eqb c sep); simpl; intros H.
  - destruct x; discriminate H.
  - now rewrite (IH H).
Qed.

Lemma contains_app_sep (sep : ascii) (x y : string) :
  Str.contains (String sep "") (x ++ String sep y) = true.
Proof.
  induction x as [|c x IH]; simpl.
  - rewrite Ascii.eqb_refl. now destruct y.
  - rewrite IH. apply orb_true_r.
Qed.

Lemma str_app_assoc (x y z : string) :
  ((x ++ y) ++ z)%string = (x ++ y ++ z)%string.
Proof. induction x as [|c x IH]; simpl; [reflexivity|now rewrite IH]. Qed.

Lemma int_empty : Py.int "" = Err ValueError.
Proof. reflexivity. Qed.

(** The wind token of a parsed report has six characters or more: three
    of direction, one or more of speed, and the two that are dropped. *)
Lemma wind_token_length today s o kt :
  PointMETAR_init today s = Ok o ->
  item0 (filter (fun p => Str.contains "KT" p) (Str.split " " s)) = Ok kt ->
  6 <= String.length kt.
Proof.
  intros Ho Hkt. apply init_ok_inv in Ho.
  destruct Ho as (loc & ts & w & t & c & _ & _ & Hw & _ & _ & _).
  unfold wind_of in Hw. rewrite Hkt in Hw. cbn [bind] in Hw.
  apply bind_ok in Hw. destruct Hw as [[w0 g] [Hg Hw]].
  apply bind_ok in Hw. destruct Hw as [spd [Hspd _]]. cbn [fst] in Hspd.
  assert (Hlen : String.length w0 <= String.length kt - 2).
  { assert (Hseg : String.length (Str.drop_last 2 kt) = String.length kt - 2).
    { unfold Str.drop_last. rewrite length_take. lia. }
    rewrite <- Hseg. unfold gust_of in Hg.
    destruct (Str.contains "G" (Str.drop_last 2 kt)).
    - destruct (Str.split "G" (Str.drop_last 2 kt)) as [|w1 [|g1 rest]] eqn:E;
        try discriminate.
      apply bind_ok in Hg. destruct Hg as [gust [_ Hg]].
      injection Hg as <- _. now apply (split_hd_length "G" _ _ _ E).
    - injection Hg as <- _. apply Nat.le_refl. }
  destruct (Nat.le_gt_cases 6 (String.length kt)) as [H6|H6]; [exact H6|].
  exfalso. rewrite drop_all in Hspd by lia. discriminate Hspd.
Qed.

(** The wind group is the first token that holds [KT], the station
    identifier included.  A report whose first token holds [KT] and has
    fewer than six characters (a station such as KTPA) never parses. *)
Theorem station_with_KT_never_parses today s id :
  hd_error (Str.split " " s) = Some id ->
  Str.contains "KT" id = true ->
  String.length id < 6 ->
  forall o, PointMETAR_init today s <> Ok o.
Proof.
  intros Hid HKT Hlen o Ho.
  assert (Hkt : item0 (filter (fun p => Str.contains "KT" p)
                         (Str.split " " s)) = Ok id).
  { destruct (Str.split " " s) as [|p parts]; [discriminate|].
    injection Hid as ->. simpl. now rewrite HKT. }
  pose proof (wind_token_length today s o id Ho Hkt). lia.
Qed.

(** A wind token of three characters of direction, a speed, and [KT],
    with no [G]: the direction is the integer the three characters read as,
    or the three characters themselves when they are no integer; the speed
    is the integer that follows; the gust is 0. *)
Theorem wind_without_gust today s o kt d sp :
  PointMETAR_init today s = Ok o ->
  item0 (filter (fun p => Str.contains "KT" p) (Str.split " " s)) = Ok kt ->
  kt = (d ++ sp ++ "KT")%string ->
  String.length d = 3 ->
  Str.contains "G" (d ++ sp) = false ->
  winddir o = Some (match Py.int d with
                    | Ok n => IsInt n
                    | Err _ => IsStr d
                    end)
  /\ (exists n, Py.int sp = Ok n /\ windspd o = Some n)
  /\ windgust o = Some 0%Z.
Proof.
  intros Ho Hkt -> Hd HG. apply init_ok_inv in Ho.
  destruct Ho as (loc & ts & w & t & c & _ & _ & Hw & _ & _ & ->).
  cbn [winddir windspd windgust].
  unfold wind_of in Hw. rewrite Hkt in Hw. cbn [bind] in Hw.
  assert (Hseg : Str.drop_last 2 (d ++ sp ++ "KT") = (d ++ sp)%string).
  { rewrite <- str_app_assoc. exact (drop_last_app (d ++ sp) "KT"). }
  rewrite Hseg in Hw. unfold gust_of in Hw. rewrite HG in Hw.
  cbn [bind fst snd] in Hw.
  apply bind_ok in Hw. destruct Hw as [spd [Hspd Hw]].
  injection Hw as <-. cbn [fst snd]. unfold dir_of.
  rewrite <- Hd in *. rewrite take_app_length.
  rewrite drop_app_length in Hspd.
  repeat split. now exists spd.
Qed.

(** A wind token of three characters of direction, a speed, [G], a gust
    and [KT]: direction and speed as without a gust, and the gust is the
    integer between [G] and [KT]. *)
Theorem wind_with_gust today s o kt d sp g :
  PointMETAR_init today s = Ok o ->
  item0 (filter (fun p => Str.contains "KT" p) (Str.split " " s)) = Ok kt ->
  kt = (d ++ sp ++ "G" ++ g ++ "KT")%string ->
  String.length d = 3 ->
  Str.contains "G" (d ++ sp) = false ->
  Str.contains "G" g = false ->
  winddir o = Some (match Py.int d with
                    | Ok n => IsInt n
                    | Err _ => IsStr d
                    end)
  /\ (exists n, Py.int sp = Ok n /\ windspd o = Some n)
  /\ (exists n, Py.int g = Ok n /\ windgust o = Some n).
Proof.
  intros Ho Hkt -> Hd HG Hg. apply init_ok_inv in Ho.
  destruct Ho as (loc & ts & w & t & c & _ & _ & Hw & _ & _ & ->).
  cbn [winddir windspd windgust].
  unfold wind_of in Hw. rewrite Hkt in Hw. cbn [bind] in Hw.
  assert (Hseg : Str.drop_last 2 (d ++ sp ++ "G" ++ g ++ "KT")
                 = ((d ++ sp) ++ String "G" g)%string).
  { replace (d ++ sp ++ "G" ++ g ++ "KT")%string
      with (((d ++ sp) ++ String "G" g) ++ "KT")%string.
    - exact (drop_last_app _ "KT").
    - rewrite !str_app_assoc. reflexivity. }
  rewrite Hseg in Hw. unfold gust_of in Hw.
  rewrite (contains_app_sep "G") in Hw.
  rewrite split_app, (split_no_sep "G" _ HG), (split_no_sep "G" _ Hg) in Hw.
  cbn [app] in Hw.
  apply bind_ok in Hw. destruct Hw as [[w0 gust] [Hgw Hw]].
  apply bind_ok in Hgw. destruct Hgw as [gn [Hgn Hgw]].
  injection Hgw as <- <-.
  apply bind_ok in Hw. destruct Hw as [spd [Hspd Hw]].
  injection Hw as <-. cbn [fst snd] in *. unfold dir_of.
  rewrite <- Hd in *. rewrite take_app_length.
  rewrite drop_app_length in Hspd.
  repeat split; [now exists spd|now exists gn].
Qed.

End Wind.

(* ================================================================== *)
(** ** The temperature group *)

Section Temperature.

Context {F : PyFloat}.

Implicit Types (today : Datetime.date) (s : string) (o : PointMETAR).

(** *** What a match of a matcher is *)

Lemma m_chr_inv (p : ascii -> bool) (x r t : string) :
  In (x, r) (Re.m_chr p t) ->
  exists c, t = String c r /\ x = String c "" /\ p c = true.
Proof.
  unfold Re.m_chr. destruct t as [|c t]; [contradiction|].
  destruct (p c) eqn:E; [|contradiction].
  intros [[= <- <-]|[]]. now exists c.
Qed.

Lemma m_seq_inv (a b : Re.matcher) (x r t : string) :
  In (x, r) (Re.m_seq a b t) ->
  exists x1 r1 x2,
    In (x1, r1) (a t) /\ In (x2, r) (b r1) /\ x = (x1 ++ x2)%string.
Proof.
  unfold Re.m_seq. intros H. apply in_flat_map in H.
  destruct H as [[x1 r1] [H1 H]]. apply in_map_iff in H.
  destruct H as [[x2 r2] [[= <- <-] H2]]. now exists x1, r1, x2.
Qed.

Lemma m_opt_inv (a : Re.matcher) (x r t : string) :
  In (x, r) (Re.m_opt a t) -> In (x, r) (a t) \/ (x = "" /\ r = t).
Proof.
  unfold Re.m_opt, Re.m_alt, Re.m_eps. intros H. apply in_app_or in H.
  destruct H as [H|[[= <- <-]|[]]]; [now left|now right].
Qed.

Lemma re_match_inv (r : Re.matcher) (t : string) :
  Re.re_match r t = true -> exists x rest, In (x, rest) (r t).
Proof.
  unfold Re.re_match. destruct (r t) as [|[x rest] l]; [discriminate|].
  intros _. exists x, rest. now left.
Qed.

Lemma opt_M_inv (x r t : string) :
  In (x, r) (Re.m_opt (Re.m_chr (Re.lit "M")) t) ->
  exists m, x = minus m /\ t = (minus m ++ r)%string.
Proof.
  intros H. apply m_opt_inv in H. destruct H as [H|[-> ->]].
  - apply m_chr_inv in H. destruct H as (c & -> & -> & Hc).
    unfold Re.lit in Hc. apply Ascii.eqb_eq in Hc. subst c.
    now exists true.
  - now exists false.
Qed.

Lemma digit_inv (x r t : string) :
  In (x, r) (Re.d_ t) ->
  exists c, t = String c r /\ x = String c "" /\ Py.is_digit c = true.
Proof. apply m_chr_inv. Qed.

(** A token the temperature pattern matches starts with an optional [M],
    two digits and a slash. *)
Lemma tempre_shape (tg : string) :
  Re.re_match tempre tg = true ->
  exists m a b rest,
    tg = (minus m ++ String a (String b (String "/" rest)))%string
    /\ Py.is_digit a = true /\ Py.is_digit b = true.
Proof.
  intros H. apply re_match_inv in H. destruct H as (x & r & H).
  unfold tempre in H.
  apply m_seq_inv in H. destruct H as (x6 & r6 & d4 & H & _ & _).
  apply m_seq_inv in H. destruct H as (x5 & r5 & d3 & H & _ & _).
  apply m_seq_inv in H. destruct H as (x4 & r4 & m2 & H & _ & _).
  apply m_seq_inv in H. destruct H as (x3 & r3 & sl & H & Hsl & _).
  apply m_seq_inv in H. destruct H as (x2 & r2 & d2 & H & Hd2 & _).
  apply m_seq_inv in H. destruct H as (x1 & r1 & d1 & H & Hd1 & _).
  apply opt_M_inv in H. destruct H as (m & _ & ->).
  apply digit_inv in Hd1. destruct Hd1 as (a & -> & _ & Ha).
  apply digit_inv in Hd2. destruct Hd2 as (b & -> & _ & Hb).
  apply m_chr_inv in Hsl. destruct Hsl as (c & -> & _ & Hc).
  unfold Re.lit in Hc. apply Ascii.eqb_eq in Hc. subst c.
  now exists m, a, b, r4.
Qed.

(** *** Two digits *)

Lemma digit_cases (c : ascii) :
  Py.is_digit c = true ->
  In c ["0"; "1"; "2"; "3"; "4"; "5"; "6"; "7"; "8"; "9"]%char.
Proof.
  destruct c as [[] [] [] [] [] [] [] []]; vm_compute; intros H;
    try discriminate H; tauto.
Qed.

(** A sign marker and two digits read as the number, negated by [M]. *)
Lemma signed_two_digits (m : bool) (a b : ascii) :
  Py.is_digit a = true -> Py.is_digit b = true ->
  signed (minus m ++ String a (String b ""))
  = Ok (if m then - (10 * Py.digit_val a + Py.digit_val b)
        else 10 * Py.digit_val a + Py.digit_val b)%Z
  /\ (0 <= 10 * Py.digit_val a + Py.digit_val b <= 99)%Z.
Proof.
  intros Ha Hb. apply digit_cases in Ha, Hb.
  simpl in Ha, Hb.
  repeat (destruct Ha as [Ha|Ha]; [subst a|]); try contradiction;
    repeat (destruct Hb as [Hb|Hb]; [subst b|]); try contradiction;
    destruct m; vm_compute; repeat split; congruence.
Qed.

Lemma digit_not_slash (c : ascii) : Py.is_digit c = true -> c <> "/"%char.
Proof. intros H ->. discriminate H. Qed.

(** The left part of the temperature token: marker and two digits. *)
Lemma temp_token_split (m : bool) (a b : ascii) (rest : string) :
  Py.is_digit a = true -> Py.is_digit b = true ->
  Str.split "/" (minus m ++ String a (String b (String "/" rest)))
  = (minus m ++ String a (String b ""))%string :: Str.split "/" rest.
Proof.
  intros Ha Hb.
  apply digit_not_slash in Ha, Hb.
  apply Ascii.eqb_neq in Ha, Hb.
  destruct m; simpl; rewrite Ha, Hb; reflexivity.
Qed.

(** The temperature of a parsed report is between -99 and 99: the pattern
    is matched from the start of the token, so what stands before the slash
    is a marker and two digits.  (The dew point has no such bound: the
    pattern does not reach the end of the token.) *)
Theorem temperature_has_two_digits today s o :
  PointMETAR_init today s = Ok o ->
  exists t, temp o = Some t /\ (-99 <= t <= 99)%Z.
Proof.
  intros Ho. apply init_ok_inv in Ho.
  destruct Ho as (loc & ts & w & t & c & _ & _ & _ & Ht & _ & ->).
  cbn [temp]. exists (fst t). split; [reflexivity|].
  unfold temp_of in Ht.
  destruct (find (Re.re_match tempre) (Str.split " " s)) as [tg|] eqn:E;
    [|discriminate].
  apply find_some in E. destruct E as [_ E].
  apply tempre_shape in E. destruct E as (m & a & b & rest & -> & Ha & Hb).
  rewrite (temp_token_split m a b rest Ha Hb) in Ht.
  destruct (Str.split "/" rest) as [|r [|x xs]]; try discriminate.
  destruct (signed_two_digits m a b Ha Hb) as [Hs Hr].
  revert Hs Hr. generalize (10 * Py.digit_val a + Py.digit_val b)%Z as v.
  intros v Hs Hr. rewrite Hs in Ht.
  apply bind_ok in Ht. destruct Ht as [tv [Htv Ht]]. injection Htv as <-.
  apply bind_ok in Ht. destruct Ht as [d [_ Ht]]. injection Ht as <-.
  unfold fst. destruct m; lia.
Qed.

(** A temperature token of exactly a marker or none, two digits, a slash,
    a marker or none, and two digits: temperature and dew point are the two
    numbers, negative under the marker [M]. *)
Theorem temperature_decoded today s o tg (m1 m2 : bool) (a b c d : ascii) :
  PointMETAR_init today s = Ok o ->
  find (Re.re_match tempre) (Str.split " " s) = Some tg ->
  tg = (minus m1 ++ String a (String b "") ++ "/"
        ++ minus m2 ++ String c (String d ""))%string ->
  Py.is_digit a = true -> Py.is_digit b = true ->
  Py.is_digit c = true -> Py.is_digit d = true ->
  temp o = Some (if m1 then - (10 * Py.digit_val a + Py.digit_val b)
                 else 10 * Py.digit_val a + Py.digit_val b)%Z
  /\ dewpt o = Some (if m2 then - (10 * Py.digit_val c + Py.digit_val d)
                     else 10 * Py.digit_val c + Py.digit_val d)%Z.
Proof.
  intros Ho Hfind -> Ha Hb Hc Hd. apply init_ok_inv in Ho.
  destruct Ho as (loc & ts & w & t & cv & _ & _ & _ & Ht & _ & ->).
  cbn [temp dewpt]. unfold temp_of in Ht. rewrite Hfind in Ht.
  change (minus m1 ++ String a (String b "") ++ "/"
          ++ minus m2 ++ String c (String d ""))%string
    with (minus m1 ++ String a (String b (String "/"
            (minus m2 ++ String c (String d "")))))%string in Ht.
  rewrite (temp_token_split m1 a b _ Ha Hb) in Ht.
  assert (Hr : Str.split "/" (minus m2 ++ String c (String d ""))
               = [(minus m2 ++ String c (String d ""))%string]).
  { apply split_no_sep.
    pose proof (digit_not_slash c Hc) as Hc'.
    pose proof (digit_not_slash d Hd) as Hd'.
    apply Ascii.eqb_neq in Hc', Hd'.
    rewrite Ascii.eqb_sym in Hc', Hd'.
    destruct m2; cbn -[Ascii.eqb]; rewrite Hc', Hd'; reflexivity. }
  rewrite Hr in Ht.
  rewrite (proj1 (signed_two_digits m1 a b Ha Hb)) in Ht.
  rewrite (proj1 (signed_two_digits m2 c d Hc Hd)) in Ht.
  unfold bind in Ht. injection Ht as <-. split; reflexivity.
Qed.

End Temperature.

(* ================================================================== *)
(** ** The weather field: tokens, order of the modifiers *)

Section Weather.

Context {F : PyFloat}.

(** *** The sort *)

Lemma combine_map {A : Type} (f : A -> Z) (l : list A) :
  combine (map f l) l = map (fun x => (f x, x)) l.
Proof. induction l as [|x l IH]; simpl; [reflexivity|now rewrite IH]. Qed.

Lemma sorted_by_fst {A : Type} (f : A -> Z) (l : list (Z * A)) :
  Forall (fun p => fst p = f (snd p)) l ->
  StronglySorted (fun a b => (fst a <= fst b)%Z) l ->
  StronglySorted (fun a b => (f a <= f b)%Z) (map snd l).
Proof.
  intros Hf Hs. induction Hs as [|p l Hs IH Hp]; simpl; [constructor|].
  inversion Hf as [|? ? Hp' Hf']; subst. constructor; [now apply IH|].
  apply Forall_map. rewrite Forall_forall in *.
  intros q Hq. rewrite <- Hp', <- (Hf' q Hq). now apply Hp.
Qed.

Lemma filter_by_fst {A : Type} (f : A -> Z) (z : Z) (l : list (Z * A)) :
  Forall (fun p => fst p = f (snd p)) l ->
  filter (fun a => (f a =? z)%Z) (map snd l)
  = map snd (filter (fun p => (fst p =? z)%Z) l).
Proof.
  induction 1 as [|p l Hp _ IH]; simpl; [reflexivity|].
  rewrite <- Hp, IH. now destruct (fst p =? z)%Z.
Qed.

(** A sort whose keys are the values of [f]: the result is in ascending
    order of [f], and the elements of one key keep their order. *)
Lemma sort_by_key_sorted {A : Type} (key : A -> result Z) (f : A -> Z)
  (l l' : list A) :
  mapM key l = Ok (map f l) ->
  sort_by_key key l = Ok l' ->
  StronglySorted (fun a b => (f a <= f b)%Z) l'
  /\ forall z, filter (fun a => (f a =? z)%Z) l'
               = filter (fun a => (f a =? z)%Z) l.
Proof.
  intros Hk H. unfold sort_by_key in H. rewrite Hk in H. cbn [bind] in H.
  injection H as <-. rewrite combine_map.
  set (g := fun x : A => (f x, x)).
  assert (Hg : Forall (fun p => fst p = f (snd p)) (map g l)).
  { apply Forall_map, Forall_forall. reflexivity. }
  assert (Hf : Forall (fun p => fst p = f (snd p)) (stable_sort (map g l))).
  { eapply Permutation_Forall; [|exact Hg].
    apply Permutation_sym, stable_sort_perm. }
  split.
  - apply sorted_by_fst; [exact Hf|].
    apply Sorted_StronglySorted; [|apply stable_sort_sorted].
    intros a b c Hab Hbc. lia.
  - intros z. rewrite (filter_by_fst f z _ Hf), stable_sort_stable.
    rewrite <- (filter_by_fst f z _ Hg). now rewrite map_map, map_id.
Qed.

(** *** The keys [k] computes *)

Lemma k_of_key (m : string) :
  Str.mem m (keys METAR_WXMODS) = true ->
  k (Some m) = Ok (k_value (Some m)) /\ wxmod_order m <> 0%Z.
Proof.
  intros H. apply mem_In in H. simpl in H.
  repeat (destruct H as [H|H]; [subst m; split; [reflexivity|discriminate]|]).
  contradiction.
Qed.

Lemma k_of_keys (ms : list string) :
  Forall (fun m => Str.mem m (keys METAR_WXMODS) = true) ms ->
  mapM k (None :: map Some ms) = Ok (map k_value (None :: map Some ms))
  /\ Forall (fun m => wxmod_order m <> 0%Z) ms.
Proof.
  intros H.
  assert (H' : mapM k (map Some ms) = Ok (map k_value (map Some ms))
               /\ Forall (fun m => wxmod_order m <> 0%Z) ms).
  { induction H as [|m ms Hm _ [IH1 IH2]]; [split; [reflexivity|constructor]|].
    destruct (k_of_key m Hm) as [Hk Hz]. split; [|now constructor].
    cbn [map mapM]. rewrite Hk, IH1. reflexivity. }
  destruct H' as [H1 H2]. split; [|exact H2].
  cbn [mapM map]. rewrite H1. reflexivity.
Qed.

Lemma sorted_app_inv {A : Type} (R : A -> A -> Prop) (l1 l2 : list A) :
  StronglySorted R (l1 ++ l2) ->
  StronglySorted R l1 /\ StronglySorted R l2
  /\ Forall (fun a => Forall (R a) l2) l1.
Proof.
  induction l1 as [|a l1 IH]; simpl; intros H.
  - repeat split; [constructor|assumption|constructor].
  - apply StronglySorted_inv in H. destruct H as [H Ha].
    destruct (IH H) as (H1 & H2 & H3).
    apply Forall_app in Ha. destruct Ha as [Ha1 Ha2].
    repeat split; [now constructor|assumption|now constructor].
Qed.

Lemma sorted_app {A : Type} (R : A -> A -> Prop) (l1 l2 : list A) :
  StronglySorted R l1 -> StronglySorted R l2 ->
  Forall (fun a => Forall (R a) l2) l1 ->
  StronglySorted R (l1 ++ l2).
Proof.
  intros H1 H2 H. induction H1 as [|a l1 H1 IH Ha]; simpl; [assumption|].
  inversion H as [|? ? Hal2 H']; subst.
  constructor; [now apply IH|]. apply Forall_app. now split.
Qed.

Lemma sorted_map_Some (l : list string) :
  StronglySorted (fun a b => (k_value a <= k_value b)%Z) (map Some l) ->
  StronglySorted (fun a b => (wxmod_order b <= wxmod_order a)%Z) l.
Proof.
  induction l as [|a l IH]; simpl; intros H; [constructor|].
  apply StronglySorted_inv in H. destruct H as [H Ha].
  constructor; [now apply IH|].
  rewrite Forall_map in Ha. revert Ha. apply Forall_impl.
  intros b. simpl. lia.
Qed.

Lemma filter_map_Some (z : Z) (l : list string) :
  z <> 0%Z ->
  filter (fun a => (k_value a =? - z)%Z) (map Some l)
  = map Some (filter (fun m => (wxmod_order m =? z)%Z) l).
Proof.
  intros Hz. induction l as [|a l IH]; simpl; [reflexivity|]. rewrite IH.
  destruct (wxmod_order a =? z)%Z eqn:E.
  - apply Z.eqb_eq in E. rewrite E, Z.eqb_refl. reflexivity.
  - apply Z.eqb_neq in E.
    assert (E' : (- wxmod_order a =? - z)%Z = false) by (apply Z.eqb_neq; lia).
    now rewrite E'.
Qed.

Lemma filter_nothing {A : Type} (f : A -> bool) (l : list A) :
  Forall (fun a => f a = false) l -> filter f l = [].
Proof. induction 1 as [|a l Ha _ IH]; simpl; [reflexivity|now rewrite Ha]. Qed.

Lemma map_Some_inj (l l' : list string) : map Some l = map Some l' -> l = l'.
Proof.
  revert l'. induction l as [|a l IH]; intros [|b l']; simpl;
    try discriminate; [reflexivity|].
  intros [= -> H]. f_equal. now apply IH.
Qed.

(** Where the sort puts the modifiers: the rendered text names first the
    modifiers of positive order, then the codes, then the modifiers of
    negative order; the modifiers are in descending order of their order in
    [METAR_WXMODS], and those of one order ([+] and [-]) keep the order they
    have in the field. *)
Theorem modifiers_in_table_order parts self wx_field :
  find_wx_field parts None = Some wx_field ->
  exists (codes ms names hi lo : list string),
    gobble wx_field [] [None] "" = (codes, None :: map Some ms)
    /\ mapM (fun c => fmap fst (getitem METAR_WXCODES c)) codes = Ok names
    /\ parse_wx parts self
       = Ok (set_weather
               (Some (Str.join " "
                        (map wxmod_name hi ++ names ++ map wxmod_name lo)))
               self)
    /\ Forall (fun m => (0 < wxmod_order m)%Z) hi
    /\ Forall (fun m => (wxmod_order m < 0)%Z) lo
    /\ StronglySorted (fun a b => (wxmod_order b <= wxmod_order a)%Z)
                      (hi ++ lo)
    /\ forall z, filter (fun m => (wxmod_order m =? z)%Z) (hi ++ lo)
                 = filter (fun m => (wxmod_order m =? z)%Z) ms.
Proof.
  intros Hfind.
  destruct (gobble_appends wx_field [] [None] "") as (codes & ms & Hg & Hcs & Hms).
  cbn [app] in Hg.
  destruct (code_names_ok codes Hcs) as [names Hn].
  destruct (k_of_keys ms Hms) as [Hk Hnz].
  assert (Hsort : exists sorted,
             sort_by_key k (None :: map Some ms) = Ok sorted).
  { unfold sort_by_key. rewrite Hk. cbn [bind]. now eexists. }
  destruct Hsort as [sorted Hsort].
  destruct (sort_by_key_sorted k k_value _ _ Hk Hsort) as [Hss Hst].
  pose proof (sort_by_key_perm _ _ _ Hsort) as Hperm.
  assert (Hin : In None sorted).
  { apply (Permutation_in None (Permutation_sym Hperm)). now left. }
  apply in_split in Hin. destruct Hin as (l1 & l2 & ->).
  apply Permutation_sym, Permutation_cons_app_inv in Hperm.
  apply Permutation_sym, Permutation_map_inv in Hperm.
  destruct Hperm as (l3 & Hl3 & Hperm).
  symmetry in Hl3. apply map_eq_app in Hl3.
  destruct Hl3 as (hi & lo & -> & <- & <-).
  assert (Hnz' : Forall (fun m => wxmod_order m <> 0%Z) (hi ++ lo)).
  { eapply Permutation_Forall; [|exact Hnz]. now apply Permutation_sym. }
  apply Forall_app in Hnz'. destruct Hnz' as [Hnzhi Hnzlo].
  apply sorted_app_inv in Hss. destruct Hss as (Hshi & Hslo & Hcross).
  apply StronglySorted_inv in Hslo. destruct Hslo as [Hslo Hnone].
  exists codes, ms, names, hi, lo. repeat split; try assumption.
  - rewrite parse_wx_eq. unfold wx_of, render_wx.
    rewrite Hfind, Hg, Hn. cbn [bind]. rewrite Hsort. cbn [bind fmap].
    now rewrite inject_split.
  - rewrite Forall_map in Hcross. rewrite Forall_forall in *.
    intros m Hm. specialize (Hcross m Hm). specialize (Hnzhi m Hm).
    inversion Hcross as [|? ? H0 _]; subst. simpl in H0. lia.
  - rewrite Forall_map in Hnone. rewrite Forall_forall in *.
    intros m Hm. specialize (Hnone m Hm). specialize (Hnzlo m Hm).
    simpl in Hnone. lia.
  - apply sorted_app; [now apply sorted_map_Some..|].
    rewrite Forall_map in Hcross. revert Hcross. apply Forall_impl.
    intros a Ha. inversion Ha as [|? ? _ Ha']; subst.
    rewrite Forall_map in Ha'. revert Ha'. apply Forall_impl.
    intros b. simpl. lia.
  - intros z. destruct (Z.eq_dec z 0) as [->|Hz].
    + rewrite !filter_nothing; [reflexivity| |].
      * revert Hnz. apply Forall_impl. intros m. apply Z.eqb_neq.
      * apply Forall_app. split; [revert Hnzhi|revert Hnzlo];
          apply Forall_impl; intros m; apply Z.eqb_neq.
    + specialize (Hst (- z)%Z).
      rewrite filter_app in Hst. cbn [filter k_value] in Hst.
      assert (E : (0 =? - z)%Z = false) by (apply Z.eqb_neq; lia).
      rewrite E, <- filter_app, <- map_app in Hst.
      rewrite !filter_map_Some in Hst by assumption.
      now apply map_Some_inj.
Qed.

(** *** The loop over the characters *)

Lemma gobble_key (key rest : string) codes modifiers :
  Str.mem key (keys METAR_WXCODES) || Str.mem key (keys METAR_WXMODS) = true ->
  gobble (key ++ rest) codes modifiers ""
  = if Str.mem key (keys METAR_WXCODES)
    then gobble rest (codes ++ [key]) modifiers ""
    else gobble rest codes (modifiers ++ [Some key]) "".
Proof.
  intros H. apply orb_true_iff in H. rewrite !mem_In, <- in_app_iff in H.
  simpl in H.
  repeat (destruct H as [H|H]; [subst key; reflexivity|]).
  contradiction.
Qed.

(** A field made of keys of the two tables, one after the other, is read
    back as these keys: the codes in [codes] and the modifiers, after the
    placeholder, in [modifiers], each in the order of the field. *)
Theorem gobble_reads_keys (ks : list string) :
  Forall (fun x => Str.mem x (keys METAR_WXCODES)
                   || Str.mem x (keys METAR_WXMODS) = true) ks ->
  gobble (concat_str ks) [] [None] ""
  = (filter (fun x => Str.mem x (keys METAR_WXCODES)) ks,
     None :: map Some
               (filter (fun x => negb (Str.mem x (keys METAR_WXCODES))) ks)).
Proof.
  intros H.
  enough (G : forall codes modifiers,
             gobble (concat_str ks) codes modifiers ""
             = (codes ++ filter (fun x => Str.mem x (keys METAR_WXCODES)) ks,
                modifiers
                ++ map Some
                     (filter (fun x => negb (Str.mem x (keys METAR_WXCODES)))
                        ks))) by exact (G [] [None]).
  induction H as [|key ks Hkey _ IH]; intros codes modifiers.
  - simpl. now rewrite !app_nil_r.
  - cbn [concat_str fold_right]. fold (concat_str ks).
    rewrite (gobble_key key _ codes modifiers Hkey). cbn [filter].
    destruct (Str.mem key (keys METAR_WXCODES)); cbn [negb map];
      rewrite IH, <- app_assoc; reflexivity.
Qed.

(** *** A character that begins no key *)

Lemma starts_key_mem (c : ascii) (g : string) (l : list string) :
  existsb (fun key => match key with
                      | String c' _ => Ascii.eqb c' c
                      | "" => false
                      end) l = false ->
  Str.mem (String c g) l = false.
Proof.
  unfold Str.mem. induction l as [|key l IH]; cbn [existsb]; [reflexivity|].
  intros H. apply orb_false_iff in H. destruct H as [H1 H2].
  rewrite (IH H2), orb_false_r.
  destruct key as [|c' key]; [reflexivity|].
  cbn [String.eqb]. rewrite Ascii.eqb_sym, H1. reflexivity.
Qed.

Lemma gobble_stuck (c : ascii) (rest : string) :
  starts_key c = false ->
  forall g codes modifiers,
    gobble rest codes modifiers (String c g) = (codes, modifiers).
Proof.
  intros Hc. unfold starts_key in Hc. rewrite existsb_app in Hc.
  apply orb_false_iff in Hc. destruct Hc as [Hc Hm].
  induction rest as [|a rest IH]; intros g codes modifiers; [reflexivity|].
  cbn [gobble]. change (String c g ++ String a "")%string
    with (String c (g ++ String a "")).
  rewrite (starts_key_mem c _ _ Hc), (starts_key_mem c _ _ Hm). apply IH.
Qed.

Lemma gobble_unknown_first (c : ascii) (r : string) codes modifiers :
  starts_key c = false ->
  gobble (String c r) codes modifiers "" = (codes, modifiers).
Proof.
  intros Hc. pose proof (gobble_stuck c r Hc) as Hs.
  unfold starts_key in Hc. rewrite existsb_app in Hc.
  apply orb_false_iff in Hc. destruct Hc as [Hc Hm].
  cbn [gobble]. change ("" ++ String c "")%string with (String c "").
  rewrite (starts_key_mem c _ _ Hc), (starts_key_mem c _ _ Hm). apply Hs.
Qed.

(** The weather field is the first token that holds a phenomenon code,
    whatever the token is.  When it begins with a character that begins no
    key (a station identifier such as KBRD, which holds [BR]), no code and
    no modifier is read from it, and the weather of the report is the empty
    text, whatever weather group follows. *)
Theorem unknown_first_character_blanks_weather today s o c r :
  find_wx_field (Str.split " " s) None = Some (String c r) ->
  starts_key c = false ->
  PointMETAR_init today s = Ok o ->
  weather o = Some "".
Proof.
  intros Hfind Hc Ho. apply init_ok_inv in Ho.
  destruct Ho as (loc & ts & w & t & cv & _ & _ & _ & _ & Hcv & ->).
  cbn [weather]. unfold cav_of in Hcv.
  destruct (Str.mem "CAVOK" (Str.split " " s)).
  - now injection Hcv as <-.
  - apply bind_ok in Hcv. destruct Hcv as [cl [_ Hcv]].
    apply bind_ok in Hcv. destruct Hcv as [v [_ Hcv]].
    apply bind_ok in Hcv. destruct Hcv as [wx [Hw Hcv]].
    injection Hcv as <-. cbn [snd].
    unfold wx_of in Hw. rewrite Hfind in Hw. unfold render_wx in Hw.
    rewrite (gobble_unknown_first c r _ _ Hc) in Hw. now injection Hw as <-.
Qed.

End Weather.

(* ================================================================== *)
(** ** The timestamp of a six-digit group *)

Section Timestamp.

Context {F : PyFloat}.

(** *** What the pieces of the format take *)

Lemma m_alt_inv (a b : Re.matcher) (x r t : string) :
  In (x, r) (Re.m_alt a b t) -> In (x, r) (a t) \/ In (x, r) (b t).
Proof. unfold Re.m_alt. apply in_app_or. Qed.

Lemma m_seq_intro (a b : Re.matcher) (x1 r1 x2 r t : string) :
  In (x1, r1) (a t) -> In (x2, r) (b r1) ->
  In ((x1 ++ x2)%string, r) (Re.m_seq a b t).
Proof.
  intros H1 H2. unfold Re.m_seq. apply in_flat_map.
  exists (x1, r1). split; [assumption|].
  apply in_map_iff. now exists (x2, r).
Qed.

Lemma digit_intro (c : ascii) (r : string) :
  Py.is_digit c = true -> In (String c "", r) (Re.d_ (String c r)).
Proof.
  intros H. unfold Re.d_, Re.m_chr.
  change (Re.between "0" "9" c) with (Py.is_digit c). rewrite H. now left.
Qed.

Lemma chr_takes_one (p : ascii -> bool) : takes_one_or_two (Re.m_chr p).
Proof.
  intros t x rest H. apply m_chr_inv in H.
  destruct H as (c & -> & -> & _). left. now exists c.
Qed.

Lemma chr_chr_takes_two (p q : ascii -> bool) :
  takes_one_or_two (Re.m_seq (Re.m_chr p) (Re.m_chr q)).
Proof.
  intros t x rest H. apply m_seq_inv in H.
  destruct H as (x1 & r1 & x2 & H1 & H2 & ->).
  apply m_chr_inv in H1. destruct H1 as (a & -> & -> & _).
  apply m_chr_inv in H2. destruct H2 as (b & -> & -> & _).
  right. now exists a, b.
Qed.

Lemma alt_takes (a b : Re.matcher) :
  takes_one_or_two a -> takes_one_or_two b ->
  takes_one_or_two (Re.m_alt a b).
Proof.
  intros Ha Hb t x rest H. apply m_alt_inv in H.
  destruct H; [now apply Ha|now apply Hb].
Qed.

Ltac takes :=
  repeat apply alt_takes;
  first [apply chr_chr_takes_two | apply chr_takes_one].

Lemma re_m_takes : takes_one_or_two Datetime.re_m.
Proof. unfold Datetime.re_m, Re.d_. takes. Qed.

Lemma re_d_takes : takes_one_or_two Datetime.re_d.
Proof. unfold Datetime.re_d, Re.d_. takes. Qed.

Lemma re_H_takes : takes_one_or_two Datetime.re_H.
Proof. unfold Datetime.re_H, Re.d_. takes. Qed.

Lemma re_M_takes : takes_one_or_two Datetime.re_M.
Proof. unfold Datetime.re_M, Re.d_. takes. Qed.

(** The offset starts with a sign or is [Z]: never with a digit. *)
Lemma re_z_first (z rest t : string) :
  In (z, rest) (Datetime.re_z t) ->
  exists c t', t = String c t' /\ Py.is_digit c = false.
Proof.
  unfold Datetime.re_z. intros H. apply m_alt_inv in H. destruct H as [H|H].
  - do 6 (apply m_seq_inv in H; destruct H as (? & ? & ? & H & _ & _)).
    apply m_chr_inv in H. destruct H as (c & -> & _ & Hc).
    exists c. eexists. split; [reflexivity|].
    apply orb_true_iff in Hc. unfold Re.lit in Hc.
    destruct Hc as [Hc|Hc]; apply Ascii.eqb_eq in Hc; subst c; reflexivity.
  - apply m_chr_inv in H. destruct H as (c & -> & _ & Hc).
    unfold Re.lit in Hc. apply Ascii.eqb_eq in Hc. subst c.
    exists "Z"%char. now eexists.
Qed.

Lemma re_Y_inv (Y r1 t : string) :
  In (Y, r1) (Datetime.re_Y t) ->
  exists y1 y2 y3 y4,
    t = String y1 (String y2 (String y3 (String y4 r1)))
    /\ Y = String y1 (String y2 (String y3 (String y4 ""))).
Proof.
  unfold Datetime.re_Y. intros H.
  apply m_seq_inv in H. destruct H as (x3 & r3 & d4 & H & H4 & ->).
  apply m_seq_inv in H. destruct H as (x2 & r2 & d3 & H & H3 & ->).
  apply m_seq_inv in H. destruct H as (x1 & r0 & d2 & H & H2 & ->).
  apply digit_inv in H. destruct H as (y1 & -> & -> & _).
  apply digit_inv in H2. destruct H2 as (y2 & -> & -> & _).
  apply digit_inv in H3. destruct H3 as (y3 & -> & -> & _).
  apply digit_inv in H4. destruct H4 as (y4 & -> & -> & _).
  now exists y1, y2, y3, y4.
Qed.

Lemma re_Y_intro (y1 y2 y3 y4 : ascii) (r : string) :
  Py.is_digit y1 = true -> Py.is_digit y2 = true ->
  Py.is_digit y3 = true -> Py.is_digit y4 = true ->
  In (String y1 (String y2 (String y3 (String y4 ""))), r)
     (Datetime.re_Y (String y1 (String y2 (String y3 (String y4 r))))).
Proof.
  intros H1 H2 H3 H4. unfold Datetime.re_Y.
  change (String y1 (String y2 (String y3 (String y4 ""))))
    with (((String y1 "" ++ String y2 "") ++ String y3 "")
          ++ String y4 "")%string.
  repeat eapply m_seq_intro; now apply digit_intro.
Qed.

Lemma matches_inv (t : string) (g : Datetime.groups) :
  In g (Datetime.matches t) ->
  exists Y r1 m r2 d r3 H r4 M r5 z rest,
    In (Y, r1) (Datetime.re_Y t) /\ In (m, r2) (Datetime.re_m r1)
    /\ In (d, r3) (Datetime.re_d r2) /\ In (H, r4) (Datetime.re_H r3)
    /\ In (M, r5) (Datetime.re_M r4) /\ In (z, rest) (Datetime.re_z r5)
    /\ g = Datetime.mkgroups Y m d H M z rest.
Proof.
  unfold Datetime.matches. intros H.
  apply in_flat_map in H. destruct H as [[Y r1] [HY H]].
  apply in_flat_map in H. destruct H as [[m r2] [Hm H]].
  apply in_flat_map in H. destruct H as [[d r3] [Hd H]].
  apply in_flat_map in H. destruct H as [[H' r4] [HH H]].
  apply in_flat_map in H. destruct H as [[M r5] [HM H]].
  apply in_map_iff in H. destruct H as [[z rest] [<- Hz]].
  cbn [fst snd] in *.
  exists Y, r1, m, r2, d, r3, H', r4, M, r5, z, rest. repeat split; assumption.
Qed.

Lemma matches_intro (t Y r1 m r2 d r3 H r4 M r5 z rest : string) :
  In (Y, r1) (Datetime.re_Y t) -> In (m, r2) (Datetime.re_m r1) ->
  In (d, r3) (Datetime.re_d r2) -> In (H, r4) (Datetime.re_H r3) ->
  In (M, r5) (Datetime.re_M r4) -> In (z, rest) (Datetime.re_z r5) ->
  In (Datetime.mkgroups Y m d H M z rest) (Datetime.matches t).
Proof.
  intros HY Hm Hd HH HM Hz. unfold Datetime.matches.
  apply in_flat_map. exists (Y, r1). split; [assumption|].
  apply in_flat_map. exists (m, r2). split; [assumption|].
  apply in_flat_map. exists (d, r3). split; [assumption|].
  apply in_flat_map. exists (H, r4). split; [assumption|].
  apply in_flat_map. exists (M, r5). split; [assumption|].
  apply in_map_iff. now exists (z, rest).
Qed.

(** *** Four digits of year, two of month, six of the group, the offset *)

Ltac take_chars L H :=
  let E := fresh "E" in
  pose proof H as E; apply L in E;
  destruct E as [(? & E & ->)|(? & ? & E & ->)];
  [injection E as <- <-|injection E as <- <- <-].

(** The format matches such a string in one way at most: every piece takes
    two characters. *)
Lemma matches_six_digits (y1 y2 y3 y4 a b d1 d2 h1 h2 m1 m2 : ascii)
  (g : Datetime.groups) :
  Py.is_digit h1 = true -> Py.is_digit h2 = true ->
  Py.is_digit m1 = true -> Py.is_digit m2 = true ->
  In g (Datetime.matches
          (String y1 (String y2 (String y3 (String y4 (String a (String b
          (String d1 (String d2 (String h1 (String h2 (String m1 (String m2
           "+0000"))))))))))))) ->
  g = Datetime.mkgroups
        (String y1 (String y2 (String y3 (String y4 ""))))
        (String a (String b "")) (String d1 (String d2 ""))
        (String h1 (String h2 "")) (String m1 (String m2 "")) "+0000" ""
  /\ In (String d1 (String d2 ""),
         String h1 (String h2 (String m1 (String m2 "+0000"))))
        (Datetime.re_d (String d1 (String d2 (String h1 (String h2
                          (String m1 (String m2 "+0000")))))))
  /\ In (String h1 (String h2 ""), String m1 (String m2 "+0000"))
        (Datetime.re_H (String h1 (String h2 (String m1 (String m2 "+0000")))))
  /\ In (String m1 (String m2 ""), "+0000")
        (Datetime.re_M (String m1 (String m2 "+0000"))).
Proof.
  intros Hh1 Hh2 Hm1 Hm2 Hg. apply matches_inv in Hg.
  destruct Hg as (Y & r1 & m & r2 & d & r3 & H & r4 & M & r5 & z & rest
                  & HY & Hm & Hd & HH & HM & Hz & ->).
  apply re_Y_inv in HY. destruct HY as (? & ? & ? & ? & E & ->).
  injection E as <- <- <- <- <-.
  take_chars re_m_takes Hm; take_chars re_d_takes Hd;
    take_chars re_H_takes HH; take_chars re_M_takes HM;
    first
      [ exfalso; apply re_z_first in Hz; destruct Hz as (c & t' & E & Hc);
        injection E as <- _; congruence
      | simpl in Hz; destruct Hz as [[= <- <-]|[]]; repeat split; assumption ].
Qed.

Lemma int_two_digits (a b : ascii) :
  Py.is_digit a = true -> Py.is_digit b = true ->
  Py.int (String a (String b "")) = Ok (two_digits a b).
Proof.
  intros Ha Hb. apply digit_cases in Ha, Hb. simpl in Ha, Hb.
  repeat (destruct Ha as [Ha|Ha]; [subst a|]); try contradiction;
    repeat (destruct Hb as [Hb|Hb]; [subst b|]); try contradiction;
    reflexivity.
Qed.

(** Which two digits each piece of the format takes. *)
Lemma re_d_two (d1 d2 : ascii) (r : string) :
  Py.is_digit d1 = true -> Py.is_digit d2 = true ->
  existsb (fun xr => String.eqb (fst xr) (String d1 (String d2 "")))
          (Datetime.re_d (String d1 (String d2 r)))
  = ((1 <=? two_digits d1 d2) && (two_digits d1 d2 <=? 31))%Z.
Proof.
  intros Ha Hb. apply digit_cases in Ha, Hb. simpl in Ha, Hb.
  repeat (destruct Ha as [Ha|Ha]; [subst d1|]); try contradiction;
    repeat (destruct Hb as [Hb|Hb]; [subst d2|]); try contradiction;
    reflexivity.
Qed.

Lemma re_H_two (h1 h2 : ascii) (r : string) :
  Py.is_digit h1 = true -> Py.is_digit h2 = true ->
  existsb (fun xr => String.eqb (fst xr) (String h1 (String h2 "")))
          (Datetime.re_H (String h1 (String h2 r)))
  = (two_digits h1 h2 <=? 23)%Z.
Proof.
  intros Ha Hb. apply digit_cases in Ha, Hb. simpl in Ha, Hb.
  repeat (destruct Ha as [Ha|Ha]; [subst h1|]); try contradiction;
    repeat (destruct Hb as [Hb|Hb]; [subst h2|]); try contradiction;
    reflexivity.
Qed.

Lemma re_M_two (m1 m2 : ascii) (r : string) :
  Py.is_digit m1 = true -> Py.is_digit m2 = true ->
  existsb (fun xr => String.eqb (fst xr) (String m1 (String m2 "")))
          (Datetime.re_M (String m1 (String m2 r)))
  = (two_digits m1 m2 <=? 59)%Z.
Proof.
  intros Ha Hb. apply digit_cases in Ha, Hb. simpl in Ha, Hb.
  repeat (destruct Ha as [Ha|Ha]; [subst m1|]); try contradiction;
    repeat (destruct Hb as [Hb|Hb]; [subst m2|]); try contradiction;
    reflexivity.
Qed.

Lemma two_of_existsb (re : Re.matcher) (a b : ascii) (r : string) :
  takes_one_or_two re ->
  existsb (fun xr => String.eqb (fst xr) (String a (String b "")))
          (re (String a (String b r))) = true
  <-> In (String a (String b ""), r) (re (String a (String b r))).
Proof.
  intros Hre. rewrite existsb_exists. split.
  - intros [[x r'] [Hin Hx]]. cbn [fst] in Hx. apply String.eqb_eq in Hx.
    subst x. pose proof Hin as Hin'. apply Hre in Hin'.
    destruct Hin' as [(c & _ & [=])|(c & c' & E & _)].
    injection E as _ _ <-. exact Hin.
  - intros Hin. exists (String a (String b ""), r).
    split; [assumption|]. apply String.eqb_refl.
Qed.

(** *** [strftime("%Y%m")] *)

Lemma year_digits (y : Z) :
  (1000 <= y <= 9999)%Z ->
  exists y1 y2 y3 y4,
    Datetime.zfill 4 (Py.str y)
    = String y1 (String y2 (String y3 (String y4 "")))
    /\ Py.int (String y1 (String y2 (String y3 (String y4 "")))) = Ok y
    /\ Py.is_digit y1 = true /\ Py.is_digit y2 = true
    /\ Py.is_digit y3 = true /\ Py.is_digit y4 = true.
Proof.
  intros Hy.
  pose (check := fun n : nat =>
          let y := (1000 + Z.of_nat n)%Z in
          match Datetime.zfill 4 (Py.str y) with
          | String y1 (String y2 (String y3 (String y4 ""))) =>
              match Py.int (String y1 (String y2 (String y3 (String y4 ""))))
              with
              | Ok v => (v =? y)%Z
              | Err _ => false
              end
              && Py.is_digit y1 && Py.is_digit y2
              && Py.is_digit y3 && Py.is_digit y4
          | _ => false
          end).
  assert (Hall : forallb check (seq 0 (Z.to_nat 9000)) = true)
    by (vm_compute; reflexivity).
  rewrite forallb_forall in Hall. specialize (Hall (Z.to_nat (y - 1000))).
  rewrite in_seq in Hall.
  assert (Hc : check (Z.to_nat (y - 1000)) = true) by (apply Hall; lia).
  unfold check in Hc. cbv zeta in Hc. rewrite Z2Nat.id in Hc by lia.
  replace (1000 + (y - 1000))%Z with y in Hc by lia.
  destruct (Datetime.zfill 4 (Py.str y))
    as [|y1 [|y2 [|y3 [|y4 [|? ?]]]]]; try discriminate Hc.
  destruct (Py.int (String y1 (String y2 (String y3 (String y4 "")))))
    as [v|] eqn:Ei; [|discriminate Hc].
  repeat (apply andb_true_iff in Hc; destruct Hc as [Hc ?]).
  apply Z.eqb_eq in Hc. subst v. exists y1, y2, y3, y4.
  repeat split; assumption.
Qed.

Lemma month_digits (m : Z) :
  (1 <= m <= 12)%Z ->
  exists a b,
    Datetime.zfill 2 (Py.str m) = String a (String b "")
    /\ Py.int (String a (String b "")) = Ok m
    /\ forall r, In (String a (String b ""), r)
                    (Datetime.re_m (String a (String b r))).
Proof.
  intros Hm.
  assert (H : In m [1; 2; 3; 4; 5; 6; 7; 8; 9; 10; 11; 12]%Z)
    by (simpl; lia).
  simpl in H.
  repeat (destruct H as [H|H];
          [subst m; do 2 eexists; split; [reflexivity|];
           split; [reflexivity|]; intros r; simpl; auto|]).
  contradiction.
Qed.

(** *** The timestamp *)

(** [strptime] on four digits of year, two of month, six digits and the
    offset: the date and the time the digits read as, when they are a day of
    the month, an hour and a minute; [ValueError] otherwise. *)
Lemma strptime_six_digits (y m : Z) (y1 y2 y3 y4 a b d1 d2 h1 h2 m1 m2 : ascii) :
  Py.is_digit y1 = true -> Py.is_digit y2 = true ->
  Py.is_digit y3 = true -> Py.is_digit y4 = true ->
  Py.int (String y1 (String y2 (String y3 (String y4 "")))) = Ok y ->
  Py.int (String a (String b "")) = Ok m ->
  (forall r, In (String a (String b ""), r)
                (Datetime.re_m (String a (String b r)))) ->
  Py.is_digit d1 = true -> Py.is_digit d2 = true ->
  Py.is_digit h1 = true -> Py.is_digit h2 = true ->
  Py.is_digit m1 = true -> Py.is_digit m2 = true ->
  Datetime.strptime
    (String y1 (String y2 (String y3 (String y4 (String a (String b
    (String d1 (String d2 (String h1 (String h2 (String m1 (String m2
     "+0000"))))))))))))
  = if Datetime.valid_date y m (two_digits d1 d2)
       && (two_digits h1 h2 <=? 23)%Z && (two_digits m1 m2 <=? 59)%Z
    then Ok (Datetime.mkdatetime y m (two_digits d1 d2) (two_digits h1 h2)
               (two_digits m1 m2) (0, 0)%Z)
    else Err ValueError.
Proof.
  intros Hy1 Hy2 Hy3 Hy4 Hy Hm Hrm Hd1 Hd2 Hh1 Hh2 Hm1 Hm2.
  set (t := String y1 _).
  assert (Hconv : forall g l,
             Datetime.matches t = g :: l ->
             Datetime.strptime t
             = (if Datetime.valid_date y m (two_digits d1 d2)
                then Ok (Datetime.mkdatetime y m (two_digits d1 d2)
                           (two_digits h1 h2) (two_digits m1 m2) (0, 0)%Z)
                else Err ValueError)
               /\ (two_digits h1 h2 <=? 23)%Z = true
               /\ (two_digits m1 m2 <=? 59)%Z = true).
  { intros g l E.
    assert (Hg : In g (Datetime.matches t)) by (rewrite E; now left).
    apply matches_six_digits in Hg; try assumption.
    destruct Hg as (-> & _ & HH & HM).
    apply (two_of_existsb _ _ _ _ re_H_takes) in HH.
    apply (two_of_existsb _ _ _ _ re_M_takes) in HM.
    rewrite re_H_two in HH by assumption.
    rewrite re_M_two in HM by assumption.
    split; [|now split].
    unfold Datetime.strptime. rewrite E.
    cbn [Datetime.g_rest Datetime.g_Y Datetime.g_m Datetime.g_d
         Datetime.g_H Datetime.g_M Datetime.g_z].
    rewrite Hy, Hm, !int_two_digits by assumption.
    change (negb ("" =? "")%string) with false. cbv iota. cbn [bind].
    change (Datetime.tz_of_z "+0000") with (@Ok (Z * Z) (0, 0)%Z).
    cbn [bind]. change (Datetime.valid_offset (0, 0)%Z) with true.
    now rewrite andb_true_r. }
  destruct (Datetime.valid_date y m (two_digits d1 d2)
            && (two_digits h1 h2 <=? 23)%Z
            && (two_digits m1 m2 <=? 59)%Z) eqn:C.
  - apply andb_true_iff in C. destruct C as [C CM].
    apply andb_true_iff in C. destruct C as [CV CH].
    assert (Hin : In (Datetime.mkgroups
                        (String y1 (String y2 (String y3 (String y4 ""))))
                        (String a (String b "")) (String d1 (String d2 ""))
                        (String h1 (String h2 "")) (String m1 (String m2 ""))
                        "+0000" "")
                     (Datetime.matches t)).
    { eapply matches_intro.
      - now apply re_Y_intro.
      - apply Hrm.
      - apply (two_of_existsb _ _ _ _ re_d_takes).
        rewrite re_d_two by assumption.
        unfold Datetime.valid_date in CV.
        repeat (apply andb_true_iff in CV; destruct CV as [CV ?]).
        apply andb_true_iff. split; [assumption|].
        apply Z.leb_le. 
        assert (Hdim : (Datetime.days_in_month y m <= 31)%Z).
        { unfold Datetime.days_in_month.
          repeat match goal with |- context [if ?c then _ else _] =>
                   destruct c end; lia. }
        match goal with Hd : (two_digits d1 d2 <=? _)%Z = true |- _ =>
          apply Z.leb_le in Hd; lia end.
      - apply (two_of_existsb _ _ _ _ re_H_takes).
        now rewrite re_H_two.
      - apply (two_of_existsb _ _ _ _ re_M_takes).
        now rewrite re_M_two.
      - simpl. now left. }
    destruct (Datetime.matches t) as [|g l] eqn:E; [contradiction|].
    destruct (Hconv g l eq_refl) as (-> & _ & _). now rewrite CV.
  - destruct (Datetime.matches t) as [|g l] eqn:E.
    + unfold Datetime.strptime. now rewrite E.
    + destruct (Hconv g l eq_refl) as (-> & CH & CM).
      rewrite CH, CM, !andb_true_r in C. now rewrite C.
Qed.

(** The timestamp of a report whose group has six digits. *)
Lemma timestamp_six_digits today parts (d1 d2 h1 h2 m1 m2 : ascii) :
  (1000 <= Datetime.year today <= 9999)%Z ->
  (1 <= Datetime.month today <= 12)%Z ->
  item0 (filter (fun p => Str.endswith p "Z") parts)
  = Ok (String d1 (String d2 (String h1 (String h2 (String m1 (String m2
        "Z")))))) ->
  Py.is_digit d1 = true -> Py.is_digit d2 = true ->
  Py.is_digit h1 = true -> Py.is_digit h2 = true ->
  Py.is_digit m1 = true -> Py.is_digit m2 = true ->
  timestamp_of today parts
  = if Datetime.valid_date (Datetime.year today) (Datetime.month today)
         (two_digits d1 d2)
       && (two_digits h1 h2 <=? 23)%Z && (two_digits m1 m2 <=? 59)%Z
    then Ok (Datetime.mkdatetime (Datetime.year today) (Datetime.month today)
               (two_digits d1 d2) (two_digits h1 h2) (two_digits m1 m2)
               (0, 0)%Z)
    else Err ValueError.
Proof.
  intros Hy Hm Htok Hd1 Hd2 Hh1 Hh2 Hm1 Hm2.
  unfold timestamp_of. rewrite Htok. cbn [bind].
  destruct (year_digits _ Hy) as (y1 & y2 & y3 & y4 & Ey & Hyi & ? & ? & ? & ?).
  destruct (month_digits _ Hm) as (a & b & Em & Hmi & Hrm).
  unfold Datetime.strftime_Ym. rewrite Ey, Em.
  change (Str.drop_last 1
            (String d1 (String d2 (String h1 (String h2 (String m1 (String m2
             "Z")))))))
    with (String d1 (String d2 (String h1 (String h2 (String m1 (String m2
          "")))))).
  cbn [String.append].
  now apply strptime_six_digits.
Qed.

(** A timestamp group of six digits and [Z]: the timestamp of the parsed
    report has the year and the month of the current date, the day, the hour
    and the minute the digits read as, and the offset of UTC; the day is a
    day of that month, the hour is at most 23 and the minute at most 59. *)
Theorem timestamp_decoded today s o (d1 d2 h1 h2 m1 m2 : ascii) :
  (1000 <= Datetime.year today <= 9999)%Z ->
  (1 <= Datetime.month today <= 12)%Z ->
  item0 (filter (fun p => Str.endswith p "Z") (Str.split " " s))
  = Ok (String d1 (String d2 (String h1 (String h2 (String m1 (String m2
        "Z")))))) ->
  Py.is_digit d1 = true -> Py.is_digit d2 = true ->
  Py.is_digit h1 = true -> Py.is_digit h2 = true ->
  Py.is_digit m1 = true -> Py.is_digit m2 = true ->
  PointMETAR_init today s = Ok o ->
  timestamp o
  = Some (Datetime.mkdatetime (Datetime.year today) (Datetime.month today)
            (two_digits d1 d2) (two_digits h1 h2) (two_digits m1 m2)
            (0, 0)%Z)
  /\ (1 <= two_digits d1 d2
      <= Datetime.days_in_month (Datetime.year today) (Datetime.month today))%Z
  /\ (two_digits h1 h2 <= 23)%Z /\ (two_digits m1 m2 <= 59)%Z.
Proof.
  intros Hy Hm Htok Hd1 Hd2 Hh1 Hh2 Hm1 Hm2 Ho. apply init_ok_inv in Ho.
  destruct Ho as (loc & ts & w & t & c & _ & Hts & _ & _ & _ & ->).
  cbn [timestamp].
  rewrite (timestamp_six_digits today _ d1 d2 h1 h2 m1 m2) in Hts
    by assumption.
  destruct (Datetime.valid_date _ _ _ && _ && _) eqn:C; [|discriminate Hts].
  injection Hts as <-. split; [reflexivity|].
  apply andb_true_iff in C. destruct C as [C CM].
  apply andb_true_iff in C. destruct C as [CV CH].
  unfold Datetime.valid_date in CV.
  repeat (apply andb_true_iff in CV; destruct CV as [CV ?]).
  repeat match goal with H : (_ <=? _)%Z = true |- _ =>
           apply Z.leb_le in H end.
  lia.
Qed.

(** A timestamp group of six digits and [Z] that is no day of the current
    month (the 31st read in a month of 30 days, the day 00), or whose hour
    is above 23 or whose minute above 59: [parse] raises [ValueError]. *)
Theorem timestamp_out_of_range_raises today s (d1 d2 h1 h2 m1 m2 : ascii) :
  (1000 <= Datetime.year today <= 9999)%Z ->
  (1 <= Datetime.month today <= 12)%Z ->
  item0 (filter (fun p => Str.endswith p "Z") (Str.split " " s))
  = Ok (String d1 (String d2 (String h1 (String h2 (String m1 (String m2
        "Z")))))) ->
  Py.is_digit d1 = true -> Py.is_digit d2 = true ->
  Py.is_digit h1 = true -> Py.is_digit h2 = true ->
  Py.is_digit m1 = true -> Py.is_digit m2 = true ->
  ~ ((1 <= two_digits d1 d2
      <= Datetime.days_in_month (Datetime.year today) (Datetime.month today))%Z
     /\ (two_digits h1 h2 <= 23)%Z /\ (two_digits m1 m2 <= 59)%Z) ->
  PointMETAR_init today s = Err ValueError.
Proof.
  intros Hy Hm Htok Hd1 Hd2 Hh1 Hh2 Hm1 Hm2 Hbad.
  unfold PointMETAR_init. rewrite parse_eq. simpl metar_string.
  unfold decode.
  rewrite (timestamp_six_digits today _ d1 d2 h1 h2 m1 m2) by assumption.
  destruct (Str.split " " s) as [|loc rest] eqn:E.
  { now apply split_not_nil in E. }
  cbn [item0 bind].
  destruct (Datetime.valid_date _ _ _ && _ && _) eqn:C; [|reflexivity].
  exfalso. apply Hbad.
  apply andb_true_iff in C. destruct C as [C CM].
  apply andb_true_iff in C. destruct C as [CV CH].
  unfold Datetime.valid_date in CV.
  repeat (apply andb_true_iff in CV; destruct CV as [CV ?]).
  repeat match goal with H : (_ <=? _)%Z = true |- _ =>
           apply Z.leb_le in H end.
  lia.
Qed.

End Timestamp.

(* ================================================================== *)
(** ** A token that ends in [Z] and is no timestamp *)

Section NoTimestamp.

Context {F : PyFloat}.

Lemma chr_takes_only (P p : ascii -> bool) :
  (forall c, p c = true -> P c = true) -> takes_only P (Re.m_chr p).
Proof.
  intros Hp t x rest c H Hc. apply m_chr_inv in H.
  destruct H as (a & -> & -> & Ha). simpl in Hc.
  destruct Hc as [<-|[]]. now apply Hp.
Qed.

Lemma chr_chr_takes_only (P p q : ascii -> bool) :
  (forall c, p c = true -> P c = true) ->
  (forall c, q c = true -> P c = true) ->
  takes_only P (Re.m_seq (Re.m_chr p) (Re.m_chr q)).
Proof.
  intros Hp Hq t x rest c H Hc. apply m_seq_inv in H.
  destruct H as (x1 & r1 & x2 & H1 & H2 & ->).
  apply m_chr_inv in H1. destruct H1 as (a & -> & -> & Ha).
  apply m_chr_inv in H2. destruct H2 as (b & -> & -> & Hb).
  simpl in Hc. destruct Hc as [<-|[<-|[]]]; [now apply Hp|now apply Hq].
Qed.

Lemma alt_takes_only (P : ascii -> bool) (a b : Re.matcher) :
  takes_only P a -> takes_only P b -> takes_only P (Re.m_alt a b).
Proof.
  intros Ha Hb t x rest c H. apply m_alt_inv in H.
  destruct H; [now apply (Ha t x rest)|now apply (Hb t x rest)].
Qed.

(** A check of every character. *)
Lemma all_ascii (Q : ascii -> bool) :
  forallb (fun n => Q (ascii_of_nat n)) (seq 0 256) = true ->
  forall c, Q c = true.
Proof.
  intros H c. rewrite forallb_forall in H.
  specialize (H (nat_of_ascii c)). rewrite ascii_nat_embedding in H.
  apply H, in_seq. pose proof (nat_ascii_bounded c). lia.
Qed.

Ltac by_all_ascii :=
  let c := fresh "c" in
  let H := fresh "H" in
  intros c H;
  match goal with
  | |- ?P c = true =>
      match type of H with
      | ?p c = true =>
          generalize (all_ascii (fun a => implb (p a) (P a))
                        ltac:(vm_compute; reflexivity) c);
          cbv beta; rewrite H; exact (fun e => e)
      end
  end.

Ltac takes_only :=
  repeat apply alt_takes_only;
  (first [apply chr_chr_takes_only | apply chr_takes_only]);
  by_all_ascii.

Lemma re_d_only : takes_only digit_or_space Datetime.re_d.
Proof. unfold Datetime.re_d, Re.d_. takes_only. Qed.

Lemma re_H_only : takes_only digit_or_space Datetime.re_H.
Proof. unfold Datetime.re_H, Re.d_. takes_only. Qed.

Ltac take_some L H :=
  let E := fresh "E" in
  pose proof H as E; apply L in E;
  destruct E as [(? & E & ->)|(? & ? & E & ->)];
  injection E; clear E; intros; subst.

(** The format does not match when, after the year and the month, comes a
    character that is no digit and no space. *)
Lemma matches_no_day (y1 y2 y3 y4 a b c : ascii) (x : string) :
  digit_or_space c = false ->
  Datetime.matches
    (String y1 (String y2 (String y3 (String y4 (String a (String b
    (String c x))))))) = [].
Proof.
  intros Hc.
  destruct (Datetime.matches _) as [|g l] eqn:E; [reflexivity|exfalso].
  assert (Hg : In g (Datetime.matches
                       (String y1 (String y2 (String y3 (String y4 (String a
                       (String b (String c x)))))))))
    by (rewrite E; now left).
  clear E. apply matches_inv in Hg.
  destruct Hg as (Y & r1 & m & r2 & d & r3 & H & r4 & M & r5 & z & rest
                  & HY & Hm & Hd & HH & _).
  apply re_Y_inv in HY. destruct HY as (? & ? & ? & ? & E & ->).
  injection E as <- <- <- <- <-.
  assert (Hd' : forall t q r, In (q, r) (Datetime.re_d t) ->
                  In c (list_ascii_of_string q) -> False).
  { intros t q r Hq Hin. apply (re_d_only _ _ _ c) in Hq; congruence. }
  assert (HH' : forall t q r, In (q, r) (Datetime.re_H t) ->
                  In c (list_ascii_of_string q) -> False).
  { intros t q r Hq Hin. apply (re_H_only _ _ _ c) in Hq; congruence. }
  take_some re_m_takes Hm; take_some re_d_takes Hd;
    try (apply (Hd' _ _ _ Hd); simpl; tauto);
    take_some re_H_takes HH; apply (HH' _ _ _ HH); simpl; tauto.
Qed.

Lemma split_first_char (sep c : ascii) (r s : string) :
  In (String c r) (Str.split sep s) -> c <> sep.
Proof.
  revert c r. induction s as [|a s IH]; simpl; intros c r H.
  - destruct H as [H|[]]. discriminate H.
  - destruct (Ascii.eqb a sep) eqn:E.
    + destruct H as [H|H]; [discriminate H|now apply (IH c r)].
    + apply Ascii.eqb_neq in E.
      destruct (Str.split sep s) as [|w ws].
      * destruct H as [[= <- _]|[]]. exact E.
      * destruct H as [[= <- _]|H]; [exact E|].
        apply (IH c r). now right.
Qed.

(** The timestamp group is the first token that ends in [Z], whatever it
    is.  When it does not start with a digit (a station identifier such as
    KLZZ), [parse] raises [ValueError], whatever timestamp follows. *)
Theorem first_Z_token_must_start_with_digit today s (c : ascii) (r : string) :
  (1000 <= Datetime.year today <= 9999)%Z ->
  (1 <= Datetime.month today <= 12)%Z ->
  item0 (filter (fun p => Str.endswith p "Z") (Str.split " " s))
  = Ok (String c r) ->
  Py.is_digit c = false ->
  PointMETAR_init today s = Err ValueError.
Proof.
  intros Hy Hm Htok Hc.
  assert (Hsp : c <> " "%char).
  { apply (split_first_char " " c r s).
    destruct (filter _ (Str.split " " s)) as [|p ps] eqn:E;
      [discriminate Htok|].
    injection Htok as ->.
    assert (Hin : In (String c r) (String c r :: ps)) by now left.
    rewrite <- E in Hin. apply filter_In in Hin. tauto. }
  assert (Hts : timestamp_of today (Str.split " " s) = Err ValueError).
  { unfold timestamp_of. rewrite Htok. cbn [bind].
    destruct (year_digits _ Hy)
      as (y1 & y2 & y3 & y4 & Ey & _ & _ & _ & _ & _).
    destruct (month_digits _ Hm) as (a & b & Em & _ & _).
    unfold Datetime.strftime_Ym. rewrite Ey, Em.
    assert (HX : exists c' x,
               (Str.drop_last 1 (String c r) ++ "+0000")%string = String c' x
               /\ digit_or_space c' = false).
    { destruct r as [|c2 r2].
      - exists "+"%char, "0000". split; reflexivity.
      - exists c. eexists. split.
        + unfold Str.drop_last. cbn [String.length Nat.sub Str.take].
          cbn [String.append]. reflexivity.
        + unfold digit_or_space. rewrite Hc. cbn [orb].
          now apply Ascii.eqb_neq. }
    destruct HX as (c' & x & -> & Hc').
    cbn [String.append]. unfold Datetime.strptime.
    now rewrite matches_no_day. }
  unfold PointMETAR_init. rewrite parse_eq. simpl metar_string.
  unfold decode. rewrite Hts.
  destruct (Str.split " " s) as [|loc rest] eqn:E.
  { now apply split_not_nil in E. }
  reflexivity.
Qed.

End NoTimestamp.

(* ================================================================== *)
(** ** The further properties on concrete reports *)

(** The sample report: every attribute is assigned. *)
Lemma parse_assigns_every_attribute_witness :
  exists o,
    PointMETAR_init jan_15 kgfk = Ok o
    /\ metar_string o = kgfk
    /\ loc_code o = hd_error (Str.split " " kgfk)
    /\ auto o = Some (Str.mem "AUTO" (Str.split " " kgfk))
    /\ timestamp o <> None
    /\ winddir o <> None /\ windspd o <> None /\ windgust o <> None
    /\ temp o <> None /\ dewpt o <> None
    /\ vis o <> None /\ weather o <> None /\ remarks o <> None.
Proof.
  run jan_15 kgfk E. exists_result E. split; [exact E|].
  exact (parse_assigns_every_attribute (F := binary64) jan_15 kgfk _ E).
Defined.

(** The layer of [FEW055]. *)
Lemma cloud_layer_shape_witness :
  cloud_layer "FEW055" = Ok "few at 5500"
  /\ exists key alt name octas n,
       "FEW055" = (key ++ alt)%string
       /\ String.length key = 3
       /\ getitem CLOUDS key = Ok (name, octas)
       /\ Py.int alt = Ok n
       /\ "few at 5500" = (name ++ " at " ++ Py.str (n * 100))%string.
Proof.
  split; [reflexivity|].
  apply (cloud_layer_shape "FEW055" "few at 5500"). reflexivity.
Defined.

(** The three layers of the sample report. *)
Lemma clouds_in_token_order_witness :
  exists o,
    PointMETAR_init jan_15 kgfk = Ok o
    /\ Forall2 (fun tok txt => cloud_layer tok = Ok txt)
               (filter has_cloud_key (Str.split " " kgfk)) (clouds o).
Proof.
  run jan_15 kgfk E. exists_result E. split; [exact E|].
  refine (clouds_in_token_order (F := binary64) jan_15 kgfk _ _ _ _ E);
    not_in.
Defined.

(** [SKC] beside a cloud group. *)
Lemma nsc_skc_clear_sky_witness :
  exists o,
    PointMETAR_init jan_15 "KGFK 262353Z 24011KT 10SM SKC BKN100 20/03 A2945"
    = Ok o
    /\ clouds o = [].
Proof.
  run jan_15 "KGFK 262353Z 24011KT 10SM SKC BKN100 20/03 A2945" E.
  exists_result E. split; [exact E|].
  refine (proj2 (nsc_skc_clear_sky (F := binary64) jan_15 _ _) _ E).
  right. simpl; tauto.
Defined.

(** The sample report has no weather group. *)
Lemma no_weather_sentinel_witness :
  exists o,
    PointMETAR_init jan_15 kgfk = Ok o /\ weather o = Some "nothing!".
Proof.
  run jan_15 kgfk E. exists_result E. split; [exact E|].
  refine (proj2 (no_weather_sentinel (F := binary64) jan_15 kgfk _) _ _ E).
  - intros p Hp. in_cases Hp.
  - not_in.
Defined.

(** A report with no wind group. *)
Lemma index_error_is_missing_group_witness :
  PointMETAR_init jan_15 "KGFK 262353Z 10SM BKN100 20/03 A2945"
  = Err IndexError
  /\ (let parts := Str.split " " "KGFK 262353Z 10SM BKN100 20/03 A2945" in
      filter (fun p => Str.endswith p "Z") parts = []
      \/ filter (fun p => Str.contains "KT" p) parts = []
      \/ (~ In "CAVOK" parts
          /\ filter (fun p => Str.endswith p "SM") parts = [])).
Proof.
  run jan_15 "KGFK 262353Z 10SM BKN100 20/03 A2945" E.
  split; [exact E|].
  exact (index_error_is_missing_group (F := binary64) (R := binary64_raises)
           jan_15 _ E).
Defined.

(** A report with no temperature group. *)
Lemma attribute_error_witness :
  PointMETAR_init jan_15 "KGFK 262353Z 24011KT 10SM BKN100 A2945"
  = Err AttributeError
  /\ forall p,
       In p (Str.split " " "KGFK 262353Z 24011KT 10SM BKN100 A2945") ->
       Re.re_match tempre p = false.
Proof.
  run jan_15 "KGFK 262353Z 24011KT 10SM BKN100 A2945" E.
  split; [exact E|].
  exact (proj1 (attribute_error_is_missing_temperature (F := binary64)
                  (R := binary64_raises) jan_15 _) E).
Defined.

(** A token that holds [CB] and starts with no key. *)
Lemma key_error_witness :
  PointMETAR_init jan_15 "KGFK 262353Z 24011KT 10SM XCB100 20/03 A2945"
  = Err KeyError
  /\ exists tok,
       In tok (Str.split " " "KGFK 262353Z 24011KT 10SM XCB100 20/03 A2945")
       /\ has_cloud_key tok = true
       /\ getitem CLOUDS (Str.take 3 tok) = Err KeyError.
Proof.
  run jan_15 "KGFK 262353Z 24011KT 10SM XCB100 20/03 A2945" E.
  split; [exact E|].
  exact (proj2 (proj2 (proj2
           (key_error_is_unknown_cloud_code (F := binary64)
              (R := binary64_raises) jan_15 _ E)))).
Defined.

(** A visibility of one over zero. *)
Lemma zero_division_witness :
  PointMETAR_init jan_15 "KGFK 262353Z 24011KT 1/0SM BKN100 20/03 A2945"
  = Err ZeroDivisionError
  /\ ~ In "CAVOK"
          (Str.split " " "KGFK 262353Z 24011KT 1/0SM BKN100 20/03 A2945").
Proof.
  run jan_15 "KGFK 262353Z 24011KT 1/0SM BKN100 20/03 A2945" E.
  split; [exact E|].
  exact (proj1 (zero_division_is_zero_denominator (F := binary64)
                  (R := binary64_raises) jan_15 _ E)).
Defined.

(** The station KTPA. *)
Lemma station_with_KT_witness :
  ~ exists o,
      PointMETAR_init jan_15 "KTPA 262353Z 24011KT 10SM BKN100 20/03 A2945"
      = Ok o.
Proof.
  intros [o Ho].
  refine (station_with_KT_never_parses (F := binary64) jan_15 _ "KTPA"
            _ _ _ o Ho); [reflexivity|reflexivity|simpl; lia].
Defined.

(** The wind group of the sample report. *)
Lemma wind_without_gust_witness :
  exists o,
    PointMETAR_init jan_15 kgfk = Ok o
    /\ winddir o = Some (IsInt 240)
    /\ (exists n, Py.int "11" = Ok n /\ windspd o = Some n)
    /\ windgust o = Some 0%Z.
Proof.
  run jan_15 kgfk E. exists_result E. split; [exact E|].
  refine (wind_without_gust (F := binary64) jan_15 kgfk _ "24011KT" "240" "11"
            E _ _ _ _); reflexivity.
Defined.

(** A wind group with a gust. *)
Lemma wind_with_gust_witness :
  exists o,
    PointMETAR_init jan_15 "KGFK 262353Z 24011G20KT 10SM BKN100 20/03 A2945"
    = Ok o
    /\ winddir o = Some (IsInt 240)
    /\ (exists n, Py.int "11" = Ok n /\ windspd o = Some n)
    /\ (exists n, Py.int "20" = Ok n /\ windgust o = Some n).
Proof.
  run jan_15 "KGFK 262353Z 24011G20KT 10SM BKN100 20/03 A2945" E.
  exists_result E. split; [exact E|].
  refine (wind_with_gust (F := binary64) jan_15 _ _ "24011G20KT" "240" "11"
            "20" E _ _ _ _ _); reflexivity.
Defined.

(** The temperature of the sample report. *)
Lemma temperature_has_two_digits_witness :
  exists o,
    PointMETAR_init jan_15 kgfk = Ok o
    /\ exists t, temp o = Some t /\ (-99 <= t <= 99)%Z.
Proof.
  run jan_15 kgfk E. exists_result E. split; [exact E|].
  exact (temperature_has_two_digits (F := binary64) jan_15 kgfk _ E).
Defined.

(** A temperature and a dew point below zero. *)
Lemma temperature_decoded_witness :
  exists o,
    PointMETAR_init jan_15 "KGFK 262353Z 24011KT 10SM BKN100 M05/M10 A2945"
    = Ok o
    /\ temp o = Some (-5)%Z /\ dewpt o = Some (-10)%Z.
Proof.
  run jan_15 "KGFK 262353Z 24011KT 10SM BKN100 M05/M10 A2945" E.
  exists_result E. split; [exact E|].
  refine (temperature_decoded (F := binary64) jan_15 _ _ "M05/M10"
            true true "0" "5" "1" "0" E _ _ _ _ _ _); reflexivity.
Defined.

(** A field with the two intensities, modifiers of both signs and two
    codes. *)
Lemma modifiers_in_table_order_witness :
  exists (codes ms names hi lo : list string),
    gobble "VC-SHRA+FZ" [] [None] "" = (codes, None :: map Some ms)
    /\ mapM (fun c => fmap fst (getitem METAR_WXCODES c)) codes = Ok names
    /\ parse_wx ["KGFK"; "VC-SHRA+FZ"; "20/03"] (PointMETAR_new "")
       = Ok (set_weather
               (Some (Str.join " "
                        (map wxmod_name hi ++ names ++ map wxmod_name lo)))
               (PointMETAR_new ""))
    /\ Forall (fun m => (0 < wxmod_order m)%Z) hi
    /\ Forall (fun m => (wxmod_order m < 0)%Z) lo
    /\ StronglySorted (fun a b => (wxmod_order b <= wxmod_order a)%Z)
                      (hi ++ lo)
    /\ forall z, filter (fun m => (wxmod_order m =? z)%Z) (hi ++ lo)
                 = filter (fun m => (wxmod_order m =? z)%Z) ms.
Proof.
  apply (modifiers_in_table_order (F := binary64)).
  vm_compute; reflexivity.
Defined.

(** The text it renders: the intensities in the order of the field, the
    modifier of order 6, the codes, the modifier of order -6. *)
Example modifiers_order_ex :
  fmap weather (parse_wx (F := binary64) ["KGFK"; "VC-SHRA+FZ"; "20/03"]
                  (PointMETAR_new ""))
  = Ok (Some "slight heavy freezing shower rain in vicinity").
Proof. vm_compute; reflexivity. Qed.

(** The field [-SHRA]. *)
Lemma gobble_reads_keys_witness :
  gobble "-SHRA" [] [None] "" = (["SH"; "RA"], [None; Some "-"]).
Proof.
  apply (gobble_reads_keys ["-"; "SH"; "RA"]).
  repeat constructor.
Defined.

(** The station KBRD holds [BR]: the rain of the report is not read. *)
Lemma unknown_first_character_witness :
  exists o,
    PointMETAR_init jan_15 "KBRD 262353Z 24011KT 10SM -RA BKN100 20/03 A2945"
    = Ok o
    /\ weather o = Some "".
Proof.
  run jan_15 "KBRD 262353Z 24011KT 10SM -RA BKN100 20/03 A2945" E.
  exists_result E. split; [exact E|].
  refine (unknown_first_character_blanks_weather (F := binary64) jan_15 _ _
            "K" "BRD" _ _ E); reflexivity.
Defined.

(** The timestamp of the sample report, read in January 2024. *)
Lemma timestamp_decoded_witness :
  exists o,
    PointMETAR_init jan_15 kgfk = Ok o
    /\ timestamp o
       = Some (Datetime.mkdatetime 2024 1 26 23 53 (0, 0)%Z).
Proof.
  run jan_15 kgfk E. exists_result E. split; [exact E|].
  refine (proj1 (timestamp_decoded (F := binary64) jan_15 kgfk _
                   "2" "6" "2" "3" "5" "3" _ _ _ _ _ _ _ _ _ E));
    try reflexivity; simpl; lia.
Defined.

(** A report of the 31st read in April, and one of 24 hours. *)
Lemma timestamp_out_of_range_witness :
  PointMETAR_init (Datetime.mkdate 2024 4 15)
    "KGFK 312353Z 24011KT 10SM BKN100 20/03 A2945" = Err ValueError
  /\ PointMETAR_init jan_15
       "KGFK 262453Z 24011KT 10SM BKN100 20/03 A2945" = Err ValueError.
Proof.
  split.
  - apply (timestamp_out_of_range_raises (F := binary64) _ _
             "3" "1" "2" "3" "5" "3"); try reflexivity; try (simpl; lia).
    vm_compute. intros [[_ H] _]. now apply H.
  - apply (timestamp_out_of_range_raises (F := binary64) _ _
             "2" "6" "2" "4" "5" "3"); try reflexivity; try (simpl; lia).
    vm_compute. intros [_ [H _]]. now apply H.
Defined.

(** The station KLZZ ends in [Z]. *)
Lemma first_Z_token_witness :
  PointMETAR_init jan_15 "KLZZ 262353Z 24011KT 10SM BKN100 20/03 A2945"
  = Err ValueError.
Proof.
  apply (first_Z_token_must_start_with_digit (F := binary64) _ _ "K" "LZZ");
    try reflexivity; simpl; lia.
Defined.
